(** * LinkedIn Sales Navigator retriever: rate limiter, keyword optimiser
      and progressive-fallback search.

    A shallow embedding of

    - [gpt_researcher/retrievers/linkedin/rate_limiter.py] (class
      [RateLimiter]) and
    - [gpt_researcher/retrievers/linkedin/linkedin_sales_navigator.py]
      (the intent parser, the keyword optimiser, the search URL,
      [search_with_progressive_fallback], the result extractor and the
      entry points [search], [search_leads] and [search_companies]),

    followed by the properties of the design document that concern them
    and by further properties of the same code.

    Conventions of the embedding.

    - Python [int]s are [Z]; Python [float]s (epoch seconds, delays) are
      idealised as exact rationals [Q], so rounding error and overflow of
      IEEE doubles are outside the model.
    - Python [str] is [string], the UTF-8 bytes of the text; [lower],
      [split], [isalnum] and the length are those of ASCII text, so what
      is stated of the words of a text is stated under [is_ascii].
    - The wall clock and the random generator are read through an
      [Ambient] oracle: the n-th read of the clock and the n-th draw of
      the generator are functions of n, and the system state counts the
      reads and draws made so far.  Every [time.time()], [datetime.now()]
      and [random.*] call of the source is one read or one draw.  The
      same oracle says what becomes of each write of the state file and
      whether a read of it succeeds. *)

From Stdlib Require Import QArith Qminmax Qround Qpower Lqa ZArith String Ascii List.
From stdpp Require Import gmap strings list pretty.

(** ** Python primitives used by the sources *)

Module Py.

Local Open Scope Q_scope.

(** [a < b] on floats. *)
Definition Qltb (a b : Q) : bool := negb (Qle_bool b a).

(** Built-in [max(a, b)] and [min(a, b)] on two numbers: the first
    argument is kept unless the second is strictly larger (smaller). *)
Definition maxQ (a b : Q) : Q := if Qltb a b then b else a.
Definition minQ (a b : Q) : Q := if Qltb b a then b else a.

(** [random.uniform(a, b)] is [a + (b - a) * random()]. *)
Definition uniform_of (a b u : Q) : Q := a + (b - a) * u.

(** [random.gauss(mu, sigma)] is [mu + z * sigma] for a standard normal
    deviate [z]. *)
Definition gauss_of (mu sigma z : Q) : Q := mu + z * sigma.

(** Rounding to the nearest integer, ties to even, as the format
    specification [.0f] does. *)
Definition round_half_even (q : Q) : Z :=
  let n := Qfloor q in
  let r := q - inject_Z n in
  if Qltb r (1 # 2) then n
  else if Qltb (1 # 2) r then (n + 1)%Z
  else if Z.even n then n else (n + 1)%Z.

(** [f"{q:.0f}"]: a negative number that rounds to zero keeps its sign. *)
Definition fmt_0f (q : Q) : string :=
  let n := round_half_even q in
  if Qltb q 0 && (n =? 0)%Z then "-0" else pretty n.

(** [sep.join(parts)]. *)
Fixpoint join (sep : string) (parts : list string) : string :=
  match parts with
  | [] => EmptyString
  | [p] => p
  | p :: rest => p +:+ sep +:+ join sep rest
  end.

Definition is_upper (c : ascii) : bool :=
  let n := nat_of_ascii c in (65 <=? n)%nat && (n <=? 90)%nat.
Definition is_lower (c : ascii) : bool :=
  let n := nat_of_ascii c in (97 <=? n)%nat && (n <=? 122)%nat.
Definition is_digit (c : ascii) : bool :=
  let n := nat_of_ascii c in (48 <=? n)%nat && (n <=? 57)%nat.

(** [c.isalnum()]. *)
Definition isalnum (c : ascii) : bool := is_upper c || is_lower c || is_digit c.

(** The characters [str.split()] treats as separators. *)
Definition isspace (c : ascii) : bool :=
  let n := nat_of_ascii c in
  ((9 <=? n)%nat && (n <=? 13)%nat) || ((28 <=? n)%nat && (n <=? 32)%nat).

Definition lower_char (c : ascii) : ascii :=
  if is_upper c then ascii_of_nat (nat_of_ascii c + 32) else c.

(** [s.lower()]. *)
Fixpoint lower (s : string) : string :=
  match s with
  | EmptyString => EmptyString
  | String c rest => String (lower_char c) (lower rest)
  end.

(** [''.join(c for c in s if p(c))]. *)
Fixpoint filter_chars (p : ascii -> bool) (s : string) : string :=
  match s with
  | EmptyString => EmptyString
  | String c rest =>
      if p c then String c (filter_chars p rest) else filter_chars p rest
  end.

(** [s.split()]: maximal runs of non-separator characters. [cur] is the
    run being read, reversed. *)
Fixpoint split_go (cur : list ascii) (s : string) : list string :=
  match s with
  | EmptyString =>
      match cur with [] => [] | _ => [string_of_list_ascii (rev cur)] end
  | String c rest =>
      if isspace c then
        match cur with
        | [] => split_go [] rest
        | _ => string_of_list_ascii (rev cur) :: split_go [] rest
        end
      else split_go (c :: cur) rest
  end.

Definition split (s : string) : list string := split_go [] s.

(** Truthiness of a string and of a list. *)
Definition truthy_str (s : string) : bool := negb (String.eqb s EmptyString).
Definition truthy_list {A} (l : list A) : bool :=
  match l with [] => false | _ => true end.

(** Text made of ASCII characters only.  On such text the byte-wise
    [lower], [split] and [isalnum] above and the length in bytes are the
    [str] methods and the [len] of Python. *)
Fixpoint is_ascii (s : string) : bool :=
  match s with
  | EmptyString => true
  | String c rest => (nat_of_ascii c <? 128)%nat && is_ascii rest
  end.

Definition hex_digit (n : nat) : ascii :=
  if (n <? 10)%nat then ascii_of_nat (48 + n) else ascii_of_nat (55 + n).

(** [urllib.parse.quote_plus] on the UTF-8 bytes of a string: unreserved
    characters are kept, a space becomes [+], any other byte becomes
    [%XX]. *)
Definition quote_plus_char (c : ascii) : string :=
  let n := nat_of_ascii c in
  if isalnum c || (n =? 95)%nat || (n =? 46)%nat || (n =? 45)%nat || (n =? 126)%nat
  then String c EmptyString
  else if (n =? 32)%nat then "+"
  else String "%" (String (hex_digit (n / 16)) (String (hex_digit (n mod 16)) EmptyString)).

Fixpoint quote_plus (s : string) : string :=
  match s with
  | EmptyString => EmptyString
  | String c rest => quote_plus_char c +:+ quote_plus rest
  end.

End Py.

(** ** rate_limiter.py *)

Module RateLimiter.
Import Py.

Local Open Scope Q_scope.

(** [self.limits]. *)
Record Limits := {
  searches_per_day : Z;
  profiles_per_day : Z;
  connection_requests_per_day : Z;
  searches_per_hour : Z;
  profiles_per_hour : Z;
  min_delay_between_searches : Q;
  max_delay_between_searches : Q;
  min_delay_between_profiles : Q;
  max_delay_between_profiles : Q;
  backoff_multiplier : Q;
  max_backoff : Q;
  jitter_range : Q;
  max_continuous_searches : Z;
  break_duration_min : Q;
  break_duration_max : Q
}.

(** The limits [__init__] installs. *)
Definition default_limits : Limits :=
  {| searches_per_day := 15;
     profiles_per_day := 30;
     connection_requests_per_day := 20;
     searches_per_hour := 3;
     profiles_per_hour := 10;
     min_delay_between_searches := 45;
     max_delay_between_searches := 180;
     min_delay_between_profiles := 5;
     max_delay_between_profiles := 30;
     backoff_multiplier := 2;
     max_backoff := 3600;
     jitter_range := 2 # 10;
     max_continuous_searches := 5;
     break_duration_min := 300;
     break_duration_max := 900 |}.

(** [self.state], the persisted document. *)
Record State := {
  daily_searches : Z;
  daily_profiles : Z;
  daily_connections : Z;
  hourly_searches : Z;
  hourly_profiles : Z;
  last_search_time : Q;
  last_profile_time : Q;
  last_reset_date : string;
  last_hour_reset : Z;
  consecutive_failures : Z;
  total_failures_today : Z;
  last_break_time : Q;
  continuous_searches : Z;
  blocked_until : Q
}.

(** [self.state[key] = v], one definition per key. *)

Definition set_daily_searches (v : Z) (st : State) : State :=
  let 'Build_State _ dp dc hs hp lst lpt lrd lhr cf tft lbt cs bu := st in
  Build_State v dp dc hs hp lst lpt lrd lhr cf tft lbt cs bu.

Definition set_daily_profiles (v : Z) (st : State) : State :=
  let 'Build_State ds _ dc hs hp lst lpt lrd lhr cf tft lbt cs bu := st in
  Build_State ds v dc hs hp lst lpt lrd lhr cf tft lbt cs bu.

Definition set_daily_connections (v : Z) (st : State) : State :=
  let 'Build_State ds dp _ hs hp lst lpt lrd lhr cf tft lbt cs bu := st in
  Build_State ds dp v hs hp lst lpt lrd lhr cf tft lbt cs bu.

Definition set_hourly_searches (v : Z) (st : State) : State :=
  let 'Build_State ds dp dc _ hp lst lpt lrd lhr cf tft lbt cs bu := st in
  Build_State ds dp dc v hp lst lpt lrd lhr cf tft lbt cs bu.

Definition set_hourly_profiles (v : Z) (st : State) : State :=
  let 'Build_State ds dp dc hs _ lst lpt lrd lhr cf tft lbt cs bu := st in
  Build_State ds dp dc hs v lst lpt lrd lhr cf tft lbt cs bu.

Definition set_last_search_time (v : Q) (st : State) : State :=
  let 'Build_State ds dp dc hs hp _ lpt lrd lhr cf tft lbt cs bu := st in
  Build_State ds dp dc hs hp v lpt lrd lhr cf tft lbt cs bu.

Definition set_last_profile_time (v : Q) (st : State) : State :=
  let 'Build_State ds dp dc hs hp lst _ lrd lhr cf tft lbt cs bu := st in
  Build_State ds dp dc hs hp lst v lrd lhr cf tft lbt cs bu.

Definition set_last_reset_date (v : string) (st : State) : State :=
  let 'Build_State ds dp dc hs hp lst lpt _ lhr cf tft lbt cs bu := st in
  Build_State ds dp dc hs hp lst lpt v lhr cf tft lbt cs bu.

Definition set_last_hour_reset (v : Z) (st : State) : State :=
  let 'Build_State ds dp dc hs hp lst lpt lrd _ cf tft lbt cs bu := st in
  Build_State ds dp dc hs hp lst lpt lrd v cf tft lbt cs bu.

Definition set_consecutive_failures (v : Z) (st : State) : State :=
  let 'Build_State ds dp dc hs hp lst lpt lrd lhr _ tft lbt cs bu := st in
  Build_State ds dp dc hs hp lst lpt lrd lhr v tft lbt cs bu.

Definition set_total_failures_today (v : Z) (st : State) : State :=
  let 'Build_State ds dp dc hs hp lst lpt lrd lhr cf _ lbt cs bu := st in
  Build_State ds dp dc hs hp lst lpt lrd lhr cf v lbt cs bu.

Definition set_last_break_time (v : Q) (st : State) : State :=
  let 'Build_State ds dp dc hs hp lst lpt lrd lhr cf tft _ cs bu := st in
  Build_State ds dp dc hs hp lst lpt lrd lhr cf tft v cs bu.

Definition set_continuous_searches (v : Z) (st : State) : State :=
  let 'Build_State ds dp dc hs hp lst lpt lrd lhr cf tft lbt _ bu := st in
  Build_State ds dp dc hs hp lst lpt lrd lhr cf tft lbt v bu.

Definition set_blocked_until (v : Q) (st : State) : State :=
  let 'Build_State ds dp dc hs hp lst lpt lrd lhr cf tft lbt cs _ := st in
  Build_State ds dp dc hs hp lst lpt lrd lhr cf tft lbt cs v.

(** The [RateLimiter] object: the limits, the state dictionary and the
    two session attributes. *)
Record Limiter := {
  limits : Limits;
  state : State;
  session_start : Q;
  continuous_actions : Z
}.

(** One observation of the clock: [time.time()] reads [epoch],
    [datetime.now()] reads [date] (as [str(now.date())]) and [hour]. *)
Record Instant := {
  epoch : Q;
  date : string;
  hour : Z
}.

(** What becomes of [config_file] when [save_state] writes it: the
    document is written; or [open] raises and the file is as it was; or
    the write raises midway and leaves a file that does not parse. *)
Inductive WriteOutcome :=
| Written
| Untouched
| Garbled.

(** The outside world as the limiter reads it.  Every [save_state] of
    the source comes after a clock read of the same method, so the writes
    of a run are told apart by the number of clock reads before them. *)
Record Ambient := {
  clock : nat -> Instant;       (* n-th read of the clock *)
  normal_draw : nat -> Q;       (* n-th draw, as a standard normal deviate *)
  unit_draw : nat -> Q;         (* n-th draw, as a number of [0, 1) *)
  write_outcome : nat -> WriteOutcome;  (* the write made after n clock reads *)
  read_ok : nat -> bool         (* whether a read made after n clock reads succeeds *)
}.

(** The limiter together with the document [config_file] holds ([None]
    when there is no file or it does not parse) and the number of clock
    reads and random draws made so far. *)
Record Sys := {
  this : Limiter;
  disk : option State;
  ticks : nat;
  draws : nat
}.

(** Computations of the limiter: state passing over [Sys]. *)
Definition L (A : Type) : Type := Sys -> A * Sys.

Definition ret {A} (a : A) : L A := fun s => (a, s).

Definition bind {A B} (c : L A) (k : A -> L B) : L B :=
  fun s => let (a, s') := c s in k a s'.

Notation "'let*' x ':=' c 'in' k" := (bind c (fun x => k))
  (at level 10, x pattern, c at level 100, k at level 200).

Notation "c ';;' k" := (bind c (fun _ => k))
  (at level 100, k at level 200, right associativity).

Definition get_state : L State := fun s => (state (this s), s).
Definition get_limits : L Limits := fun s => (limits (this s), s).

Definition modify_state (f : State -> State) : L unit :=
  fun s =>
    let 'Build_Sys (Build_Limiter lim st start actions) dk tk dr := s in
    (tt, Build_Sys (Build_Limiter lim (f st) start actions) dk tk dr).

(** [self.continuous_actions = v]. *)
Definition set_continuous_actions (v : Z) : L unit :=
  fun s =>
    let 'Build_Sys (Build_Limiter lim st start _) dk tk dr := s in
    (tt, Build_Sys (Build_Limiter lim st start v) dk tk dr).

(** The document in [config_file] after a write of [st] over [dk]. *)
Definition stored_after (o : WriteOutcome) (st : State) (dk : option State)
  : option State :=
  match o with
  | Written => Some st
  | Untouched => dk
  | Garbled => None
  end.

Section Operations.

Variable amb : Ambient.

(** [datetime.now()]. *)
Definition datetime_now : L Instant :=
  fun s =>
    let 'Build_Sys self dk tk dr := s in
    (clock amb tk, Build_Sys self dk (S tk) dr).

(** [time.time()]. *)
Definition time_time : L Q :=
  let* now := datetime_now in ret (epoch now).

(** [random.uniform(a, b)]. *)
Definition random_uniform (a b : Q) : L Q :=
  fun s =>
    let 'Build_Sys self dk tk dr := s in
    (uniform_of a b (unit_draw amb dr), Build_Sys self dk tk (S dr)).

(** [random.gauss(mu, sigma)]. *)
Definition random_gauss (mu sigma : Q) : L Q :=
  fun s =>
    let 'Build_Sys self dk tk dr := s in
    (gauss_of mu sigma (normal_draw amb dr), Build_Sys self dk tk (S dr)).

(** [save_state]: the state dictionary is dumped to [config_file]; an
    exception of [open] or of [json.dump] is logged and dropped. *)
Definition save_state : L unit :=
  fun s =>
    let 'Build_Sys self dk tk dr := s in
    (tt, Build_Sys self (stored_after (write_outcome amb tk) (state self) dk) tk dr).

(** The default state of [load_state], used when nothing is stored. *)
Definition default_state (date_now : string) (hour_now : Z) : State :=
  {| daily_searches := 0; daily_profiles := 0; daily_connections := 0;
     hourly_searches := 0; hourly_profiles := 0;
     last_search_time := 0; last_profile_time := 0;
     last_reset_date := date_now; last_hour_reset := hour_now;
     consecutive_failures := 0; total_failures_today := 0;
     last_break_time := 0; continuous_searches := 0; blocked_until := 0 |}.

(** [load_state]: the stored document when there is one and reading it
    does not raise, the default state otherwise (it reads the clock
    twice). *)
Definition load_state (stored : option State) (tick : nat) : State * nat :=
  let fresh :=
    (default_state (date (clock amb tick)) (hour (clock amb (S tick))),
     S (S tick)) in
  match stored with
  | Some st => if read_ok amb tick then (st, tick) else fresh
  | None => fresh
  end.

(** [__init__], with the limits it installs as an argument. *)
Definition init (lim : Limits) (stored : option State) (tick draw : nat) : Sys :=
  let (st, tick1) := load_state stored tick in
  {| this := {| limits := lim; state := st;
                session_start := epoch (clock amb tick1);
                continuous_actions := 0 |};
     disk := stored; ticks := S tick1; draws := draw |}.

Definition reset_if_needed : L unit :=
  let* now := datetime_now in
  let* st := get_state in
  (if negb (String.eqb (date now) (last_reset_date st)) then
     modify_state (set_daily_searches 0) ;;
     modify_state (set_daily_profiles 0) ;;
     modify_state (set_daily_connections 0) ;;
     modify_state (set_total_failures_today 0) ;;
     modify_state (set_last_reset_date (date now)) ;;
     modify_state (fun st => set_consecutive_failures
                               (Z.max 0 (consecutive_failures st - 1)) st) ;;
     set_continuous_actions 0
   else ret tt) ;;
  let* st := get_state in
  (if negb (hour now =? last_hour_reset st)%Z then
     modify_state (set_hourly_searches 0) ;;
     modify_state (set_hourly_profiles 0) ;;
     modify_state (set_last_hour_reset (hour now))
   else ret tt) ;;
  save_state.

(** The minimum delay between searches scaled by the failure backoff. *)
Definition backoff_scaled (lim : Limits) (failures : Z) (delay : Q) : Q :=
  if (0 <? failures)%Z then
    minQ (delay * backoff_multiplier lim ^ failures) (max_backoff lim)
  else delay.

(** The break check of [can_search]: a refusal, or [None] when the
    checks after it are to run. *)
Definition break_check : L (option (bool * string)) :=
  let* st := get_state in
  let* lim := get_limits in
  if (max_continuous_searches lim <=? continuous_searches st)%Z then
    let* t := time_time in
    let time_since_break := t - last_break_time st in
    let* required_break :=
      random_uniform (break_duration_min lim) (break_duration_max lim) in
    if Qltb time_since_break required_break then
      let wait_time := required_break - time_since_break in
      ret (Some (false, "Break required. Please wait " +:+ fmt_0f wait_time
                        +:+ " seconds"))
    else
      modify_state (set_continuous_searches 0) ;;
      let* t := time_time in
      modify_state (set_last_break_time t) ;;
      ret None
  else ret None.

Definition can_search : L (bool * string) :=
  reset_if_needed ;;
  let* st := get_state in
  let* lim := get_limits in
  let* t := time_time in
  if Qltb t (blocked_until st) then
    let* t := time_time in
    let wait_time := blocked_until st - t in
    ret (false, "Temporarily blocked for " +:+ fmt_0f wait_time
                +:+ " seconds due to failures")
  else if (searches_per_day lim <=? daily_searches st)%Z then
    ret (false, "Daily search limit reached (" +:+ pretty (searches_per_day lim)
                +:+ " searches)")
  else if (searches_per_hour lim <=? hourly_searches st)%Z then
    ret (false, "Hourly search limit reached (" +:+ pretty (searches_per_hour lim)
                +:+ " searches)")
  else
    let* refusal := break_check in
    match refusal with
    | Some r => ret r
    | None =>
        let* st := get_state in
        let* t := time_time in
        let time_since_last := t - last_search_time st in
        let min_delay :=
          backoff_scaled lim (consecutive_failures st)
                         (min_delay_between_searches lim) in
        if Qltb time_since_last min_delay then
          let wait_time := min_delay - time_since_last in
          ret (false, "Please wait " +:+ fmt_0f wait_time
                      +:+ " seconds before next search")
        else if (10 <=? total_failures_today st)%Z then
          ret (false, "Too many failures today. Please try again tomorrow")
        else ret (true, "OK")
    end.

Definition can_view_profile : L (bool * string) :=
  reset_if_needed ;;
  let* st := get_state in
  let* lim := get_limits in
  if (profiles_per_day lim <=? daily_profiles st)%Z then
    ret (false, "Daily profile view limit reached ("
                +:+ pretty (profiles_per_day lim) +:+ " profiles)")
  else if (profiles_per_hour lim <=? hourly_profiles st)%Z then
    ret (false, "Hourly profile view limit reached ("
                +:+ pretty (profiles_per_hour lim) +:+ " profiles)")
  else
    let* t := time_time in
    let time_since_last := t - last_profile_time st in
    let min_delay := min_delay_between_profiles lim in
    if Qltb time_since_last min_delay then
      let wait_time := min_delay - time_since_last in
      ret (false, "Please wait " +:+ fmt_0f wait_time
                  +:+ " seconds before next profile view")
    else ret (true, "OK").

(** The length of the block after [failures] consecutive failures. *)
Definition block_duration (failures : Z) : Z :=
  Z.min (300 * 2 ^ (failures - 3)) 3600.

Definition record_search (success : bool) : L unit :=
  modify_state (fun st => set_daily_searches (daily_searches st + 1) st) ;;
  modify_state (fun st => set_hourly_searches (hourly_searches st + 1) st) ;;
  let* t := time_time in
  modify_state (set_last_search_time t) ;;
  modify_state (fun st => set_continuous_searches (continuous_searches st + 1) st) ;;
  (if success then
     modify_state (set_consecutive_failures 0)
   else
     modify_state (fun st => set_consecutive_failures
                               (consecutive_failures st + 1) st) ;;
     modify_state (fun st => set_total_failures_today
                               (total_failures_today st + 1) st) ;;
     let* st := get_state in
     if (3 <=? consecutive_failures st)%Z then
       let d := block_duration (consecutive_failures st) in
       let* t := time_time in
       modify_state (set_blocked_until (t + inject_Z d))
     else ret tt) ;;
  save_state.

Definition record_profile_view (success : bool) : L unit :=
  modify_state (fun st => set_daily_profiles (daily_profiles st + 1) st) ;;
  modify_state (fun st => set_hourly_profiles (hourly_profiles st + 1) st) ;;
  let* t := time_time in
  modify_state (set_last_profile_time t) ;;
  (if success then ret tt
   else modify_state (fun st => set_total_failures_today
                                  (total_failures_today st + 1) st)) ;;
  save_state.

Definition get_delay (action_type : string) : L Q :=
  let* lim := get_limits in
  let (min_delay, max_delay) :=
    if String.eqb action_type "search"
    then (min_delay_between_searches lim, max_delay_between_searches lim)
    else (min_delay_between_profiles lim, max_delay_between_profiles lim) in
  let mean := (min_delay + max_delay) / 2 in
  let std_dev := (max_delay - min_delay) / 6 in
  let* base_delay := random_gauss mean std_dev in
  let base_delay := maxQ min_delay (minQ max_delay base_delay) in
  let jitter_amount := base_delay * jitter_range lim in
  let* jitter := random_uniform (- jitter_amount) jitter_amount in
  let* st := get_state in
  let base_delay :=
    if (0 <? consecutive_failures st)%Z then
      minQ (base_delay * backoff_multiplier lim ^ consecutive_failures st)
           (max_backoff lim)
    else base_delay in
  let final_delay := maxQ min_delay (base_delay + jitter) in
  ret final_delay.

Definition reset_session : L unit :=
  modify_state (set_continuous_searches 0) ;;
  let* t := time_time in
  modify_state (set_last_break_time t) ;;
  set_continuous_actions 0 ;;
  save_state.

Definition emergency_stop : L unit :=
  let* t := time_time in
  modify_state (set_blocked_until (t + 3600)) ;;
  modify_state (set_consecutive_failures 5) ;;
  save_state.

(** [random.random()]. *)
Definition random_random : L Q :=
  fun s =>
    let 'Build_Sys self dk tk dr := s in
    (unit_draw amb dr, Build_Sys self dk tk (S dr)).

(** [should_take_break]; [None] stands for the [ZeroDivisionError] that
    [daily_searches / searches_per_day] raises when the limit is zero. *)
Definition should_take_break : L (option bool) :=
  let* st := get_state in
  let* lim := get_limits in
  if (max_continuous_searches lim <=? continuous_searches st)%Z then ret (Some true)
  else
    let* r := random_random in
    if Qltb r (1 # 10) then ret (Some true)
    else if (searches_per_day lim =? 0)%Z then ret None
    else
      let daily_usage :=
        inject_Z (daily_searches st) / inject_Z (searches_per_day lim) in
      if Qltb (7 # 10) daily_usage then
        let* r := random_random in
        if Qltb r (3 # 10) then ret (Some true) else ret (Some false)
      else ret (Some false).

Definition get_break_duration : L Q :=
  let* lim := get_limits in
  let* base_duration :=
    random_uniform (break_duration_min lim) (break_duration_max lim) in
  let* st := get_state in
  let base_duration :=
    if (0 <? consecutive_failures st)%Z
    then base_duration * (1 + (1 # 2) * inject_Z (consecutive_failures st))
    else base_duration in
  ret base_duration.

End Operations.
(** *** Notions used to state the properties of the limiter *)

(** The state dictionary after a computation. *)
Definition state_after {A} (c : L A) (s : Sys) : State := state (this (snd (c s))).

(** The value a computation returns. *)
Definition answer {A} (c : L A) (s : Sys) : A := fst (c s).

(** What [reset_if_needed] leaves in the state dictionary, as a function
    of the stored state and of the instant it reads. *)
Definition rolled (now : Instant) (st : State) : State :=
  let day := negb (String.eqb (date now) (last_reset_date st)) in
  let hr := negb (hour now =? last_hour_reset st)%Z in
  {| daily_searches := if day then 0%Z else daily_searches st;
     daily_profiles := if day then 0%Z else daily_profiles st;
     daily_connections := if day then 0%Z else daily_connections st;
     hourly_searches := if hr then 0%Z else hourly_searches st;
     hourly_profiles := if hr then 0%Z else hourly_profiles st;
     last_search_time := last_search_time st;
     last_profile_time := last_profile_time st;
     last_reset_date := if day then date now else last_reset_date st;
     last_hour_reset := if hr then hour now else last_hour_reset st;
     consecutive_failures :=
       if day then Z.max 0 (consecutive_failures st - 1)
       else consecutive_failures st;
     total_failures_today := if day then 0%Z else total_failures_today st;
     last_break_time := last_break_time st;
     continuous_searches := continuous_searches st;
     blocked_until := blocked_until st |}.


(** The limiter after [reset_if_needed]. *)
Definition rolled_sys (amb : Ambient) (s : Sys) : Sys :=
  let now := clock amb (ticks s) in
  {| this := {| limits := limits (this s);
                state := rolled now (state (this s));
                session_start := session_start (this s);
                continuous_actions :=
                  if negb (String.eqb (date now) (last_reset_date (state (this s))))
                  then 0%Z else continuous_actions (this s) |};
     disk := stored_after (write_outcome amb (S (ticks s)))
                          (rolled now (state (this s))) (disk s);
     ticks := S (ticks s); draws := draws s |}.

(** The operations that change the state, and a run of a sequence of
    them. *)
Inductive Op :=
| RecordSearch (success : bool)
| RecordProfileView (success : bool)
| ResetSession
| EmergencyStop
| Rollover.

Definition run_op (amb : Ambient) (op : Op) : L unit :=
  match op with
  | RecordSearch b => record_search amb b
  | RecordProfileView b => record_profile_view amb b
  | ResetSession => reset_session amb
  | EmergencyStop => emergency_stop amb
  | Rollover => reset_if_needed amb
  end.

Fixpoint run_ops (amb : Ambient) (ops : list Op) (s : Sys) : Sys :=
  match ops with
  | [] => s
  | op :: rest => run_ops amb rest (snd (run_op amb op s))
  end.


(** The state dictionary with the three fields of the search backoff
    replaced. *)
Definition with_backoff_fields (bu : Q) (cs cf : Z) (s : Sys) : Sys :=
  {| this := {| limits := limits (this s);
                state := set_blocked_until bu
                           (set_continuous_searches cs
                              (set_consecutive_failures cf (state (this s))));
                session_start := session_start (this s);
                continuous_actions := continuous_actions (this s) |};
     disk := disk s; ticks := ticks s; draws := draws s |}.

(** *** Sample data *)

(** A clock that advances one second per read on 2025-01-01, 10 o'clock. *)
Definition steady_clock (n : nat) : Instant :=
  {| epoch := 1000 + inject_Z (Z.of_nat n); date := "2025-01-01"; hour := 10 |}.

(** The same clock one day later. *)
Definition next_day_clock (n : nat) : Instant :=
  {| epoch := 87400 + inject_Z (Z.of_nat n); date := "2025-01-02"; hour := 11 |}.

Definition sample_ambient : Ambient :=
  {| clock := steady_clock; normal_draw := fun _ => 3; unit_draw := fun _ => 9 # 10;
     write_outcome := fun _ => Written; read_ok := fun _ => true |}.

Definition next_day_ambient : Ambient :=
  {| clock := next_day_clock; normal_draw := fun _ => 0; unit_draw := fun _ => 1 # 2;
     write_outcome := fun _ => Written; read_ok := fun _ => true |}.

Definition limits_with_daily (n : Z) : Limits :=
  {| searches_per_day := n;
     profiles_per_day := profiles_per_day default_limits;
     connection_requests_per_day := connection_requests_per_day default_limits;
     searches_per_hour := searches_per_hour default_limits;
     profiles_per_hour := profiles_per_hour default_limits;
     min_delay_between_searches := min_delay_between_searches default_limits;
     max_delay_between_searches := max_delay_between_searches default_limits;
     min_delay_between_profiles := min_delay_between_profiles default_limits;
     max_delay_between_profiles := max_delay_between_profiles default_limits;
     backoff_multiplier := backoff_multiplier default_limits;
     max_backoff := max_backoff default_limits;
     jitter_range := jitter_range default_limits;
     max_continuous_searches := max_continuous_searches default_limits;
     break_duration_min := break_duration_min default_limits;
     break_duration_max := break_duration_max default_limits |}.

(** A limiter freshly constructed with nothing stored. *)
Definition fresh_sys (lim : Limits) : Sys := init sample_ambient lim None 0 0.

(** A limiter that has recorded four searches today. *)
Definition busy_sys : Sys :=
  run_ops sample_ambient
    [RecordSearch true; RecordSearch false; RecordSearch true; RecordSearch true]
    (fresh_sys default_limits).

(** A limiter after an emergency stop. *)
Definition stopped_sys : Sys :=
  snd (emergency_stop sample_ambient (fresh_sys default_limits)).



(** The pair [min_delay, max_delay] that [get_delay] selects. *)
Definition delay_range (lim : Limits) (action_type : string) : Q * Q :=
  if String.eqb action_type "search"
  then (min_delay_between_searches lim, max_delay_between_searches lim)
  else (min_delay_between_profiles lim, max_delay_between_profiles lim).

(** The clamped draw of [get_delay] and the jitter drawn from it. *)
Definition clamped_draw (mn mx z : Q) : Q :=
  maxQ mn (minQ mx (gauss_of ((mn + mx) / 2) ((mx - mn) / 6) z)).

Definition jitter_draw (base jr u : Q) : Q :=
  uniform_of (- (base * jr)) (base * jr) u.





(** The state dictionary after the break of [can_search] is taken as
    done at time [t]. *)
Definition break_done (t : Q) (st : State) : State :=
  set_last_break_time t (set_continuous_searches 0 st).




(** A limiter that has recorded five searches in a row. *)
Definition tired_sys : Sys :=
  run_ops sample_ambient
    [RecordSearch true; RecordSearch true; RecordSearch true; RecordSearch true;
     RecordSearch true]
    (fresh_sys default_limits).

(** A limiter that has viewed a profile. *)
Definition viewer_sys : Sys :=
  run_ops sample_ambient [RecordProfileView true] (fresh_sys default_limits).


End RateLimiter.

(** ** linkedin_sales_navigator.py *)

Module SalesNavigator.
Import Py.

(** *** Intent, keyword optimiser and search URL *)

(** [intent["company_criteria"]]: a dictionary with at most the keys
    [size] and [funding]. *)
Record CompanyCriteria := {
  size : option string;
  funding : option string
}.

(** The dictionary [parse_intent] returns. *)
Record Intent := {
  roles : list string;
  skills : list string;
  locations : list string;
  company_criteria : CompanyCriteria;
  seniority : list string;
  keywords_raw : string
}.

(** The dictionary [parse_query_filters] returns; [native_filters] keeps
    the insertion order of the Python dictionary, and [intent] is [None]
    when the key is missing. *)
Record SearchFilters := {
  keywords : string;
  native_filters : list (string * string);
  intent : option Intent
}.

Definition dquote : string := String (ascii_of_nat 34) EmptyString.

(** [f'"{role}"']. *)
Definition quoted (role : string) : string := dquote +:+ role +:+ dquote.

(** The ASCII members of [stop_words]; the remaining members are not
    ASCII and no cleaned ASCII token equals one of them. *)
Definition stop_words : list string :=
  ["the"; "and"; "or"; "in"; "on"; "at"; "to"; "for"; "of"; "with"; "by"].

Definition in_strings (w : string) (ws : list string) : bool :=
  existsb (String.eqb w) ws.

Definition _extract_simple_keywords (query : string) : list string :=
  let words := split (lower query) in
  flat_map
    (fun word =>
       let clean_word := filter_chars isalnum word in
       if (2 <? String.length clean_word)%nat && negb (in_strings clean_word stop_words)
       then [clean_word] else [])
    words.

Definition generate_optimized_keywords (i : Intent) : string :=
  let keyword_parts : list string := [] in
  let keyword_parts :=
    if truthy_list (roles i) then
      let roles2 := take 2 (roles i) in
      let role_string := join " OR " (map quoted roles2) in
      keyword_parts ++ ["(" +:+ role_string +:+ ")"]
    else keyword_parts in
  let keyword_parts :=
    if truthy_list (skills i) then
      let skills_string := join " OR " (take 2 (skills i)) in
      if truthy_list keyword_parts
      then keyword_parts ++ ["AND (" +:+ skills_string +:+ ")"]
      else keyword_parts ++ [skills_string]
    else keyword_parts in
  if negb (truthy_list keyword_parts) then
    let simple_terms := _extract_simple_keywords (keywords_raw i) in
    join " OR " (take 2 simple_terms)
  else join " " keyword_parts.

(** The rules of the design document for the keyword expression, over
    the role terms, the skill terms and the simple tokens it includes:
    the role terms quoted, joined with OR and wrapped in parentheses;
    the skill terms joined with OR, prefixed with AND and wrapped in
    parentheses when there is a role clause; and, when neither clause is
    produced, the simple tokens joined with OR. *)
Definition role_clause (role_terms : list string) : string :=
  "(" +:+ join " OR " (map quoted role_terms) +:+ ")".

Definition skill_clause (after_roles : bool) (skill_terms : list string) : string :=
  if after_roles then "AND (" +:+ join " OR " skill_terms +:+ ")"
  else join " OR " skill_terms.

Definition optimize_spec (role_terms skill_terms tokens : list string) : string :=
  match role_terms, skill_terms with
  | [], [] => join " OR " tokens
  | _ :: _, [] => role_clause role_terms
  | [], _ :: _ => skill_clause false skill_terms
  | _ :: _, _ :: _ => role_clause role_terms +:+ " " +:+ skill_clause true skill_terms
  end.

(** [d.get(key, default)] on an insertion-ordered dictionary. *)
Fixpoint dict_get (key : string) (d : list (string * string)) (default : string) : string :=
  match d with
  | [] => default
  | (k, v) :: rest => if String.eqb k key then v else dict_get key rest default
  end.

Definition build_sales_nav_url (filters : SearchFilters) (search_type : string) : string :=
  let base_url := "https://www.linkedin.com/sales/search/" +:+ search_type in
  let params : list string :=
    if truthy_str (keywords filters)
    then ["keywords=" +:+ quote_plus (keywords filters)] else [] in
  let params :=
    params ++
    flat_map
      (fun kv : string * string =>
         let (filter_key, filter_value) := kv in
         if truthy_str filter_value then
           if String.eqb filter_key "currentJobTitle" && String.eqb filter_value "true"
           then ["currentJobTitle=true"]
           else [filter_key +:+ "=" +:+ quote_plus filter_value]
         else [])
      (native_filters filters) in
  if truthy_list params then base_url +:+ "?" +:+ join "&" params else base_url.

(** [key in d] and [d[key]] on an insertion-ordered dictionary. *)
Fixpoint dict_find (key : string) (d : list (string * string)) : option string :=
  match d with
  | [] => None
  | (k, v) :: rest => if String.eqb k key then Some v else dict_find key rest
  end.

Definition size_map : list (string * string) :=
  [("1-50", "B"); ("1-100", "C"); ("51-200", "D"); ("201-500", "E")].

Definition build_native_filters (i : Intent) : list (string * string) :=
  let filters : list (string * string) := [] in
  let filters :=
    if truthy_list (locations i)
    then filters ++ [("geoIncluded", join "," (locations i))]
    else filters in
  let filters :=
    match size (company_criteria i) with
    | Some sz =>
        if truthy_str sz then
          match dict_find sz size_map with
          | Some code => filters ++ [("companySize", code)]
          | None => filters
          end
        else filters
    | None => filters
    end in
  let filters :=
    if truthy_list (seniority i)
    then filters ++ [("seniorityIncluded", join "," (seniority i))]
    else filters in
  let filters :=
    if existsb (fun role => in_strings role (roles i))
               ["javascript developer"; "developer"]
    then filters ++ [("functionIncluded", "engineering")]
    else filters in
  filters ++ [("currentJobTitle", "true")].

(** Steps 2 and 3 of [parse_query_filters], from the intent that step 1
    ([parse_intent]) extracted. *)
Definition filters_of_intent (i : Intent) : SearchFilters :=
  {| keywords := generate_optimized_keywords i;
     native_filters := build_native_filters i;
     intent := Some i |}.

Definition opt_truthy (o : option string) : bool :=
  match o with Some s => truthy_str s | None => false end.

(** An absent intent is the empty dictionary: every [get] on it gives
    the default. *)
Definition get_roles (oi : option Intent) : list string :=
  match oi with Some i => roles i | None => [] end.
Definition get_skills (oi : option Intent) : list string :=
  match oi with Some i => skills i | None => [] end.
Definition get_locations (oi : option Intent) : list string :=
  match oi with Some i => locations i | None => [] end.
Definition get_seniority (oi : option Intent) : list string :=
  match oi with Some i => seniority i | None => [] end.
Definition get_company_criteria (oi : option Intent) : CompanyCriteria :=
  match oi with
  | Some i => company_criteria i
  | None => {| size := None; funding := None |}
  end.

Definition _create_or_broadening_query (oi : option Intent) : string :=
  let or_parts : list string := [] in
  let or_parts :=
    if truthy_list (get_roles oi) then
      let roles_or := join " OR " (map quoted (take 3 (get_roles oi))) in
      or_parts ++ ["(" +:+ roles_or +:+ ")"]
    else or_parts in
  let or_parts :=
    if truthy_list (get_skills oi) then
      let skills_or := join " OR " (take 3 (get_skills oi)) in
      or_parts ++ ["(" +:+ skills_or +:+ ")"]
    else or_parts in
  let or_parts :=
    if truthy_list (get_seniority oi) then
      let seniority_terms := ["founder"; "CEO"; "CTO"; "director"; "manager"] in
      let seniority_or := join " OR " (take 3 seniority_terms) in
      or_parts ++ ["(" +:+ seniority_or +:+ ")"]
    else or_parts in
  let or_parts :=
    if opt_truthy (funding (get_company_criteria oi)) then
      let funding_terms := ["startup"; "funded"; "investment"] in
      let funding_or := join " OR " funding_terms in
      or_parts ++ ["(" +:+ funding_or +:+ ")"]
    else or_parts in
  if negb (truthy_list or_parts) then "developer OR engineer OR founder OR manager"
  else join " OR " (take 3 or_parts).

Definition _create_or_broadening_filters (oi : option Intent) : list (string * string) :=
  let filters : list (string * string) := [] in
  let filters :=
    if truthy_list (get_locations oi)
    then filters ++ [("geoIncluded", join "," (get_locations oi))]
    else filters in
  filters ++ [("currentJobTitle", "true")].

(** *** Result records *)

(** The values inside a criteria dictionary: a string, a list of strings,
    or the [company_criteria] dictionary. *)
Inductive Field :=
| FStr (s : string)
| FList (l : list string)
| FDict (d : list (string * string)).

(** The values a result dictionary holds. *)
Inductive Value :=
| VStr (s : string)
| VBool (b : bool)
| VDict (d : list (string * Field)).

(** A result: a Python dictionary keyed by strings. *)
Abbreviation Result := (gmap string Value).

Definition criteria_value (cc : CompanyCriteria) : Field :=
  FDict ((match size cc with Some s => [("size", s)] | None => [] end)
         ++ (match funding cc with Some s => [("funding", s)] | None => [] end)).

(** The [original_criteria] dictionary of strategy 4. *)
Definition original_criteria_value (oi : option Intent) : Value :=
  VDict [("roles", FList (get_roles oi));
         ("locations", FList (get_locations oi));
         ("company_criteria", criteria_value (get_company_criteria oi));
         ("seniority", FList (get_seniority oi));
         ("skills", FList (get_skills oi))].

(** The intent dictionary itself as a value. *)
Definition intent_value (oi : option Intent) : Value :=
  match oi with
  | None => VDict []
  | Some i =>
      VDict [("roles", FList (roles i));
             ("skills", FList (skills i));
             ("locations", FList (locations i));
             ("company_criteria", criteria_value (company_criteria i));
             ("seniority", FList (seniority i));
             ("keywords_raw", FStr (keywords_raw i))]
  end.

(** The metadata strategy 4 writes into a result. *)
Definition tag_or_broadening (oi : option Intent) (result : Result) : Result :=
  <["original_criteria" := original_criteria_value oi]>
    (<["ai_filter_needed" := VBool true]> result).

(** The metadata strategy 5 writes into a result. *)
Definition tag_ultra_broad (oi : option Intent) (result : Result) : Result :=
  <["original_criteria" := intent_value oi]>
    (<["search_strategy" := VStr "ultra_broad"]>
       (<["ai_filter_needed" := VBool true]> result)).

(** *** The progressive search *)

(** What one ladder level hands to the browser and to the extractor: the
    URL for [driver.get], the arguments of [_extract_search_results],
    and the ordinal of the level. *)
Record Strategy := {
  level : nat;
  url : string;
  search_type : string;
  max_count : Z
}.

(** A call either returns or raises an [Exception]. *)
Inductive outcome (A : Type) :=
| Returned (a : A)
| Raised (msg : string).
Arguments Returned {A} a.
Arguments Raised {A} msg.

(** The page fetcher and the result extractor, over a browser state
    [Env] of their own. *)
Record Collaborator (Env : Type) := {
  driver_get : Strategy -> Env -> outcome unit * Env;
  extract_search_results : Strategy -> Env -> outcome (list Result) * Env
}.
Arguments driver_get {Env} c s e.
Arguments extract_search_results {Env} c s e.

(** What a run does, in order: the pages of the ladder it loads and
    reads, its pauses, and the pages the login loads. *)
Inductive Event :=
| Navigate (s : Strategy)
| Extract (s : Strategy)
| Sleep (secs : Z)
| Visit (page : string).

(** The process during a search: the browser, the rate limiter of the
    package, and the trace of the run. *)
Record World (Env : Type) := {
  browser : Env;
  limiter : RateLimiter.Sys;
  trace : list Event
}.
Arguments browser {Env} w.
Arguments limiter {Env} w.
Arguments trace {Env} w.

Section Search.

Context {Env : Type} (collab : Collaborator Env).

(** Computations of the retriever: state passing over [World], with
    exceptions. *)
Definition M (A : Type) : Type := World Env -> outcome A * World Env.

Definition ret {A} (a : A) : M A := fun w => (Returned a, w).

Definition bind {A B} (c : M A) (k : A -> M B) : M B :=
  fun w =>
    match c w with
    | (Returned a, w') => k a w'
    | (Raised msg, w') => (Raised msg, w')
    end.

Notation "'let*' x ':=' c 'in' k" := (bind c (fun x => k))
  (at level 10, x pattern, c at level 100, k at level 200).

Notation "c ';;' k" := (bind c (fun _ => k))
  (at level 100, k at level 200, right associativity).

(** [try: body except Exception as e: handler]. *)
Definition try_except {A} (body : M A) (handler : string -> M A) : M A :=
  fun w =>
    match body w with
    | (Returned a, w') => (Returned a, w')
    | (Raised msg, w') => handler msg w'
    end.

Definition emit (ev : Event) : M unit :=
  fun w =>
    let 'Build_World _ e rl tr := w in
    (Returned tt, Build_World Env e rl (tr ++ [ev])).

(** [time.sleep(secs)]. *)
Definition time_sleep (secs : Z) : M unit := emit (Sleep secs).

(** [self.driver.get(search_url)]. *)
Definition self_driver_get (s : Strategy) : M unit :=
  emit (Navigate s) ;;
  fun w =>
    let 'Build_World _ e rl tr := w in
    let (r, e') := driver_get collab s e in
    (r, Build_World Env e' rl tr).

(** [self._extract_search_results(search_type, max_results)]. *)
Definition self_extract_search_results (s : Strategy) : M (list Result) :=
  emit (Extract s) ;;
  fun w =>
    let 'Build_World _ e rl tr := w in
    let (r, e') := extract_search_results collab s e in
    (r, Build_World Env e' rl tr).

(** The three statements every strategy runs: load the page, wait, read
    the results. *)
Definition fetch_and_extract (s : Strategy) (pause : Z) : M (list Result) :=
  self_driver_get s ;;
  time_sleep pause ;;
  self_extract_search_results s.

Section Ladder.

Variables (self_query : string) (filters : SearchFilters)
          (search_type_ : string) (max_results : Z).

(** [intent.get("keywords_raw", self.query)]. *)
Definition raw_keywords : string :=
  match intent filters with
  | Some i => keywords_raw i
  | None => self_query
  end.

(** [simple_keywords], bound by strategy 2 and read by strategy 3. *)
Definition simple_keywords : list string := _extract_simple_keywords raw_keywords.

Definition geo_included : string := dict_get "geoIncluded" (native_filters filters) EmptyString.

Definition mk_strategy (lvl : nat) (f : SearchFilters) (count : Z) : Strategy :=
  {| level := lvl; url := build_sales_nav_url f search_type_;
     search_type := search_type_; max_count := count |}.

(** Each strategy returns [Some results] where the source returns from
    the function and [None] where control reaches the code after the
    [try] statement. *)

Definition strategy_1 : M (option (list Result)) :=
  try_except
    (let* results := fetch_and_extract (mk_strategy 1 filters max_results) 5 in
     if (0 <? length results)%nat then ret (Some results) else ret None)
    (fun _ => ret None).

Definition simplified_filters : SearchFilters :=
  {| keywords := join " OR " (take 2 simple_keywords);
     native_filters := [("geoIncluded", geo_included); ("currentJobTitle", "true")];
     intent := None |}.

Definition strategy_2 : M (option (list Result)) :=
  try_except
    (if truthy_list simple_keywords then
       let* results := fetch_and_extract (mk_strategy 2 simplified_filters max_results) 10 in
       if (0 <? length results)%nat then ret (Some results) else ret None
     else ret None)
    (fun _ => ret None).

Definition minimal_filters : SearchFilters :=
  {| keywords := match simple_keywords with k :: _ => k | [] => "developer" end;
     native_filters := [("geoIncluded", geo_included)];
     intent := None |}.

Definition strategy_3 : M (option (list Result)) :=
  try_except
    (let* results := fetch_and_extract (mk_strategy 3 minimal_filters max_results) 5 in
     if (0 <? length results)%nat then ret (Some results) else ret None)
    (fun _ => ret None).

Definition broadening_filters : SearchFilters :=
  {| keywords := _create_or_broadening_query (intent filters);
     native_filters := _create_or_broadening_filters (intent filters);
     intent := None |}.

Definition strategy_4 : M (option (list Result)) :=
  try_except
    (let* results := fetch_and_extract (mk_strategy 4 broadening_filters (max_results * 2)) 5 in
     if (0 <? length results)%nat
     then ret (Some (map (tag_or_broadening (intent filters)) results))
     else ret None)
    (fun _ => ret None).

Definition ultra_broad_filters : SearchFilters :=
  {| keywords := "developer OR manager OR founder";
     native_filters := [("geoIncluded", join "," (get_locations (intent filters)));
                        ("currentJobTitle", "true")];
     intent := None |}.

Definition strategy_5 : M (option (list Result)) :=
  try_except
    (if truthy_list (get_locations (intent filters)) then
       let* results := fetch_and_extract (mk_strategy 5 ultra_broad_filters (max_results * 3)) 10 in
       if (0 <? length results)%nat
       then ret (Some (map (tag_ultra_broad (intent filters)) results))
       else ret None
     else ret None)
    (fun _ => ret None).

(** Run [attempt]; return what it returned, or go on with [next]. *)
Definition or_else (attempt : M (option (list Result))) (next : M (list Result))
  : M (list Result) :=
  let* r := attempt in
  match r with
  | Some results => ret results
  | None => next
  end.

Definition search_with_progressive_fallback : M (list Result) :=
  or_else strategy_1 (
  time_sleep 15 ;;
  or_else strategy_2 (
  time_sleep 15 ;;
  or_else strategy_3 (
  time_sleep 15 ;;
  or_else strategy_4 (
  time_sleep 15 ;;
  or_else strategy_5 (
  ret [])))))%list.

End Ladder.

End Search.

(** *** Notions used to state the properties of the search *)

(** The shape the five [try] statements share: load and read the page
    of [s]; return [post results] when there are results. *)
Definition attempt {Env : Type} (collab : Collaborator Env) (s : Strategy) (pause : Z)
           (post : list Result -> list Result) : M (option (list Result)) :=
  try_except
    (bind (fetch_and_extract collab s pause)
          (fun results =>
             if (0 <? length results)%nat then ret (Some (post results)) else ret None))
    (fun _ => ret None).

(** The ladder read as a table.  Whether level [k] is tried at all:
    level 2 needs a simple keyword, level 5 a detected location. *)
Definition level_guard (self_query : string) (filters : SearchFilters) (k : nat) : bool :=
  match k with
  | 2%nat => truthy_list (simple_keywords self_query filters)
  | 5%nat => truthy_list (get_locations (intent filters))
  | _ => true
  end.

(** What level [k] hands to the collaborator. *)
Definition level_strategy (self_query : string) (filters : SearchFilters)
           (search_type_ : string) (max_results : Z) (k : nat) : Strategy :=
  match k with
  | 1%nat => mk_strategy search_type_ 1 filters max_results
  | 2%nat => mk_strategy search_type_ 2 (simplified_filters self_query filters) max_results
  | 3%nat => mk_strategy search_type_ 3 (minimal_filters self_query filters) max_results
  | 4%nat => mk_strategy search_type_ 4 (broadening_filters filters) (max_results * 2)
  | _ => mk_strategy search_type_ 5 (ultra_broad_filters filters) (max_results * 3)
  end.

(** The seconds level [k] waits between loading and reading the page. *)
Definition level_pause (k : nat) : Z :=
  match k with
  | 2%nat | 5%nat => 10
  | _ => 5
  end.

(** The [try] statement of level [k]. *)
Definition nth_strategy {Env : Type} (collab : Collaborator Env)
           (self_query : string) (filters : SearchFilters)
           (search_type_ : string) (max_results : Z) (k : nat)
  : M (option (list Result)) :=
  match k with
  | 1%nat => strategy_1 collab filters search_type_ max_results
  | 2%nat => strategy_2 collab self_query filters search_type_ max_results
  | 3%nat => strategy_3 collab self_query filters search_type_ max_results
  | 4%nat => strategy_4 collab filters search_type_ max_results
  | _ => strategy_5 collab filters search_type_ max_results
  end.

(** The ladder over a list of levels: each level in turn, fifteen
    seconds apart, until one returns results. *)
Fixpoint climb {Env : Type} (collab : Collaborator Env)
         (self_query : string) (filters : SearchFilters)
         (search_type_ : string) (max_results : Z) (levels : list nat)
  : M (list Result) :=
  match levels with
  | [] => ret []
  | k :: rest =>
      or_else (nth_strategy collab self_query filters search_type_ max_results k)
              (match rest with
               | [] => ret []
               | _ => bind (time_sleep 15)
                           (fun _ => climb collab self_query filters search_type_
                                           max_results rest)
               end)
  end.

(** The levels a ladder tries for a query when none succeeds, and those
    among them up to level [k]. *)
Definition applicable_levels (self_query : string) (filters : SearchFilters) : list nat :=
  filter (fun k => level_guard self_query filters k = true) [1; 2; 3; 4; 5]%nat.

Definition levels_up_to (k : nat) (self_query : string) (filters : SearchFilters)
  : list nat :=
  filter (fun j => (j <= k)%nat) (applicable_levels self_query filters).

(** The levels whose pages a trace loads, in order. *)
Definition attempted (tr : list Event) : list nat :=
  flat_map (fun ev => match ev with Navigate s => [level s] | _ => [] end) tr.

(** The world after [time.sleep(secs)]. *)
Definition slept {Env : Type} (secs : Z) (w : World Env) : World Env :=
  {| browser := browser w; limiter := limiter w; trace := trace w ++ [Sleep secs] |}.

(** What the ladder does to the results of level [k] before returning
    them. *)
Definition tagged (k : nat) (filters : SearchFilters) (results : list Result)
  : list Result :=
  match k with
  | 4%nat => map (tag_or_broadening (intent filters)) results
  | 5%nat => map (tag_ultra_broad (intent filters)) results
  | _ => results
  end.

(** A record carries [ai_filter_needed = True]. *)
Definition ai_filter_needed (r : Result) : Prop :=
  r !! "ai_filter_needed" = Some (VBool true).

(** A collaborator whose pages always load. *)
Definition always_loads {Env : Type} (collab : Collaborator Env) : Prop :=
  forall s e, fst (driver_get collab s e) = Returned tt.

(** A collaborator whose extractor returns [results] at the levels
    selected by [sel]. *)
Definition extracts_at {Env : Type} (collab : Collaborator Env)
           (sel : nat -> Prop) (results : list Result) : Prop :=
  forall s e, sel (level s) -> fst (extract_search_results collab s e) = Returned results.

(** A collaborator with which every level fails: the page does not load,
    or the extractor raises, or it finds nothing. *)
Definition every_level_fails {Env : Type} (collab : Collaborator Env) : Prop :=
  forall s e,
    match driver_get collab s e with
    | (Raised _, _) => True
    | (Returned _, e') =>
        match extract_search_results collab s e' with
        | (Raised _, _) => True
        | (Returned results, _) => results = []
        end
    end.

(** The page of [s] does not load, or the extractor raises on it. *)
Definition raises_at {Env : Type} (collab : Collaborator Env) (s : Strategy) (e : Env)
  : Prop :=
  match driver_get collab s e with
  | (Raised _, _) => True
  | (Returned _, e') =>
      match extract_search_results collab s e' with
      | (Raised _, _) => True
      | (Returned _, _) => False
      end
  end.

(** The ordinals of the ladder. *)
Definition in_range (k : nat) : Prop := (1 <= k <= 5)%nat.

(** The number of occurrences of a character in a string. *)
Fixpoint count_char (c : ascii) (s : string) : nat :=
  match s with
  | EmptyString => 0
  | String c' rest => (if Ascii.eqb c c' then 1 else 0) + count_char c rest
  end.

Definition double_quote : ascii := ascii_of_nat 34.

(** *** Sample data *)

Definition sample_query : string := "CTO CEO developer in Madrid".
Definition short_query : string := "AI".

(** The intent and the filters of [sample_query]. *)
Definition sample_intent : Intent :=
  {| roles := ["cto"; "ceo"; "developer"]; skills := [];
     locations := ["Madrid"];
     company_criteria := {| size := None; funding := None |};
     seniority := ["owner"; "partner"; "cxo"; "vp"; "director"];
     keywords_raw := "cto ceo developer in madrid" |}.

Definition sample_filters : SearchFilters := filters_of_intent sample_intent.

(** The intent and the filters of [short_query]: nothing is matched, and
    its only word is too short to be a simple keyword. *)
Definition short_intent : Intent :=
  {| roles := []; skills := []; locations := [];
     company_criteria := {| size := None; funding := None |};
     seniority := []; keywords_raw := "ai" |}.

Definition short_filters : SearchFilters := filters_of_intent short_intent.

(** A record as the extractor builds it for a lead. *)
Definition sample_lead : Result :=
  <["name" := VStr "Ann Lee"]>
    (<["title" := VStr "CTO"]>
       (<["company" := VStr "Acme"]>
          (<["location" := VStr "Madrid"]>
             (<["profile_url" := VStr "https://www.linkedin.com/sales/lead/1"]>
                (<["source" := VStr "LinkedIn Sales Navigator"]> ∅))))).

(** A stub that finds [sample_lead] at level [k] and nothing elsewhere. *)
Definition stub_at (k : nat) : Collaborator unit :=
  {| driver_get := fun _ e => (Returned tt, e);
     extract_search_results :=
       fun s e => (if (level s =? k)%nat then Returned [sample_lead] else Returned [], e) |}.

(** A stub that never finds anything. *)
Definition stub_empty : Collaborator unit :=
  {| driver_get := fun _ e => (Returned tt, e);
     extract_search_results := fun _ e => (Returned [], e) |}.

(** A stub whose pages fail to load at odd levels and whose extractor
    raises at even levels. *)
Definition stub_broken : Collaborator unit :=
  {| driver_get :=
       fun s e => (if Nat.odd (level s) then Raised "timeout" else Returned tt, e);
     extract_search_results := fun _ e => (Raised "stale element", e) |}.

(** A process whose rate limiter is freshly constructed. *)
Definition sample_world : World unit :=
  {| browser := tt;
     limiter := RateLimiter.fresh_sys RateLimiter.default_limits;
     trace := [] |}.

(** A process whose rate limiter is blocked by an emergency stop. *)
Definition blocked_world : World unit :=
  {| browser := tt; limiter := RateLimiter.stopped_sys; trace := [] |}.

(** *** The intent parser

    The pattern tables list the ASCII patterns of the source; its
    remaining patterns are not ASCII and occur in no ASCII text. *)

(** [pattern in text]. *)
Fixpoint contains (pattern text : string) : bool :=
  String.prefix pattern text
  || match text with
     | EmptyString => false
     | String _ rest => contains pattern rest
     end.

(** [any(pattern in raw for pattern in patterns)]. *)
Definition any_in (patterns : list string) (raw : string) : bool :=
  existsb (fun pattern => contains pattern raw) patterns.

(** The names of a pattern table whose patterns occur in [raw], in the
    order of the table. *)
Definition matched (table : list (string * list string)) (raw : string) : list string :=
  flat_map (fun entry : string * list string =>
              if any_in (snd entry) raw then [fst entry] else [])
           table.

Definition role_patterns : list (string * list string) :=
  [("javascript developer", ["javascript"; "js"; "frontend"; "backend"; "fullstack"]);
   ("cto", ["cto"; "chief technology"; "tech lead"]);
   ("ceo", ["ceo"; "chief executive"; "founder"]);
   ("developer", ["developer"; "engineer"; "programmer"]);
   ("manager", ["manager"])].

Definition skill_patterns : list (string * list string) :=
  [("JavaScript", ["javascript"; "js"; "node"; "react"; "vue"; "angular"]);
   ("Python", ["python"; "django"; "flask"]);
   ("Java", ["java"; "spring"]);
   ("TypeScript", ["typescript"; "ts"])].

Definition location_patterns : list (string * list string) :=
  [("Valencia", ["valencia"]);
   ("Barcelona", ["barcelona"]);
   ("Madrid", ["madrid"]);
   ("Spain", ["spain"])].

Definition decision_maker_seniority : list string :=
  ["owner"; "partner"; "cxo"; "vp"; "director"].

Definition parse_intent (query : string) : Intent :=
  let raw := lower query in
  {| roles := matched role_patterns raw;
     skills := matched skill_patterns raw;
     locations := matched location_patterns raw;
     company_criteria :=
       {| size := if any_in ["100"; "employees"] raw then Some "1-100"
                  else if any_in ["startup"] raw then Some "1-50"
                  else None;
          funding := if any_in ["funded"; "investment"] raw then Some "funded"
                     else None |};
     seniority := if any_in ["decision maker"; "ceo"; "cto"; "founder"] raw
                  then decision_maker_seniority else [];
     keywords_raw := raw |}.

Definition parse_query_filters (query : string) : SearchFilters :=
  filters_of_intent (parse_intent query).

(** *** Formatting of results *)

Definition newline : string := String (ascii_of_nat 10) EmptyString.
Definition single_quote : ascii := ascii_of_nat 39.
Definition backslash : ascii := ascii_of_nat 92.

Fixpoint has_char (c : ascii) (s : string) : bool :=
  match s with
  | EmptyString => false
  | String c' rest => Ascii.eqb c c' || has_char c rest
  end.

Definition hex_digit_lower (n : nat) : ascii :=
  if (n <? 10)%nat then ascii_of_nat (48 + n) else ascii_of_nat (87 + n).

(** One character of [repr(s)] for a string quoted with [quote]. *)
Definition repr_char (quote c : ascii) : string :=
  let n := nat_of_ascii c in
  if Ascii.eqb c backslash then String backslash (String backslash EmptyString)
  else if Ascii.eqb c quote then String backslash (String quote EmptyString)
  else if (n =? 9)%nat then String backslash "t"
  else if (n =? 10)%nat then String backslash "n"
  else if (n =? 13)%nat then String backslash "r"
  else if (n <? 32)%nat || (n =? 127)%nat
  then String backslash
         (String "x" (String (hex_digit_lower (n / 16))
                             (String (hex_digit_lower (n mod 16)) EmptyString)))
  else String c EmptyString.

Fixpoint repr_chars (quote : ascii) (s : string) : string :=
  match s with
  | EmptyString => EmptyString
  | String c rest => repr_char quote c +:+ repr_chars quote rest
  end.

(** [repr(s)] of a string: single quotes, unless the string has a single
    quote and no double quote. *)
Definition repr_str (s : string) : string :=
  let quote :=
    if has_char single_quote s && negb (has_char double_quote s)
    then double_quote else single_quote in
  String quote (repr_chars quote s) +:+ String quote EmptyString.

Definition repr_list (l : list string) : string :=
  "[" +:+ join ", " (map repr_str l) +:+ "]".

Definition repr_field (f : Field) : string :=
  match f with
  | FStr s => repr_str s
  | FList l => repr_list l
  | FDict d =>
      "{" +:+ join ", " (map (fun kv : string * string =>
                                repr_str (fst kv) +:+ ": " +:+ repr_str (snd kv)) d)
      +:+ "}"
  end.

(** [f"{v}"], that is [str(v)]. *)
Definition str_value (v : Value) : string :=
  match v with
  | VStr s => s
  | VBool true => "True"
  | VBool false => "False"
  | VDict d =>
      "{" +:+ join ", " (map (fun kf : string * Field =>
                                repr_str (fst kf) +:+ ": " +:+ repr_field (snd kf)) d)
      +:+ "}"
  end.

(** Truthiness of a value. *)
Definition truthy_value (v : Value) : bool :=
  match v with
  | VStr s => truthy_str s
  | VBool b => b
  | VDict d => truthy_list d
  end.

(** [result.get(key, default)]. *)
Definition result_get (result : Result) (key : string) (default : Value) : Value :=
  match result !! key with
  | Some v => v
  | None => default
  end.

(** An entry of the list [search] returns. *)
Record Formatted := {
  href : Value;
  body : string
}.

(** The line [f"{label}: {result.get(key, 'N/A')}\n"]. *)
Definition body_line (label key : string) (result : Result) : string :=
  label +:+ ": " +:+ str_value (result_get result key (VStr "N/A")) +:+ newline.

(** The message [search] appends for a result that needs the AI filter. *)
Definition ai_marker (criteria : Value) : string :=
  (newline +:+ "[AI FILTER NEEDED]" +:+ newline)
  +:+ ("Original Criteria: " +:+ str_value criteria +:+ newline)
  +:+ ("Please evaluate if this profile matches the original search criteria."
       +:+ newline).

Definition ai_filter_info (result : Result) : string :=
  match result !! "ai_filter_needed" with
  | Some v =>
      if truthy_value v
      then ai_marker (result_get result "original_criteria" (VDict []))
      else EmptyString
  | None => EmptyString
  end.

(** The body of the loop of [search] over the raw results. *)
Definition format_result (search_type : string) (result : Result) : Formatted :=
  let plain :=
    if String.eqb search_type "companies" then
      (((body_line "Company" "name" result
         +:+ body_line "Industry" "industry" result)
        +:+ body_line "Size" "size" result)
       +:+ body_line "Location" "location" result,
       result_get result "company_url" (VStr EmptyString))
    else
      (((body_line "Name" "name" result
         +:+ body_line "Title" "title" result)
        +:+ body_line "Company" "company" result)
       +:+ body_line "Location" "location" result,
       result_get result "profile_url" (VStr EmptyString)) in
  {| href := snd plain; body := fst plain +:+ ai_filter_info result |}.

(** *** The entry points *)

(** What [login] does on its way: it loads pages and it sleeps. *)
Inductive LoginStep :=
| Load (page : string)
| Pause (secs : Z).

Definition login_event (step : LoginStep) : Event :=
  match step with
  | Load page => Visit page
  | Pause secs => Sleep secs
  end.

(** One call of [login]: what it returns, the browser it leaves, and its
    page loads and sleeps, in order. *)
Record LoginRun (Env : Type) := {
  logged_in : outcome bool;
  browser_after : Env;
  steps : list LoginStep
}.
Arguments logged_in {Env} l.
Arguments browser_after {Env} l.
Arguments steps {Env} l.

(** The [asyncio] event loop [search] obtains with [get_event_loop] (a
    loop it has to create itself is idle): idle, already running because
    the caller is itself a coroutine, or closed. *)
Inductive EventLoop :=
| Idle
| Running
| Closed.

Section EntryPoints.

Context {Env : Type} (collab : Collaborator Env).

(** [self.login()]: it returns whether the session is logged in, or
    raises; on its way it changes the browser, loads pages of its own
    and sleeps. *)
Variable login : Env -> LoginRun Env.

Definition self_login : M bool :=
  fun w =>
    let 'Build_World _ e rl tr := w in
    let 'Build_LoginRun _ r e' steps := login e in
    (r, Build_World Env e' rl (tr ++ map login_event steps)).

(** [raise]. *)
Definition raise {A} (msg : string) : @M Env A := fun w => (Raised msg, w).

(** [search_leads] and [search_companies] differ in the search type
    only; [None] is the value returned when the login fails. *)
Definition search_for (search_type_ : string) (query : string) (max_results : Z)
  : M (option (list Result)) :=
  bind self_login (fun logged_in =>
  if negb logged_in then ret None
  else
    try_except
      (let filters := parse_query_filters query in
       bind (search_with_progressive_fallback collab query filters search_type_
                                              max_results)
            (fun results => ret (Some results)))
      (fun _ => ret (Some []))).

Definition search_leads (query : string) (max_results : Z) : M (option (list Result)) :=
  search_for "people" query max_results.

Definition search_companies (query : string) (max_results : Z)
  : M (option (list Result)) :=
  search_for "companies" query max_results.

(** Whether [search] looks for companies, by the ASCII terms of its
    list. *)
Definition is_company_query (query : string) : bool :=
  any_in ["company"; "companies"; "startup"] (lower query).

(** The [finally] clause of [search]: the browser is closed and
    forgotten, whatever [quit] does. *)
Variable quit_driver : Env -> Env.

Definition cleanup (w : World Env) : World Env :=
  let 'Build_World _ e rl tr := w in Build_World Env (quit_driver e) rl tr.

(** [try: body finally: final], for a [final] that cannot raise. *)
Definition try_finally {A} (body : M A) (final : World Env -> World Env) : M A :=
  fun w => let (r, w') := body w in (r, final w').

Variable loop : EventLoop.

(** [loop.run_until_complete(coroutine)]: on an idle loop the coroutine
    runs to its end; on a running or closed loop [RuntimeError] is
    raised and the coroutine never starts. *)
Definition run_until_complete {A} (coroutine : M A) : M A :=
  match loop with
  | Idle => coroutine
  | Running => raise "This event loop is already running"
  | Closed => raise "Event loop is closed"
  end.

Definition search (query : string) (max_results : Z) : M (list Formatted) :=
  try_finally
    (try_except
       (let companies := is_company_query query in
        bind (if companies
              then run_until_complete (search_companies query max_results)
              else run_until_complete (search_leads query max_results))
             (fun raw_results =>
                let search_type := if companies then "companies" else "leads" in
                match raw_results with
                | None => raise "'NoneType' object is not iterable"
                | Some results => ret (map (format_result search_type) results)
                end))
       (fun _ => ret []))
    cleanup.

End EntryPoints.

(** *** The result extractor

    The page as Selenium shows it.  A lookup that raises (no matching
    element, a stale element) is [None]; the [href] of a matched link is
    a string. *)

(** The result container of an element, by the selectors the extractor
    uses inside it. *)
Record Container := {
  title_text : option string;
  company_name_text : option string;
  industry_text : option string;
  company_size_text : option string;
  lead_href : option string;
  company_href : option string;
  location_text : option string
}.

(** A matched element: its [text] and its ancestor container. *)
Record Element := {
  element_text : option string;
  ancestor : option Container
}.

(** What [find_elements] gives for the two selectors of names. *)
Record Page := {
  person_names : option (list Element);
  company_names : option (list Element)
}.

(** [l[:n]]: a negative [n] counts from the end. *)
Definition slice_to {A} (n : Z) (l : list A) : list A :=
  if (0 <=? n)%Z then take (Z.to_nat n) l
  else take (Z.to_nat (Z.of_nat (length l) + n)) l.

(** [e.text if e.text else "N/A"]. *)
Definition text_or_na (t : string) : string :=
  if truthy_str t then t else "N/A".

(** [try: e = find(...); v = e.text if e.text else "N/A" except: v = "N/A"]. *)
Definition field_or_na (t : option string) : string :=
  match t with
  | Some s => text_or_na s
  | None => "N/A"
  end.

(** [try: ... get_attribute("href") ... except:] gives the empty string. *)
Definition href_or_empty (t : option string) : string :=
  match t with
  | Some s => s
  | None => EmptyString
  end.

Definition source_name : string := "LinkedIn Sales Navigator".

(** The body of the loop over lead elements: the record appended, or
    nothing when the element is skipped. *)
Definition lead_of (element : Element) : list Result :=
  match ancestor element with
  | None => []
  | Some container =>
      match element_text element with
      | None => []
      | Some t =>
          [list_to_map
             [("name", VStr (text_or_na t));
              ("title", VStr (field_or_na (title_text container)));
              ("company", VStr (field_or_na (company_name_text container)));
              ("location", VStr (field_or_na (location_text container)));
              ("profile_url", VStr (href_or_empty (lead_href container)));
              ("source", VStr source_name)]]
      end
  end.

(** The body of the loop over company elements. *)
Definition company_of (element : Element) : list Result :=
  match ancestor element with
  | None => []
  | Some container =>
      match element_text element with
      | None => []
      | Some t =>
          [list_to_map
             [("name", VStr (text_or_na t));
              ("industry", VStr (field_or_na (industry_text container)));
              ("size", VStr (field_or_na (company_size_text container)));
              ("location", VStr (field_or_na (location_text container)));
              ("company_url", VStr (href_or_empty (company_href container)));
              ("source", VStr source_name)]]
      end
  end.

Definition _extract_search_results (page : Page) (search_type_ : string)
           (max_results : Z) : list Result :=
  if String.eqb search_type_ "people" then
    match person_names page with
    | None => []
    | Some lead_elements => flat_map lead_of (slice_to max_results lead_elements)
    end
  else
    match company_names page with
    | None => []
    | Some company_elements =>
        flat_map company_of (slice_to max_results company_elements)
    end.

(** A browser over a site: [driver.get] shows the page the site has at
    the URL and raises when it has none; the extractor reads the page
    shown. *)
Definition web (site : string -> option Page) : Collaborator (option Page) :=
  {| driver_get :=
       fun s shown =>
         match site (url s) with
         | Some page => (Returned tt, Some page)
         | None => (Raised "page load failed", shown)
         end;
     extract_search_results :=
       fun s shown =>
         (Returned match shown with
                   | Some page =>
                       _extract_search_results page (search_type s) (max_count s)
                   | None => []
                   end,
          shown) |}.

(** *** Notions used to state further properties *)

(** A trace in which every page load but the first comes after a pause
    of at least fifteen seconds since the load before it; [rested] says
    whether such a pause has been taken. *)
Fixpoint spaced (rested : bool) (tr : list Event) : bool :=
  match tr with
  | [] => true
  | Navigate _ :: rest => rested && spaced false rest
  | Visit _ :: rest => rested && spaced false rest
  | Sleep secs :: rest => spaced (rested || (15 <=? secs)%Z) rest
  | Extract _ :: rest => spaced rested rest
  end.

(** Whether a pause has been taken at the end of a trace. *)
Fixpoint rested_after (rested : bool) (tr : list Event) : bool :=
  match tr with
  | [] => rested
  | Navigate _ :: rest => rested_after false rest
  | Visit _ :: rest => rested_after false rest
  | Sleep secs :: rest => rested_after (rested || (15 <=? secs)%Z) rest
  | Extract _ :: rest => rested_after rested rest
  end.

(** The seconds a trace sleeps. *)
Definition slept_seconds (tr : list Event) : Z :=
  fold_right (fun ev acc => match ev with Sleep secs => secs + acc | _ => acc end)%Z
             0%Z tr.

(** The parameters [build_sales_nav_url] writes. *)
Definition param_count (filters : SearchFilters) : nat :=
  (if truthy_str (keywords filters) then 1 else 0)
  + length (List.filter (fun kv : string * string => truthy_str (snd kv))
                        (native_filters filters)).

Definition ampersand : ascii := ascii_of_nat 38.
Definition question_mark : ascii := ascii_of_nat 63.

Fixpoint all_chars (p : ascii -> bool) (s : string) : bool :=
  match s with
  | EmptyString => true
  | String c rest => p c && all_chars p rest
  end.

(** The characters [quote_plus] keeps, and those of a search URL. *)
Definition unreserved (c : ascii) : bool :=
  let n := nat_of_ascii c in
  isalnum c || (n =? 95)%nat || (n =? 46)%nat || (n =? 45)%nat || (n =? 126)%nat.

Definition url_char (c : ascii) : bool :=
  unreserved c || has_char c ":/?=&+%".

(** A word as [_extract_simple_keywords] cleans it: letters and digits,
    none of them upper case. *)
Definition clean_char (c : ascii) : bool := isalnum c && negb (is_upper c).

(** The seconds the ladder waits over a list of levels when no level
    returns: the pause of each level and fifteen seconds between two
    levels. *)
Fixpoint sleep_budget (levels : list nat) : Z :=
  match levels with
  | [] => 0
  | [k] => level_pause k
  | k :: rest => level_pause k + 15 + sleep_budget rest
  end.

(** The keys of an insertion-ordered dictionary. *)
Definition dict_keys (d : list (string * string)) : list string := map fst d.

(** A login that succeeds at once; one that loads the login page, waits
    and fails; one that raises. *)
Definition login_ok : unit -> LoginRun unit :=
  fun e => {| logged_in := Returned true; browser_after := e; steps := [] |}.
Definition login_refused : unit -> LoginRun unit :=
  fun e => {| logged_in := Returned false; browser_after := e;
              steps := [Load "https://www.linkedin.com/login"; Pause 3] |}.
Definition login_crashes : unit -> LoginRun unit :=
  fun e => {| logged_in := Raised "session expired"; browser_after := e;
              steps := [] |}.

(** A query about companies and one about people. *)
Definition company_query : string := "Funded startup companies in Valencia".
Definition skill_query : string := "Senior JavaScript people, Spain".

(** The process after a call of [login]. *)
Definition logged {Env : Type} (l : LoginRun Env) (w : World Env) : World Env :=
  {| browser := browser_after l; limiter := limiter w;
     trace := trace w ++ map login_event (steps l) |}.

(** An intent with another [company_criteria]. *)
Definition with_criteria (cc : CompanyCriteria) (i : Intent) : Intent :=
  {| roles := roles i; skills := skills i; locations := locations i;
     company_criteria := cc; seniority := seniority i;
     keywords_raw := keywords_raw i |}.

(** The parameter one native filter contributes to the URL, and the
    parameter list [build_sales_nav_url] joins. *)
Definition url_param (kv : string * string) : list string :=
  let (filter_key, filter_value) := kv in
  if truthy_str filter_value then
    if String.eqb filter_key "currentJobTitle" && String.eqb filter_value "true"
    then ["currentJobTitle=true"]
    else [filter_key +:+ "=" +:+ quote_plus filter_value]
  else [].

Definition url_params (filters : SearchFilters) : list string :=
  (if truthy_str (keywords filters)
   then ["keywords=" +:+ quote_plus (keywords filters)] else [])
  ++ flat_map url_param (native_filters filters).

(** The characters of one parameter: those of a URL but the two
    separators. *)
Definition param_safe (c : ascii) : bool :=
  url_char c && negb (Ascii.eqb c ampersand) && negb (Ascii.eqb c question_mark).

(** The elements [find_elements] gives for a search type. *)
Definition found (page : Page) (search_type_ : string) : list Element :=
  match (if String.eqb search_type_ "people" then person_names page
         else company_names page) with
  | Some elements => elements
  | None => []
  end.

(** [results] is what the extractor returned at level [k], tagged for
    that level. *)
Definition from_level {Env : Type} (collab : Collaborator Env)
           (self_query : string) (filters : SearchFilters)
           (search_type_ : string) (max_results : Z)
           (k : nat) (results : list Result) : Prop :=
  exists e raw e',
    extract_search_results
      collab (level_strategy self_query filters search_type_ max_results k) e
    = (Returned raw, e') /\
    raw <> [] /\ results = tagged k filters raw.

(** A record as the extractor leaves it: a non-empty name, the source
    stamp, and no AI-filter metadata. *)
Definition plain_record (r : Result) : Prop :=
  (exists name, r !! "name" = Some (VStr name) /\ name <> EmptyString) /\
  r !! "source" = Some (VStr source_name) /\
  r !! "ai_filter_needed" = None /\
  r !! "original_criteria" = None /\
  r !! "search_strategy" = None.

(** A page with three leads, the second without a container, and a site
    that serves it at every URL. *)
Definition sample_container : Container :=
  {| title_text := Some "CTO"; company_name_text := Some EmptyString;
     industry_text := None; company_size_text := None;
     lead_href := Some "https://www.linkedin.com/sales/lead/7";
     company_href := None; location_text := None |}.

Definition sample_page : Page :=
  {| person_names :=
       Some [ {| element_text := Some "Ann Lee"; ancestor := Some sample_container |};
              {| element_text := Some "Bo Chen"; ancestor := None |};
              {| element_text := Some EmptyString; ancestor := Some sample_container |} ];
     company_names := None |}.

Definition sample_site (u : string) : option Page := Some sample_page.

(** A site that has a page for the ultra-broad search only. *)
Definition last_resort_site (u : string) : option Page :=
  if contains "developer+OR+manager+OR+founder" u then Some sample_page else None.

Definition web_world : World (option Page) :=
  {| browser := None;
     limiter := RateLimiter.fresh_sys RateLimiter.default_limits;
     trace := [] |}.

Definition web_login_ok : option Page -> LoginRun (option Page) :=
  fun e => {| logged_in := Returned true; browser_after := e; steps := [] |}.

(** A query in which a role, a skill, a seniority and a funding term are
    recognised. *)
Definition full_query : string := "Funded JavaScript CTO".

End SalesNavigator.

(** ** Properties of the rate limiter *)

Module LimiterFacts.
Import Py RateLimiter.

Local Open Scope Q_scope.

(** Name every component of a limiter. *)
Ltac open_sys s :=
  destruct s as [[?lim [?ds ?dp ?dc ?hs ?hp ?lst ?lpt ?lrd ?lhr ?cf ?tft ?lbt ?cs ?bu]
                       ?start ?actions] ?dk ?tk ?dr].

(** Simplify without unfolding arithmetic or text. *)
Ltac step_limiter :=
  cbn -[Z.add Z.sub Z.mul Z.pow Z.min Z.max Z.leb Z.ltb Z.eqb String.eqb
        Qplus Qminus Qmult Qdiv Qopp Qpower inject_Z Qltb maxQ minQ fmt_0f
        pretty String.append uniform_of gauss_of block_duration backoff_scaled
        stored_after].

(** Run a computation of the limiter on an opened system. *)
Ltac run_limiter :=
  unfold state_after, answer, can_search, can_view_profile, record_search,
    record_profile_view, reset_session, emergency_stop, reset_if_needed,
    break_check, get_delay, save_state, time_time, datetime_now,
    random_uniform, random_gauss, set_continuous_actions, modify_state,
    get_state, get_limits, bind, ret;
  step_limiter.

(** Decide the tests the run is waiting on, outermost first. *)
Ltac split_tests :=
  repeat match goal with
         | |- context [if ?b then _ else _] => destruct b eqn:?; step_limiter
         end.

Lemma Qltb_true (a b : Q) : Qltb a b = true <-> a < b.
Proof.
  unfold Qltb. rewrite negb_true_iff. split; intros H.
  - apply Qnot_le_lt. intros Hle. apply Qle_bool_iff in Hle. congruence.
  - destruct (Qle_bool b a) eqn:E; [|reflexivity].
    apply Qle_bool_iff in E. apply Qle_not_lt in E. contradiction.
Qed.

Lemma Qltb_false (a b : Q) : Qltb a b = false <-> b <= a.
Proof.
  unfold Qltb. rewrite negb_false_iff. apply Qle_bool_iff.
Qed.

Lemma maxQ_spec (a b : Q) :
  a <= maxQ a b /\ b <= maxQ a b /\ (maxQ a b = a \/ maxQ a b = b).
Proof.
  unfold maxQ. destruct (Qltb a b) eqn:E.
  - apply Qltb_true in E. repeat split; [lra | lra | now right].
  - apply Qltb_false in E. repeat split; [lra | lra | now left].
Qed.

Lemma minQ_spec (a b : Q) :
  minQ a b <= a /\ minQ a b <= b /\ (minQ a b = a \/ minQ a b = b).
Proof.
  unfold minQ. destruct (Qltb b a) eqn:E.
  - apply Qltb_true in E. repeat split; [lra | lra | now right].
  - apply Qltb_false in E. repeat split; [lra | lra | now left].
Qed.

(** *** Rollover *)

Lemma reset_if_needed_run (amb : Ambient) (s : Sys) :
  reset_if_needed amb s = (tt, rolled_sys amb s).
Proof.
  open_sys s. run_limiter. unfold rolled_sys, rolled.
  cbn [date hour last_reset_date last_hour_reset ticks this state].
  destruct (String.eqb (date (clock amb tk)) lrd); cbn;
    destruct (hour (clock amb tk) =? lhr)%Z; cbn; reflexivity.
Qed.

Lemma bind_reset_if_needed {A} (amb : Ambient) (k : unit -> L A) (s : Sys) :
  bind (reset_if_needed amb) k s = k tt (rolled_sys amb s).
Proof. unfold bind. rewrite reset_if_needed_run. reflexivity. Qed.

(** What [reset_if_needed] does.  When the date read differs from
    [last_reset_date], it zeroes the three daily counters and
    [total_failures_today], lowers [consecutive_failures] by one but not
    below zero, stores the new date, and zeroes the session attribute
    [continuous_actions]; [continuous_searches] of the state dictionary
    keeps its value.  Independently, when the hour read differs from
    [last_hour_reset], the two hourly counters are zeroed and the new hour
    is stored. *)
Lemma reset_if_needed_rollover (amb : Ambient) (s : Sys) :
  let now := clock amb (ticks s) in
  let st := state (this s) in
  let s' := snd (reset_if_needed amb s) in
  let st' := state (this s') in
  (date now <> last_reset_date st ->
     daily_searches st' = 0%Z /\ daily_profiles st' = 0%Z /\
     daily_connections st' = 0%Z /\ total_failures_today st' = 0%Z /\
     consecutive_failures st' = Z.max 0 (consecutive_failures st - 1) /\
     last_reset_date st' = date now /\
     continuous_actions (this s') = 0%Z /\
     continuous_searches st' = continuous_searches st) /\
  (hour now <> last_hour_reset st ->
     hourly_searches st' = 0%Z /\ hourly_profiles st' = 0%Z /\
     last_hour_reset st' = hour now).
Proof.
  cbn zeta. rewrite reset_if_needed_run. unfold rolled_sys.
  cbn [snd this state continuous_actions].
  unfold rolled. split; intros H.
  - apply String.eqb_neq in H. rewrite H. cbn. repeat split.
  - apply Z.eqb_neq in H. rewrite H. cbn. repeat split.
Qed.

(** A limiter that recorded four searches, one of them failed, read on
    the next day at another hour. *)
Lemma reset_if_needed_rollover_witness :
  let st' := state_after (reset_if_needed next_day_ambient) busy_sys in
  daily_searches st' = 0%Z /\ total_failures_today st' = 0%Z /\
  last_reset_date st' = "2025-01-02" /\ hourly_searches st' = 0%Z /\
  last_hour_reset st' = 11%Z.
Proof.
  destruct (reset_if_needed_rollover next_day_ambient busy_sys) as [Hd Hh].
  destruct Hd as (H1 & _ & _ & H4 & _ & H6 & _); [vm_compute; discriminate|].
  destruct Hh as (H7 & _ & H9); [vm_compute; discriminate|].
  unfold state_after. repeat split; assumption.
Defined.

(** C3 fails on the code.  A limiter that recorded four searches on
    2025-01-01 is read on 2025-01-02: the rollover zeroes the daily
    counter and the session attribute [continuous_actions], but the
    continuous-search count of the state dictionary is still 4, in
    memory and in the stored document, where the claim requires 0.  The
    sibling [reset_session] does reset it. *)
Lemma rollover_keeps_continuous_searches :
  let s' := snd (reset_if_needed next_day_ambient busy_sys) in
  date (clock next_day_ambient (ticks busy_sys))
    <> last_reset_date (state (this busy_sys)) /\
  continuous_searches (state (this busy_sys)) = 4%Z /\
  daily_searches (state (this s')) = 0%Z /\
  continuous_actions (this s') = 0%Z /\
  continuous_searches (state (this s')) = 4%Z /\
  (continuous_searches <$> disk s') = Some 4%Z /\
  continuous_searches (state_after (reset_session next_day_ambient) busy_sys) = 0%Z.
Proof. vm_compute. repeat split; [discriminate | ..]; reflexivity. Qed.

(** *** Failures and blocking *)


(** The state and the clock after a failed [record_search]. *)
Lemma record_search_failed (amb : Ambient) (s : Sys) :
  let st := state (this s) in
  let cf := consecutive_failures st in
  let s' := snd (record_search amb false s) in
  let st' := state (this s') in
  consecutive_failures st' = (cf + 1)%Z /\
  total_failures_today st' = (total_failures_today st + 1)%Z /\
  blocked_until st' =
    (if (3 <=? cf + 1)%Z
     then epoch (clock amb (S (ticks s))) + inject_Z (block_duration (cf + 1))
     else blocked_until st) /\
  ticks s' = (if (3 <=? cf + 1)%Z then S (S (ticks s)) else S (ticks s)) /\
  limits (this s') = limits (this s).
Proof.
  open_sys s. run_limiter.
  destruct (3 <=? cf + 1)%Z; cbn; repeat split.
Qed.

(** C5.  A failed [record_search] adds one to [consecutive_failures] and
    to [total_failures_today]; when the new count is at least 3 it
    overwrites [blocked_until] with the clock reading plus
    [min(300 * 2^(count - 3), 3600)] seconds, and otherwise leaves it; a
    successful [record_search] sets [consecutive_failures] to zero.
    Starting from no failures, three failures give reading + 300 and a
    fourth gives its own reading + 600. *)
Theorem record_search_failure_policy (amb : Ambient) (s : Sys) :
  let st := state (this s) in
  let cf := consecutive_failures st in
  let failed := state_after (record_search amb false) s in
  let succeeded := state_after (record_search amb true) s in
  consecutive_failures failed = (cf + 1)%Z /\
  total_failures_today failed = (total_failures_today st + 1)%Z /\
  blocked_until failed =
    (if (3 <=? cf + 1)%Z
     then epoch (clock amb (S (ticks s)))
          + inject_Z (Z.min (300 * 2 ^ (cf + 1 - 3)) 3600)
     else blocked_until st) /\
  consecutive_failures succeeded = 0%Z /\
  (cf = 0%Z ->
     let s3 := run_ops amb [RecordSearch false; RecordSearch false;
                            RecordSearch false] s in
     let s4 := snd (record_search amb false s3) in
     consecutive_failures (state (this s3)) = 3%Z /\
     blocked_until (state (this s3))
       = epoch (clock amb (3 + ticks s)) + inject_Z (300 * 2 ^ 0) /\
     consecutive_failures (state (this s4)) = 4%Z /\
     blocked_until (state (this s4))
       = epoch (clock amb (5 + ticks s)) + inject_Z (300 * 2 ^ 1)).
Proof.
  cbn zeta.
  destruct (record_search_failed amb s) as (H1 & H2 & H3 & _).
  split; [exact H1|]. split; [exact H2|]. split; [exact H3|]. split.
  - open_sys s. run_limiter. reflexivity.
  - intros H0. open_sys s. cbn in H0. subst.
    repeat split; vm_compute; reflexivity.
Qed.

(** An instance of C5 on a freshly constructed limiter. *)
Lemma record_search_failure_policy_witness :
  let s := fresh_sys default_limits in
  let s3 := run_ops sample_ambient
              [RecordSearch false; RecordSearch false; RecordSearch false] s in
  consecutive_failures (state (this s3)) = 3%Z /\
  blocked_until (state (this s3)) = 1006 + inject_Z (300 * 2 ^ 0).
Proof.
  destruct (record_search_failure_policy sample_ambient (fresh_sys default_limits))
    as (_ & _ & _ & _ & H).
  destruct H as (H1 & H2 & _); [reflexivity|].
  split; [exact H1 | exact H2].
Defined.

(** *** Profile views *)

(** C10.  The answer of [can_view_profile] does not depend on
    [blocked_until], [continuous_searches] or [consecutive_failures]; in
    particular, with [blocked_until] in the future it is [(True, "OK")]
    as soon as the daily and hourly profile counters it reads are below
    their limits and [min_delay_between_profiles] seconds have passed
    since [last_profile_time]. *)
Theorem can_view_profile_ignores_block (amb : Ambient) (s : Sys) :
  (forall bu cs cf,
     answer (can_view_profile amb) (with_backoff_fields bu cs cf s)
     = answer (can_view_profile amb) s) /\
  (let st := state_after (reset_if_needed amb) s in
   let lim := limits (this s) in
   let t := epoch (clock amb (S (ticks s))) in
   t < blocked_until (state (this s)) ->
   (daily_profiles st < profiles_per_day lim)%Z ->
   (hourly_profiles st < profiles_per_hour lim)%Z ->
   min_delay_between_profiles lim <= t - last_profile_time st ->
   answer (can_view_profile amb) s = (true, "OK")).
Proof.
  split.
  - intros bu' cs' cf'. unfold answer, can_view_profile.
    rewrite !bind_reset_if_needed. open_sys s.
    unfold rolled_sys, rolled, with_backoff_fields. run_limiter.
    split_tests; reflexivity.
  - cbn zeta. unfold state_after, answer, can_view_profile.
    rewrite bind_reset_if_needed, reset_if_needed_run. cbn [snd].
    change (S (ticks s)) with (ticks (rolled_sys amb s)).
    change (limits (this s)) with (limits (this (rolled_sys amb s))).
    generalize (rolled_sys amb s). intros s1 _ Hd Hh Ht.
    open_sys s1. cbn [this state limits ticks daily_profiles hourly_profiles
                      last_profile_time] in *.
    run_limiter.
    apply Z.leb_gt in Hd, Hh. rewrite Hd, Hh.
    apply Qltb_false in Ht. rewrite Ht. reflexivity.
Qed.

(** An instance of C10: after an emergency stop searches are refused but
    a profile view is allowed. *)
Lemma can_view_profile_ignores_block_witness :
  answer (can_view_profile sample_ambient) stopped_sys = (true, "OK") /\
  fst (answer (can_search sample_ambient) stopped_sys) = false.
Proof.
  split; [|reflexivity].
  apply (proj2 (can_view_profile_ignores_block sample_ambient stopped_sys)).
  - vm_compute. reflexivity.
  - vm_compute. reflexivity.
  - vm_compute. reflexivity.
  - vm_compute. discriminate.
Defined.

(** *** The daily limit *)









(** *** [blocked_until] *)





(** *** Delays *)

Lemma get_delay_run (amb : Ambient) (action_type : string) (s : Sys) :
  let lim := limits (this s) in
  let mn := fst (delay_range lim action_type) in
  let mx := snd (delay_range lim action_type) in
  let cf := consecutive_failures (state (this s)) in
  let base := clamped_draw mn mx (normal_draw amb (draws s)) in
  let jitter := jitter_draw base (jitter_range lim) (unit_draw amb (S (draws s))) in
  answer (get_delay amb action_type) s
  = maxQ mn ((if (0 <? cf)%Z
              then minQ (base * backoff_multiplier lim ^ cf) (max_backoff lim)
              else base) + jitter).
Proof.
  open_sys s. cbn zeta. unfold delay_range, answer, get_delay.
  cbn [this limits state draws consecutive_failures].
  destruct (String.eqb action_type "search"); reflexivity.
Qed.

Lemma jitter_draw_bounds (base jr u : Q) :
  0 <= base -> 0 <= jr -> 0 <= u <= 1 ->
  - (base * jr) <= jitter_draw base jr u <= base * jr.
Proof.
  intros Hb Hj [Hu0 Hu1]. unfold jitter_draw, uniform_of.
  assert (Ha : 0 <= base * jr) by (apply Qmult_le_0_compat; assumption).
  set (a := base * jr) in *.
  assert (H0 : 0 <= a * u) by (apply Qmult_le_0_compat; assumption).
  assert (H1 : a * u <= a * 1).
  { rewrite !(Qmult_comm a). apply Qmult_le_compat_r; assumption. }
  split; ring_simplify; lra.
Qed.

(** C4, as the source has it.  For limits with [0 <= min_delay <=
    max_delay] and a non-negative [jitter_range], the draw is clamped to
    [min_delay, max_delay] and the jitter is within plus or minus
    [jitter_range] times the clamped draw.  With no consecutive failure
    [get_delay] returns the clamped draw plus the jitter, floored at
    [min_delay]: a value of [min_delay, max_delay * (1 + jitter_range)].
    With consecutive failures the clamped draw is multiplied by
    [backoff_multiplier ^ consecutive_failures] and capped at
    [max_backoff] before the jitter is added and the floor applied. *)
Theorem get_delay_bounds (amb : Ambient) (action_type : string) (s : Sys) :
  let lim := limits (this s) in
  let mn := fst (delay_range lim action_type) in
  let mx := snd (delay_range lim action_type) in
  let jr := jitter_range lim in
  let cf := consecutive_failures (state (this s)) in
  let u := unit_draw amb (S (draws s)) in
  let base := clamped_draw mn mx (normal_draw amb (draws s)) in
  let jitter := jitter_draw base jr u in
  let result := answer (get_delay amb action_type) s in
  0 <= mn -> mn <= mx -> 0 <= jr -> 0 <= u <= 1 ->
  (mn <= base <= mx) /\
  (- (base * jr) <= jitter <= base * jr) /\
  mn <= result /\
  ((cf <= 0)%Z ->
     result = maxQ mn (base + jitter) /\ result <= mx * (1 + jr)) /\
  ((0 < cf)%Z ->
     result = maxQ mn (minQ (base * backoff_multiplier lim ^ cf) (max_backoff lim)
                       + jitter)).
Proof.
  cbn zeta. intros Hmn Hle Hjr Hu. rewrite get_delay_run. cbn zeta.
  set (mn := fst (delay_range (limits (this s)) action_type)) in *.
  set (mx := snd (delay_range (limits (this s)) action_type)) in *.
  set (base := clamped_draw mn mx (normal_draw amb (draws s))).
  assert (Hbase : mn <= base <= mx).
  { unfold base, clamped_draw.
    set (g := gauss_of _ _ _).
    destruct (maxQ_spec mn (minQ mx g)) as (H1 & H2 & [H3 | H3]);
      destruct (minQ_spec mx g) as (H4 & H5 & _); rewrite H3 in *; split; lra. }
  assert (Hjit := jitter_draw_bounds base (jitter_range (limits (this s)))
                    (unit_draw amb (S (draws s))) ltac:(lra) Hjr Hu).
  set (jitter := jitter_draw base _ _) in *.
  split; [exact Hbase|]. split; [exact Hjit|]. split.
  - apply maxQ_spec.
  - split; intros Hcf.
    + apply Z.ltb_ge in Hcf. rewrite Hcf. split; [reflexivity|].
      assert (Hm : base * jitter_range (limits (this s))
                   <= mx * jitter_range (limits (this s))).
      { apply Qmult_le_compat_r; [apply Hbase | exact Hjr]. }
      assert (0 <= mx * jitter_range (limits (this s))).
      { apply Qmult_le_0_compat; lra. }
      destruct (maxQ_spec mn (base + jitter)) as (_ & _ & [H3 | H3]);
        rewrite H3; ring_simplify; lra.
    + apply Z.ltb_lt in Hcf. rewrite Hcf. reflexivity.
Qed.

(** An instance of C4: the default limits, no failure, a draw three
    standard deviations above the mean and an upward jitter. *)
Lemma get_delay_bounds_witness :
  let result := answer (get_delay sample_ambient "search") (fresh_sys default_limits) in
  45 <= result /\ result <= 180 * (1 + (2 # 10)).
Proof.
  destruct (get_delay_bounds sample_ambient "search" (fresh_sys default_limits))
    as (_ & _ & Hfloor & Hzero & _).
  - vm_compute. discriminate.
  - vm_compute. discriminate.
  - vm_compute. discriminate.
  - split; vm_compute; discriminate.
  - split; [exact Hfloor|].
    destruct Hzero as [_ Hup]; [vm_compute; discriminate | exact Hup].
Defined.

(** C4 as stated fails: with the default limits and no consecutive
    failure, [get_delay] returns 208.8 seconds, above
    [max_delay_between_searches] = 180. *)
Lemma get_delay_exceeds_max_delay :
  let s := fresh_sys default_limits in
  consecutive_failures (state (this s)) = 0%Z /\
  answer (get_delay sample_ambient "search") s == 2088 # 10 /\
  ~ answer (get_delay sample_ambient "search") s
    <= max_delay_between_searches (limits (this s)).
Proof.
  cbn zeta. split; [reflexivity|]. split; [reflexivity|].
  vm_compute. intros H. apply H. reflexivity.
Qed.

End LimiterFacts.

(** ** Properties of the keyword optimiser and of the progressive search *)

Module SearchFacts.
Import Py SalesNavigator.

(** *** The text primitives and the filters on examples *)

Example fmt_0f_rounds_half_to_even :
  map fmt_0f [1 # 2; 3 # 2; 5 # 2; 29749 # 100; -1 # 3]%Q = ["0"; "2"; "2"; "297"; "-0"].
Proof. reflexivity. Qed.

Example simple_keywords_of_sentence :
  _extract_simple_keywords "The CTO, of the (big) company in Madrid!"
  = ["cto"; "big"; "company"; "madrid"].
Proof. reflexivity. Qed.

Example sample_filters_value :
  keywords sample_filters = "(" +:+ quoted "cto" +:+ " OR " +:+ quoted "ceo" +:+ ")" /\
  native_filters sample_filters
  = [("geoIncluded", "Madrid");
     ("seniorityIncluded", "owner,partner,cxo,vp,director");
     ("functionIncluded", "engineering");
     ("currentJobTitle", "true")].
Proof. split; reflexivity. Qed.

Example sample_search_url :
  build_sales_nav_url sample_filters "people"
  = "https://www.linkedin.com/sales/search/people?keywords=%28%22cto%22+OR+%22ceo%22%29&geoIncluded=Madrid&seniorityIncluded=owner%2Cpartner%2Ccxo%2Cvp%2Cdirector&functionIncluded=engineering&currentJobTitle=true".
Proof. reflexivity. Qed.

Example short_filters_value :
  keywords short_filters = EmptyString /\ native_filters short_filters = [("currentJobTitle", "true")].
Proof. split; reflexivity. Qed.

(** *** The keyword optimiser *)

Lemma count_char_app (c : ascii) (a b : string) :
  count_char c (a +:+ b) = (count_char c a + count_char c b)%nat.
Proof.
  induction a as [|x a IH]; [reflexivity|].
  change (String x a +:+ b) with (String x (a +:+ b)).
  cbn [count_char]. rewrite IH. lia.
Qed.

Lemma count_char_filter_alnum (w : string) :
  count_char double_quote (filter_chars isalnum w) = 0%nat.
Proof.
  induction w as [|x w IH]; cbn; [reflexivity|].
  destruct (isalnum x) eqn:E; [|exact IH]. cbn. rewrite IH.
  destruct (Ascii.eqb double_quote x) eqn:Q; [|reflexivity].
  apply Ascii.eqb_eq in Q. subst x. discriminate E.
Qed.

Lemma count_char_join (c : ascii) (sep : string) (parts : list string) :
  count_char c sep = 0%nat ->
  Forall (fun p => count_char c p = 0%nat) parts ->
  count_char c (join sep parts) = 0%nat.
Proof.
  intros Hsep H. induction H as [|p parts Hp Hps IH]; [reflexivity|].
  destruct parts as [|q parts]; [exact Hp|].
  change (join sep (p :: q :: parts)) with (p +:+ sep +:+ join sep (q :: parts)).
  rewrite !count_char_app, Hp, Hsep, IH. reflexivity.
Qed.

Lemma simple_keywords_unquoted (query : string) :
  Forall (fun p => count_char double_quote p = 0%nat) (_extract_simple_keywords query).
Proof.
  unfold _extract_simple_keywords. induction (split (lower query)) as [|w ws IH]; cbn.
  - constructor.
  - destruct (_ && _); cbn; [constructor|]; [apply count_char_filter_alnum | |]; exact IH.
Qed.

Lemma count_char_quoted (r : string) :
  count_char double_quote r = 0%nat -> count_char double_quote (quoted r) = 2%nat.
Proof.
  intros H. unfold quoted, dquote. rewrite !count_char_app, H. reflexivity.
Qed.

Lemma count_char_join_quoted (rs : list string) :
  Forall (fun p => count_char double_quote p = 0%nat) rs ->
  count_char double_quote (join " OR " (map quoted rs)) = (2 * length rs)%nat.
Proof.
  intros H. induction H as [|r rs Hr Hrs IH]; [reflexivity|].
  destruct rs as [|q rs]; [cbn; rewrite count_char_quoted by exact Hr; reflexivity|].
  change (join " OR " (map quoted (r :: q :: rs)))
    with (quoted r +:+ " OR " +:+ join " OR " (map quoted (q :: rs))).
  rewrite !count_char_app, IH, count_char_quoted by exact Hr.
  cbn [length]. change (count_char double_quote " OR ") with 0%nat. lia.
Qed.

(** Count the double quotes of the literal pieces of an expression. *)
Ltac count_literals :=
  repeat match goal with
         | |- context [count_char double_quote (String ?c ?s)] =>
             let v := eval vm_compute in (count_char double_quote (String c s)) in
             change (count_char double_quote (String c s)) with v
         end.

Lemma generate_optimized_keywords_quotes (i : Intent) :
  Forall (fun p => count_char double_quote p = 0%nat) (roles i) ->
  Forall (fun p => count_char double_quote p = 0%nat) (skills i) ->
  count_char double_quote (generate_optimized_keywords i)
  = (2 * length (take 2 (roles i)))%nat.
Proof.
  intros Hr Hs. destruct i as [rs ss ls cc sn raw]. cbn [roles skills] in *.
  unfold generate_optimized_keywords. cbn [roles skills keywords_raw].
  assert (Hraw : count_char double_quote
                   (join " OR " (take 2 (_extract_simple_keywords raw))) = 0%nat).
  { apply count_char_join; [reflexivity|].
    apply Forall_take, simple_keywords_unquoted. }
  assert (HJ := count_char_join_quoted _ (Forall_take _ 2 _ Hr)).
  assert (HK : count_char double_quote (join " OR " (take 2 ss)) = 0%nat).
  { apply count_char_join; [reflexivity|]. apply Forall_take, Hs. }
  set (J := join " OR " (map quoted (take 2 rs))) in *.
  set (K := join " OR " (take 2 ss)) in *.
  set (R := join " OR " (take 2 (_extract_simple_keywords raw))) in *.
  assert (Hlen : truthy_list rs = false -> length (take 2 rs) = 0%nat).
  { destruct rs; [reflexivity | discriminate]. }
  destruct (truthy_list rs), (truthy_list ss);
    cbn [truthy_list negb app join];
    rewrite ?count_char_app, ?HJ, ?HK, ?Hraw, ?Hlen by reflexivity;
    count_literals; lia.
Qed.

(** C8.  The expression of [generate_optimized_keywords] is built from
    the first two roles and the first two skills and from nothing else
    of the two lists: whenever a role or a skill was matched it is the
    expression the design document prescribes for these role terms and
    skill terms, at most two of each, however many were matched; when
    none was matched it holds no role or skill term but at most two
    simple tokens of the (ASCII) raw text; a role or a skill after the
    second never changes the expression; and three roles with no skill
    give the first two roles, quoted and joined by OR. *)
Theorem generate_optimized_keywords_bounded (i : Intent) :
  let role_terms := take 2 (roles i) in
  let skill_terms := take 2 (skills i) in
  (length role_terms <= 2)%nat /\ (length skill_terms <= 2)%nat /\
  (roles i <> [] \/ skills i <> [] ->
   forall tokens,
     generate_optimized_keywords i = optimize_spec role_terms skill_terms tokens) /\
  (roles i = [] -> skills i = [] -> is_ascii (keywords_raw i) = true ->
   exists tokens,
     tokens = take 2 (_extract_simple_keywords (keywords_raw i)) /\
     (length tokens <= 2)%nat /\
     generate_optimized_keywords i = optimize_spec [] [] tokens) /\
  (forall j : Intent,
     take 2 (roles j) = role_terms -> take 2 (skills j) = skill_terms ->
     keywords_raw j = keywords_raw i ->
     generate_optimized_keywords j = generate_optimized_keywords i) /\
  (forall r1 r2 r3 : string,
     roles i = [r1; r2; r3] -> skills i = [] ->
     generate_optimized_keywords i
     = "(" +:+ (quoted r1 +:+ " OR " +:+ quoted r2) +:+ ")").
Proof.
  cbn zeta. destruct i as [rs ss ls cc sn raw]. cbn [roles skills keywords_raw].
  split; [rewrite length_take; lia|]. split; [rewrite length_take; lia|].
  split; [|split; [|split]].
  - intros H tokens. unfold generate_optimized_keywords, optimize_spec, role_clause,
      skill_clause. cbn [roles skills keywords_raw].
    destruct rs as [|r1 [|r2 rs]], ss as [|s1 [|s2 ss]];
      try reflexivity; destruct H as [H|H]; congruence.
  - intros -> -> _. eexists. split; [reflexivity|].
    split; [rewrite length_take; lia | reflexivity].
  - intros [rs' ss' ls' cc' sn' raw']. cbn [roles skills keywords_raw].
    intros Hr Hs ->. unfold generate_optimized_keywords.
    cbn [roles skills keywords_raw]. rewrite Hr, Hs.
    assert (T : forall (a b : list string), take 2 a = take 2 b ->
                                            truthy_list a = truthy_list b).
    { intros [|x a] [|y b] E; try reflexivity; discriminate E. }
    rewrite (T _ _ Hr), (T _ _ Hs). reflexivity.
  - intros r1 r2 r3 Hr Hs. subst. reflexivity.
Qed.

(** *** The progressive search *)

Section Ladder.

Context {Env : Type} (collab : Collaborator Env).
Variables (self_query : string) (filters : SearchFilters)
          (search_type_ : string) (max_results : Z).

Lemma attempted_app (a b : list Event) :
  attempted (a ++ b) = attempted a ++ attempted b.
Proof. unfold attempted. apply flat_map_app. Qed.

Lemma attempted_slept (secs : Z) (w : World Env) :
  attempted (trace (slept secs w)) = attempted (trace w).
Proof. cbn. rewrite attempted_app. cbn. apply app_nil_r. Qed.

(** What one attempt does, by the outcome of the two calls. *)
Lemma attempt_run (s : Strategy) (pause : Z) (post : list Result -> list Result)
      (w : World Env) :
  attempt collab s pause post w =
  match driver_get collab s (browser w) with
  | (Raised _, e) =>
      (Returned None,
       {| browser := e; limiter := limiter w; trace := trace w ++ [Navigate s] |})
  | (Returned _, e) =>
      let tr := ((trace w ++ [Navigate s]) ++ [Sleep pause]) ++ [Extract s] in
      match extract_search_results collab s e with
      | (Raised _, e') =>
          (Returned None, {| browser := e'; limiter := limiter w; trace := tr |})
      | (Returned results, e') =>
          (Returned (if (0 <? length results)%nat then Some (post results) else None),
           {| browser := e'; limiter := limiter w; trace := tr |})
      end
  end.
Proof.
  destruct w as [e rl tr]. unfold attempt, try_except, fetch_and_extract,
    self_driver_get, self_extract_search_results, time_sleep, emit, bind, ret.
  cbn. destruct (driver_get collab s e) as [[[]|msg] e1]; cbn; [|reflexivity].
  destruct (extract_search_results collab s e1) as [[results|msg] e2]; cbn;
    [|reflexivity].
  destruct results; reflexivity.
Qed.

(** An attempt always returns, leaves the rate limiter alone, and loads
    just the page of its level. *)
Lemma attempt_returns (s : Strategy) (pause : Z) (post : list Result -> list Result)
      (w : World Env) :
  exists o w',
    attempt collab s pause post w = (Returned o, w') /\
    limiter w' = limiter w /\
    attempted (trace w') = attempted (trace w) ++ [level s].
Proof.
  rewrite attempt_run.
  destruct (driver_get collab s (browser w)) as [[[]|msg] e1].
  - cbn zeta. destruct (extract_search_results collab s e1) as [[results|msg] e2];
      eexists; eexists; (split; [reflexivity|]); (split; [reflexivity|]);
      cbn; rewrite !attempted_app; cbn; rewrite !app_nil_r; reflexivity.
  - eexists; eexists; (split; [reflexivity|]); (split; [reflexivity|]).
    cbn. rewrite attempted_app. reflexivity.
Qed.

Lemma attempt_fails (s : Strategy) (pause : Z) (post : list Result -> list Result)
      (w : World Env) :
  every_level_fails collab ->
  exists w',
    attempt collab s pause post w = (Returned None, w') /\
    limiter w' = limiter w /\
    attempted (trace w') = attempted (trace w) ++ [level s].
Proof.
  intros Hf. specialize (Hf s (browser w)).
  destruct (attempt_returns s pause post w) as (o & w' & E & Hl & Ha).
  exists w'. split; [|split; assumption].
  rewrite E. rewrite attempt_run in E.
  destruct (driver_get collab s (browser w)) as [[[]|msg] e1].
  - cbn zeta in E. destruct (extract_search_results collab s e1) as [[results|msg] e2].
    + subst results. cbn in E. congruence.
    + congruence.
  - congruence.
Qed.

Lemma attempt_finds (s : Strategy) (pause : Z) (post : list Result -> list Result)
      (results : list Result) (w : World Env) :
  always_loads collab ->
  (forall e, fst (extract_search_results collab s e) = Returned results) ->
  exists w',
    attempt collab s pause post w
    = (Returned (if (0 <? length results)%nat then Some (post results) else None), w') /\
    limiter w' = limiter w /\
    attempted (trace w') = attempted (trace w) ++ [level s].
Proof.
  intros Hl Hx.
  destruct (attempt_returns s pause post w) as (o & w' & E & Hlim & Ha).
  exists w'. split; [|split; assumption].
  rewrite E. rewrite attempt_run in E.
  specialize (Hl s (browser w)).
  destruct (driver_get collab s (browser w)) as [[[]|msg] e1]; cbn in Hl;
    [|discriminate].
  cbn zeta in E. specialize (Hx e1).
  destruct (extract_search_results collab s e1) as [[rs|msg] e2]; cbn in Hx;
    [|discriminate].
  injection Hx as ->. injection E as <- <-. reflexivity.
Qed.

(** Each [try] statement is the guarded attempt of its row of the table. *)
Lemma nth_strategy_shape (k : nat) (w : World Env) :
  (1 <= k <= 5)%nat ->
  nth_strategy collab self_query filters search_type_ max_results k w =
  if level_guard self_query filters k
  then attempt collab
         (level_strategy self_query filters search_type_ max_results k)
         (level_pause k) (tagged k filters) w
  else (Returned None, w).
Proof.
  intros Hk.
  destruct k as [|[|[|[|[|[|k]]]]]]; try lia; cbn [nth_strategy level_guard];
    try reflexivity.
  - unfold strategy_2.
    destruct (truthy_list (simple_keywords self_query filters)); reflexivity.
  - unfold strategy_5.
    destruct (truthy_list (get_locations (intent filters))); reflexivity.
Qed.

Lemma level_of_strategy (k : nat) :
  (1 <= k <= 5)%nat ->
  level (level_strategy self_query filters search_type_ max_results k) = k.
Proof.
  intros Hk. destruct k as [|[|[|[|[|[|k]]]]]]; try lia; reflexivity.
Qed.

Lemma nth_strategy_returns (k : nat) (w : World Env) :
  (1 <= k <= 5)%nat ->
  exists o w',
    nth_strategy collab self_query filters search_type_ max_results k w
    = (Returned o, w') /\
    limiter w' = limiter w /\
    attempted (trace w')
    = attempted (trace w) ++ (if level_guard self_query filters k then [k] else []).
Proof.
  intros Hk. rewrite nth_strategy_shape by exact Hk.
  destruct (level_guard self_query filters k).
  - destruct (attempt_returns
                (level_strategy self_query filters search_type_ max_results k)
                (level_pause k) (tagged k filters) w) as (o & w' & E & Hl & Ha).
    rewrite level_of_strategy in Ha by exact Hk. eauto.
  - exists None, w. rewrite app_nil_r. auto.
Qed.

Lemma nth_strategy_fails (k : nat) (w : World Env) :
  every_level_fails collab ->
  (1 <= k <= 5)%nat ->
  exists w',
    nth_strategy collab self_query filters search_type_ max_results k w
    = (Returned None, w') /\
    limiter w' = limiter w /\
    attempted (trace w')
    = attempted (trace w) ++ (if level_guard self_query filters k then [k] else []).
Proof.
  intros Hf Hk. rewrite nth_strategy_shape by exact Hk.
  destruct (level_guard self_query filters k).
  - destruct (attempt_fails
                (level_strategy self_query filters search_type_ max_results k)
                (level_pause k) (tagged k filters) w Hf) as (w' & E & Hl & Ha).
    rewrite level_of_strategy in Ha by exact Hk. eauto.
  - exists w. rewrite app_nil_r. auto.
Qed.

Lemma nth_strategy_finds (k : nat) (results : list Result) (w : World Env) :
  always_loads collab ->
  extracts_at collab (eq k) results ->
  (1 <= k <= 5)%nat ->
  exists w',
    nth_strategy collab self_query filters search_type_ max_results k w
    = (Returned (if level_guard self_query filters k && (0 <? length results)%nat
                 then Some (tagged k filters results) else None), w') /\
    limiter w' = limiter w /\
    attempted (trace w')
    = attempted (trace w) ++ (if level_guard self_query filters k then [k] else []).
Proof.
  intros Hl Hx Hk. rewrite nth_strategy_shape by exact Hk.
  destruct (level_guard self_query filters k); cbn [andb].
  - destruct (attempt_finds
                (level_strategy self_query filters search_type_ max_results k)
                (level_pause k) (tagged k filters) results w Hl)
      as (w' & E & Hlim & Ha).
    + intros e. apply Hx. symmetry. apply level_of_strategy, Hk.
    + rewrite level_of_strategy in Ha by exact Hk. eauto.
  - exists w. rewrite app_nil_r. auto.
Qed.

Lemma or_else_run (a : M (option (list Result))) (next : M (list Result))
      (o : option (list Result)) (w w1 : World Env) :
  a w = (Returned o, w1) ->
  or_else a next w =
  match o with
  | Some results => (Returned results, w1)
  | None => next w1
  end.
Proof.
  intros E. unfold or_else, bind. rewrite E. destruct o; reflexivity.
Qed.

Lemma sleep_run {A} (secs : Z) (c : M A) (w : World Env) :
  bind (time_sleep secs) (fun _ => c) w = c (slept secs w).
Proof. destruct w. reflexivity. Qed.

(** The source is the ladder over the five levels. *)
Lemma search_is_climb :
  search_with_progressive_fallback collab self_query filters search_type_ max_results
  = climb collab self_query filters search_type_ max_results [1; 2; 3; 4; 5]%nat.
Proof. reflexivity. Qed.

(** Whatever the collaborator does, the ladder returns a list and the
    rate limiter is as it was. *)
Lemma climb_returns (levels : list nat) (w : World Env) :
  Forall in_range levels ->
  exists results w',
    climb collab self_query filters search_type_ max_results levels w
    = (Returned results, w') /\
    limiter w' = limiter w.
Proof.
  intros H. revert w. induction H as [|k rest Hk Hrest IH]; intros w.
  - exists [], w. split; reflexivity.
  - cbn [climb].
    destruct (nth_strategy_returns k w Hk) as (o & w1 & E & Hl & _).
    rewrite (or_else_run _ _ _ _ _ E). destruct o as [results|].
    + exists results, w1. split; [reflexivity | exact Hl].
    + destruct rest as [|k' rest'].
      * exists [], w1. split; [reflexivity | exact Hl].
      * rewrite sleep_run. destruct (IH (slept 15 w1)) as (rs & w' & E' & Hl').
        exists rs, w'. split; [exact E'|]. rewrite Hl'. exact Hl.
Qed.

(** When every level fails the ladder tries each guarded level and
    returns the empty list. *)
Lemma climb_exhausted (levels : list nat) (w : World Env) :
  every_level_fails collab ->
  Forall in_range levels ->
  exists w',
    climb collab self_query filters search_type_ max_results levels w
    = (Returned [], w') /\
    limiter w' = limiter w /\
    attempted (trace w')
    = attempted (trace w)
      ++ filter (fun k => level_guard self_query filters k = true) levels.
Proof.
  intros Hf H. revert w. induction H as [|k rest Hk Hrest IH]; intros w.
  - exists w. rewrite app_nil_r. auto.
  - cbn [climb].
    destruct (nth_strategy_fails k w Hf Hk) as (w1 & E & Hl & Ha).
    rewrite (or_else_run _ _ _ _ _ E).
    assert (Hrest' : exists w',
               match rest with
               | [] => ret []
               | _ :: _ =>
                   bind (time_sleep 15)
                        (fun _ => climb collab self_query filters search_type_
                                        max_results rest)
               end w1 = (Returned [], w') /\
               limiter w' = limiter w1 /\
               attempted (trace w')
               = attempted (trace w1)
                 ++ filter (fun k => level_guard self_query filters k = true) rest).
    { destruct rest as [|k' rest'].
      - exists w1. rewrite app_nil_r. auto.
      - rewrite sleep_run. destruct (IH (slept 15 w1)) as (w' & E' & Hl' & Ha').
        exists w'. rewrite attempted_slept in Ha'. auto. }
    destruct Hrest' as (w' & E' & Hl' & Ha').
    exists w'. split; [exact E'|]. split; [congruence|].
    rewrite Ha', Ha, <- app_assoc. f_equal.
    rewrite filter_cons. destruct (level_guard self_query filters k);
      [rewrite decide_True by reflexivity | rewrite decide_False by discriminate];
      reflexivity.
Qed.

(** With a stub that finds nothing below level [k] and [results] at
    level [k], the ladder stops at level [k]. *)
Lemma climb_finds (pre post : list nat) (k : nat) (results : list Result)
      (w : World Env) :
  always_loads collab ->
  extracts_at collab (fun j => (j < k)%nat) [] ->
  extracts_at collab (eq k) results ->
  results <> [] ->
  level_guard self_query filters k = true ->
  in_range k ->
  Forall in_range pre ->
  Forall (fun j => (j < k)%nat) pre ->
  exists w',
    climb collab self_query filters search_type_ max_results (pre ++ k :: post) w
    = (Returned (tagged k filters results), w') /\
    limiter w' = limiter w /\
    attempted (trace w')
    = attempted (trace w)
      ++ filter (fun j => level_guard self_query filters j = true) pre ++ [k].
Proof.
  intros Hl Hlow Hk Hne Hg Hr Hpre Hlt. revert w.
  induction Hpre as [|j pre Hj Hpre IH]; intros w.
  - cbn [app climb].
    destruct (nth_strategy_finds k results w Hl Hk Hr) as (w1 & E & Hlim & Ha).
    rewrite (or_else_run _ _ _ _ _ E). rewrite Hg in *.
    destruct results as [|r rs]; [congruence|]. cbn.
    exists w1. auto.
  - inversion Hlt as [|? ? Hjk Hlt']; subst. specialize (IH Hlt').
    change ((j :: pre) ++ k :: post) with (j :: (pre ++ k :: post)).
    cbn [climb].
    destruct (nth_strategy_finds j [] w Hl) as (w1 & E & Hlim & Ha).
    { intros s e Heq. apply Hlow. rewrite <- Heq. exact Hjk. }
    { exact Hj. }
    rewrite andb_false_r in E. rewrite (or_else_run _ _ _ _ _ E).
    destruct (pre ++ k :: post) as [|x rest] eqn:Hrest;
      [destruct pre; discriminate|].
    rewrite sleep_run. destruct (IH (slept 15 w1)) as (w' & E' & Hlim' & Ha').
    exists w'. split; [exact E'|]. split; [rewrite Hlim'; exact Hlim|].
    rewrite Ha', attempted_slept, Ha, <- app_assoc. f_equal.
    rewrite filter_cons. destruct (level_guard self_query filters j);
      [rewrite decide_True by reflexivity | rewrite decide_False by discriminate];
      reflexivity.
Qed.

Lemma levels_up_to_split (k : nat) :
  in_range k ->
  level_guard self_query filters k = true ->
  exists pre post,
    [1; 2; 3; 4; 5]%nat = pre ++ k :: post /\
    Forall in_range pre /\ Forall (fun j => (j < k)%nat) pre /\
    levels_up_to k self_query filters
    = filter (fun j => level_guard self_query filters j = true) pre ++ [k].
Proof.
  intros Hk Hg. unfold in_range in Hk.
  unfold levels_up_to, applicable_levels.
  destruct k as [|[|[|[|[|[|k]]]]]]; try lia.
  - exists [], [2; 3; 4; 5]%nat. repeat split; try constructor.
    cbn in Hg |- *. 
    destruct (truthy_list (simple_keywords self_query filters)),
             (truthy_list (get_locations (intent filters))); reflexivity.
  - exists [1]%nat, [3; 4; 5]%nat. unfold in_range.
    repeat split; repeat constructor; try lia.
    cbn in Hg |- *. rewrite Hg.
    destruct (truthy_list (get_locations (intent filters))); reflexivity.
  - exists [1; 2]%nat, [4; 5]%nat. unfold in_range.
    repeat split; repeat constructor; try lia.
    cbn in Hg |- *.
    destruct (truthy_list (simple_keywords self_query filters)),
             (truthy_list (get_locations (intent filters))); reflexivity.
  - exists [1; 2; 3]%nat, [5]%nat. unfold in_range.
    repeat split; repeat constructor; try lia.
    cbn in Hg |- *.
    destruct (truthy_list (simple_keywords self_query filters)),
             (truthy_list (get_locations (intent filters))); reflexivity.
  - exists [1; 2; 3; 4]%nat, []. unfold in_range.
    repeat split; repeat constructor; try lia.
    cbn in Hg |- *. rewrite Hg.
    destruct (truthy_list (simple_keywords self_query filters)); reflexivity.
Qed.

Lemma tagged_flags (k : nat) (results : list Result) :
  in_range k ->
  Forall (fun r => ~ ai_filter_needed r) results ->
  Forall (fun r => ai_filter_needed r <-> (k = 4 \/ k = 5)%nat)
         (tagged k filters results).
Proof.
  intros Hk Hraw. unfold in_range in Hk.
  destruct k as [|[|[|[|[|[|k]]]]]]; try lia; cbn [tagged].
  1-3: (eapply Forall_impl; [exact Hraw|]; intros r Hr; split;
        [intros Ha; destruct (Hr Ha) | lia]).
  - apply Forall_fmap. apply Forall_forall. intros r _. cbn. split; [auto|].
    intros _. unfold ai_filter_needed, tag_or_broadening.
    rewrite lookup_insert_ne by discriminate. apply lookup_insert_eq.
  - apply Forall_fmap. apply Forall_forall. intros r _. cbn. split; [auto|].
    intros _. unfold ai_filter_needed, tag_ultra_broad.
    rewrite !lookup_insert_ne by discriminate. apply lookup_insert_eq.
Qed.

(** C1, as the source has it.  [search_with_progressive_fallback] makes
    no call to the rate limiter: whatever the collaborator does and
    whatever [can_search] would answer, the ladder runs and leaves the
    limiter exactly as it was, so no attempt is recorded.  With a stub
    that always returns empty it returns the empty list, and for ASCII
    query text it has tried every applicable level in order (level 2
    needs a simple keyword, level 5 a detected location). *)
Theorem fallback_ignores_rate_limiter (w : World Env) :
  (exists results w',
     search_with_progressive_fallback collab self_query filters search_type_
                                      max_results w
     = (Returned results, w') /\
     limiter w' = limiter w) /\
  (always_loads collab ->
   extracts_at collab (fun _ => True) [] ->
   exists w',
     search_with_progressive_fallback collab self_query filters search_type_
                                      max_results w
     = (Returned [], w') /\
     limiter w' = limiter w /\
     RateLimiter.daily_searches (RateLimiter.state (RateLimiter.this (limiter w')))
     = RateLimiter.daily_searches (RateLimiter.state (RateLimiter.this (limiter w))) /\
     (is_ascii (raw_keywords self_query filters) = true ->
      attempted (trace w')
      = attempted (trace w) ++ applicable_levels self_query filters)).
Proof.
  rewrite search_is_climb. split.
  - apply climb_returns. unfold in_range. repeat constructor.
  - intros Hl Hx.
    destruct (climb_exhausted [1; 2; 3; 4; 5]%nat w) as (w' & E & Hlim & Ha).
    + intros s e. specialize (Hl s e).
      destruct (driver_get collab s e) as [[[]|msg] e1]; [|exact I].
      specialize (Hx s e1 I).
      destruct (extract_search_results collab s e1) as [[rs|msg] e2]; [|exact I].
      cbn in Hx. congruence.
    + unfold in_range. repeat constructor.
    + exists w'. rewrite Hlim. auto.
Qed.

(** C2, as the source has it.  For ASCII query text and a stub whose
    pages load, that finds nothing below level [k] and a non-empty list
    of raw records at level [k], where level [k] is one the ladder tries
    for the query (level 2 needs a simple keyword, level 5 a detected
    location), the ladder tries the applicable levels up to [k] in
    order, none after it, and returns the records of level [k]:
    unchanged for [k <= 3], and every one tagged
    [ai_filter_needed = True] for [k] in 4, 5. *)
Theorem fallback_returns_first_hit (k : nat) (results : list Result) (w : World Env) :
  is_ascii (raw_keywords self_query filters) = true ->
  in_range k ->
  level_guard self_query filters k = true ->
  always_loads collab ->
  extracts_at collab (fun j => (j < k)%nat) [] ->
  extracts_at collab (eq k) results ->
  results <> [] ->
  Forall (fun r => ~ ai_filter_needed r) results ->
  exists w',
    search_with_progressive_fallback collab self_query filters search_type_
                                     max_results w
    = (Returned (tagged k filters results), w') /\
    attempted (trace w') = attempted (trace w) ++ levels_up_to k self_query filters /\
    length (tagged k filters results) = length results /\
    ((k <= 3)%nat -> tagged k filters results = results) /\
    Forall (fun r => ai_filter_needed r <-> (k = 4 \/ k = 5)%nat)
           (tagged k filters results).
Proof.
  intros _ Hk Hg Hl Hlow Hhit Hne Hraw. rewrite search_is_climb.
  destruct (levels_up_to_split k Hk Hg) as (pre & post & Hsplit & Hpre & Hlt & Hup).
  rewrite Hsplit, Hup.
  destruct (climb_finds pre post k results w Hl Hlow Hhit Hne Hg Hk Hpre Hlt)
    as (w' & E & _ & Ha).
  exists w'. split; [exact E|]. split; [exact Ha|]. split; [|split].
  - unfold in_range in Hk.
    destruct k as [|[|[|[|[|[|k']]]]]]; try lia; cbn [tagged];
      rewrite ?length_map; reflexivity.
  - intros H3. destruct k as [|[|[|[|k']]]]; try lia; reflexivity.
  - apply tagged_flags; assumption.
Qed.

(** C9.  [search_with_progressive_fallback] always returns a list and
    never raises, whatever the page fetcher and the extractor do; when
    every level fails, by an exception or by an empty extraction, the
    empty list is returned; and, for ASCII query text, at a level whose
    page fails to load or whose extraction raises the [try] statement
    ends without a result, so that control goes on to the next level,
    and when every level fails every applicable level has been tried. *)
Theorem fallback_never_raises (w : World Env) :
  (exists results w',
     search_with_progressive_fallback collab self_query filters search_type_
                                      max_results w
     = (Returned results, w')) /\
  (every_level_fails collab ->
   exists w',
     search_with_progressive_fallback collab self_query filters search_type_
                                      max_results w
     = (Returned [], w') /\
     (is_ascii (raw_keywords self_query filters) = true ->
      attempted (trace w')
      = attempted (trace w) ++ applicable_levels self_query filters)) /\
  (is_ascii (raw_keywords self_query filters) = true ->
   forall k w0,
     in_range k ->
     level_guard self_query filters k = true ->
     raises_at collab (level_strategy self_query filters search_type_ max_results k)
               (browser w0) ->
     exists w',
       nth_strategy collab self_query filters search_type_ max_results k w0
       = (Returned None, w') /\
       attempted (trace w') = attempted (trace w0) ++ [k]).
Proof.
  rewrite search_is_climb. split; [|split].
  - destruct (climb_returns [1; 2; 3; 4; 5]%nat w) as (rs & w' & E & _).
    + unfold in_range. repeat constructor.
    + eauto.
  - intros Hf.
    destruct (climb_exhausted [1; 2; 3; 4; 5]%nat w Hf) as (w' & E & _ & Ha).
    + unfold in_range. repeat constructor.
    + eauto.
  - intros _ k w0 Hk Hg Hr.
    destruct (nth_strategy_returns k w0 Hk) as (o & w' & E & _ & Ha).
    rewrite Hg in Ha. exists w'. split; [|exact Ha].
    rewrite E. rewrite nth_strategy_shape, Hg, attempt_run in E by exact Hk.
    unfold raises_at in Hr.
    destruct (driver_get collab _ (browser w0)) as [[[]|msg] e1]; [|congruence].
    cbn zeta in E.
    destruct (extract_search_results collab _ e1) as [[rs|msg] e2];
      [contradiction | congruence].
Qed.

End Ladder.

(** An instance of C8: three matched roles, no skill. *)
Lemma generate_optimized_keywords_bounded_witness :
  generate_optimized_keywords sample_intent
  = optimize_spec ["cto"; "ceo"] [] [] /\
  generate_optimized_keywords sample_intent
  = "(" +:+ (quoted "cto" +:+ " OR " +:+ quoted "ceo") +:+ ")" /\
  generate_optimized_keywords short_intent = optimize_spec [] [] [].
Proof.
  destruct (generate_optimized_keywords_bounded sample_intent) as (_ & _ & Hs & _ & _ & H3).
  destruct (generate_optimized_keywords_bounded short_intent) as (_ & _ & _ & Hf & _).
  split; [|split].
  - apply Hs. left. discriminate.
  - apply (H3 "cto" "ceo" "developer"); reflexivity.
  - destruct Hf as (tokens & -> & _ & H); [reflexivity | reflexivity | reflexivity|].
    exact H.
Defined.

(** An instance of C1: an always-empty stub under a blocked limiter. *)
Lemma fallback_ignores_rate_limiter_witness :
  exists w',
    search_with_progressive_fallback stub_empty sample_query sample_filters
                                     "people" 10 blocked_world
    = (Returned [], w') /\
    attempted (trace w') = [1; 2; 3; 4; 5]%nat /\
    limiter w' = limiter blocked_world.
Proof.
  destruct (proj2 (fallback_ignores_rate_limiter stub_empty sample_query
                     sample_filters "people" 10 blocked_world))
    as (w' & E & Hl & _ & Ha).
  - intros s e. reflexivity.
  - intros s e _. reflexivity.
  - exists w'. split; [exact E|]. split; [apply Ha; reflexivity | exact Hl].
Defined.

(** C1 as stated fails: the limiter refuses searches, yet the ladder runs
    through its five levels, and afterwards the limiter has recorded no
    search at all. *)
Lemma fallback_runs_while_blocked :
  let run := search_with_progressive_fallback stub_empty sample_query sample_filters
                                              "people" 10 blocked_world in
  fst (RateLimiter.answer (RateLimiter.can_search RateLimiter.sample_ambient)
                          (limiter blocked_world)) = false /\
  fst run = Returned [] /\
  attempted (trace (snd run)) = [1; 2; 3; 4; 5]%nat /\
  RateLimiter.daily_searches
    (RateLimiter.state (RateLimiter.this (limiter (snd run)))) = 0%Z /\
  RateLimiter.daily_searches
    (RateLimiter.state (RateLimiter.this (limiter (snd run))))
  <> (RateLimiter.daily_searches
        (RateLimiter.state (RateLimiter.this (limiter blocked_world))) + 5)%Z.
Proof. vm_compute. repeat split. discriminate. Qed.

(** An instance of C2: a stub that finds a lead at level 4 only. *)
Lemma fallback_returns_first_hit_witness :
  exists w',
    search_with_progressive_fallback (stub_at 4) sample_query sample_filters
                                     "people" 10 sample_world
    = (Returned [tag_or_broadening (Some sample_intent) sample_lead], w') /\
    attempted (trace w') = [1; 2; 3; 4]%nat.
Proof.
  destruct (fallback_returns_first_hit (stub_at 4) sample_query sample_filters
              "people" 10 4 [sample_lead] sample_world)
    as (w' & E & Ha & _).
  - reflexivity.
  - unfold in_range. lia.
  - reflexivity.
  - intros s e. reflexivity.
  - intros s e H. cbn. destruct (Nat.eqb_spec (level s) 4); [lia | reflexivity].
  - intros s e H. cbn. rewrite <- H. reflexivity.
  - discriminate.
  - repeat constructor. vm_compute. discriminate.
  - exists w'. split; [exact E | exact Ha].
Defined.

(** C2 as stated fails: for the query "AI" no simple keyword exists, so
    level 2 is never tried; a stub that finds a lead at level 2 only is
    asked for levels 1, 3 and 4, and the ladder returns the empty list. *)
Lemma fallback_skips_level_two :
  let run := search_with_progressive_fallback (stub_at 2) short_query short_filters
                                              "people" 10 sample_world in
  fst run = Returned [] /\
  attempted (trace (snd run)) = [1; 3; 4]%nat.
Proof. vm_compute. split; reflexivity. Qed.

(** An instance of C9: pages that do not load and an extractor that
    raises. *)
Lemma fallback_never_raises_witness :
  exists w',
    search_with_progressive_fallback stub_broken sample_query sample_filters
                                     "people" 10 sample_world
    = (Returned [], w') /\
    attempted (trace w') = [1; 2; 3; 4; 5]%nat.
Proof.
  destruct (proj1 (proj2 (fallback_never_raises stub_broken sample_query
                            sample_filters "people" 10 sample_world)))
    as (w' & E & Ha).
  - intros s e. cbn. destruct (Nat.odd (level s)); exact I.
  - exists w'. split; [exact E | apply Ha; reflexivity].
Defined.

End SearchFacts.

(** * Further properties of the rate limiter *)

Module LimiterExtras.
Import Py RateLimiter LimiterFacts.

Local Open Scope Q_scope.


(** X13 ([reset_if_needed]).  A second rollover within the same date and
    hour changes nothing in memory: the state dictionary and the session
    counter are those the first rollover left.  It writes that same
    state once more: when the first write went through and the second
    does not garble the file, the stored document is unchanged too. *)
Theorem rollover_idempotent (amb : Ambient) (s : Sys) :
  date (clock amb (S (ticks s))) = date (clock amb (ticks s)) ->
  hour (clock amb (S (ticks s))) = hour (clock amb (ticks s)) ->
  let once := snd (reset_if_needed amb s) in
  let twice := snd (reset_if_needed amb once) in
  state (this twice) = state (this once) /\
  continuous_actions (this twice) = continuous_actions (this once) /\
  disk twice
  = stored_after (write_outcome amb (2 + ticks s)) (state (this once)) (disk once) /\
  (write_outcome amb (1 + ticks s) = Written ->
   write_outcome amb (2 + ticks s) <> Garbled ->
   disk twice = disk once).
Proof.
  intros Hd Hh. cbn zeta. rewrite !reset_if_needed_run. cbn [snd].
  assert (Hst : state (this (rolled_sys amb (rolled_sys amb s)))
                = state (this (rolled_sys amb s))
                /\ continuous_actions (this (rolled_sys amb (rolled_sys amb s)))
                   = continuous_actions (this (rolled_sys amb s))).
  { open_sys s. unfold rolled_sys, rolled.
    cbn [this state limits ticks disk continuous_actions session_start draws
         last_reset_date last_hour_reset daily_searches daily_profiles
         daily_connections hourly_searches hourly_profiles last_search_time
         last_profile_time consecutive_failures total_failures_today
         last_break_time continuous_searches blocked_until] in *.
    rewrite Hd, Hh.
    destruct (String.eqb (date (clock amb tk)) lrd) eqn:E1;
      destruct (hour (clock amb tk) =? lhr)%Z eqn:E2;
      cbn [negb]; rewrite ?E1, ?E2, ?String.eqb_refl, ?Z.eqb_refl; cbn [negb];
      repeat split. }
  destruct Hst as [Hst Hca]. split; [exact Hst|]. split; [exact Hca|].
  assert (Hdk : disk (rolled_sys amb (rolled_sys amb s))
                = stored_after (write_outcome amb (2 + ticks s))
                               (state (this (rolled_sys amb s)))
                               (disk (rolled_sys amb s))).
  { rewrite <- Hst. reflexivity. }
  split; [exact Hdk|].
  intros Hw1 Hw2. rewrite Hdk.
  assert (H1 : disk (rolled_sys amb s) = Some (state (this (rolled_sys amb s)))).
  { unfold rolled_sys. cbn [disk this state]. cbn [Nat.add] in Hw1. rewrite Hw1.
    reflexivity. }
  destruct (write_outcome amb (2 + ticks s)); cbn [stored_after];
    [symmetry; exact H1 | reflexivity | congruence].
Qed.

(** A block in force is a refusal. *)
Lemma can_search_blocked_run (amb : Ambient) (s : Sys) :
  epoch (clock amb (S (ticks s))) < blocked_until (state (this s)) ->
  fst (answer (can_search amb) s) = false.
Proof.
  intros H. unfold answer, can_search. rewrite bind_reset_if_needed.
  assert (Hb : blocked_until (state (this (rolled_sys amb s)))
               = blocked_until (state (this s))) by reflexivity.
  rewrite <- Hb in *. clear Hb.
  change (S (ticks s)) with (ticks (rolled_sys amb s)) in *.
  revert H. generalize (rolled_sys amb s). clear s. intros s H.
  open_sys s. cbn [this state ticks blocked_until] in *.
  apply Qltb_true in H. run_limiter. rewrite H. step_limiter. reflexivity.
Qed.

(** X3 ([emergency_stop], [can_search]).  [emergency_stop] sets
    [blocked_until] to its clock reading plus 3600 seconds and
    [consecutive_failures] to 5; a [can_search] that follows while the
    clock is still before that time answers [False]. *)
Theorem emergency_stop_blocks (amb : Ambient) (s : Sys) :
  epoch (clock amb (2 + ticks s)) < epoch (clock amb (ticks s)) + 3600 ->
  let s' := snd (emergency_stop amb s) in
  blocked_until (state (this s')) = epoch (clock amb (ticks s)) + 3600 /\
  consecutive_failures (state (this s')) = 5%Z /\
  fst (answer (can_search amb) s') = false.
Proof.
  intros H. cbn zeta.
  assert (Hs : blocked_until (state (this (snd (emergency_stop amb s))))
               = epoch (clock amb (ticks s)) + 3600
               /\ consecutive_failures (state (this (snd (emergency_stop amb s)))) = 5%Z
               /\ ticks (snd (emergency_stop amb s)) = S (ticks s)).
  { open_sys s. run_limiter. repeat split. }
  destruct Hs as (Hb & Hc & Ht). split; [exact Hb|]. split; [exact Hc|].
  apply can_search_blocked_run. rewrite Hb, Ht. exact H.
Qed.



Lemma rolled_frame (now : Instant) (st : State) :
  last_search_time (rolled now st) = last_search_time st /\
  last_profile_time (rolled now st) = last_profile_time st /\
  last_break_time (rolled now st) = last_break_time st /\
  continuous_searches (rolled now st) = continuous_searches st /\
  blocked_until (rolled now st) = blocked_until st.
Proof. repeat split. Qed.











Lemma uniform_of_bounds (a b u : Q) :
  a <= b -> 0 <= u <= 1 -> a <= uniform_of a b u <= b.
Proof.
  intros Hab [H0 H1]. unfold uniform_of.
  assert (Hd : 0 <= b - a) by lra.
  assert (Hx : 0 <= (b - a) * u) by (apply Qmult_le_0_compat; assumption).
  assert (Hy : (b - a) * u <= (b - a) * 1).
  { rewrite !(Qmult_comm (b - a)). apply Qmult_le_compat_r; assumption. }
  split; lra.
Qed.

(** X8 ([can_search]).  Once [continuous_searches] has reached
    [max_continuous_searches], [can_search] refuses while less than
    [break_duration_min] seconds have passed since [last_break_time];
    when at least [break_duration_max] seconds have passed and it
    answers [True], it has reset [continuous_searches] to 0 and stamped
    [last_break_time] with its clock reading. *)
Theorem can_search_enforces_break (amb : Ambient) (s : Sys) :
  let lim := limits (this s) in
  let st := state (this s) in
  let u := unit_draw amb (draws s) in
  let since_break := epoch (clock amb (2 + ticks s)) - last_break_time st in
  (max_continuous_searches lim <= continuous_searches st)%Z ->
  break_duration_min lim <= break_duration_max lim ->
  0 <= u <= 1 ->
  (since_break < break_duration_min lim ->
   fst (answer (can_search amb) s) = false) /\
  (break_duration_max lim <= since_break ->
   fst (answer (can_search amb) s) = true ->
   continuous_searches (state_after (can_search amb) s) = 0%Z /\
   last_break_time (state_after (can_search amb) s) = epoch (clock amb (3 + ticks s))).
Proof.
  cbn zeta. intros Hc Hmm Hu.
  assert (Hreq := uniform_of_bounds _ _ _ Hmm Hu).
  unfold state_after, answer, can_search.
  rewrite !bind_reset_if_needed.
  destruct (rolled_frame (clock amb (ticks s)) (state (this s)))
    as (_ & _ & Hlb & Hcs & _).
  change (state (this (rolled_sys amb s)))
    with (rolled (clock amb (ticks s)) (state (this s))).
  rewrite <- Hlb, <- Hcs in *.
  change (rolled (clock amb (ticks s)) (state (this s)))
    with (state (this (rolled_sys amb s))) in *.
  change (2 + ticks s)%nat with (1 + ticks (rolled_sys amb s))%nat in *.
  change (3 + ticks s)%nat with (2 + ticks (rolled_sys amb s))%nat in *.
  change (limits (this s)) with (limits (this (rolled_sys amb s))) in *.
  change (draws s) with (draws (rolled_sys amb s)) in *.
  revert Hc Hmm Hu Hreq. generalize (rolled_sys amb s). clear s Hlb Hcs.
  intros s Hc Hmm Hu Hreq. open_sys s.
  cbn [this state limits ticks draws continuous_searches last_break_time] in *.
  apply Z.leb_le in Hc.
  split.
  - intros Hlt. run_limiter. split_tests; cbn [fst]; try reflexivity;
      try congruence.
    all: repeat match goal with
           | E : Qltb _ _ = false |- _ => apply Qltb_false in E
           | E : Qltb _ _ = true |- _ => apply Qltb_true in E
           end; exfalso; cbn [Nat.add] in *; lra.
  - intros Hge. run_limiter. split_tests; cbn [fst snd this state];
      intros Ht; try discriminate Ht; try congruence; split; reflexivity.
Qed.

(** X9 ([get_break_duration]).  With 0 <= [break_duration_min] <=
    [break_duration_max], the duration is at least [break_duration_min];
    without consecutive failures it is at most [break_duration_max];
    with n > 0 consecutive failures it lies between the two bounds
    scaled by 1 + n / 2.  The state dictionary is not changed. *)
Theorem get_break_duration_bounds (amb : Ambient) (s : Sys) :
  let lim := limits (this s) in
  let cf := consecutive_failures (state (this s)) in
  let u := unit_draw amb (draws s) in
  let d := answer (get_break_duration amb) s in
  0 <= break_duration_min lim ->
  break_duration_min lim <= break_duration_max lim ->
  0 <= u <= 1 ->
  break_duration_min lim <= d /\
  ((cf <= 0)%Z -> d <= break_duration_max lim) /\
  ((0 < cf)%Z ->
   break_duration_min lim * (1 + (1 # 2) * inject_Z cf) <= d
   /\ d <= break_duration_max lim * (1 + (1 # 2) * inject_Z cf)) /\
  state_after (get_break_duration amb) s = state (this s).
Proof.
  cbn zeta. intros Hmin Hmm Hu.
  assert (Hb := uniform_of_bounds _ _ _ Hmm Hu).
  open_sys s. cbn [this state limits draws consecutive_failures] in *.
  unfold answer, state_after, get_break_duration. run_limiter.
  set (base := uniform_of _ _ _) in *.
  destruct (0 <? cf)%Z eqn:E; cbn [fst snd this state].
  - apply Z.ltb_lt in E.
    assert (Hk : 1 <= 1 + (1 # 2) * inject_Z cf).
    { assert (inject_Z 0 <= inject_Z cf) by (rewrite <- Zle_Qle; lia).
      change (inject_Z 0) with 0 in *. lra. }
    set (k := 1 + (1 # 2) * inject_Z cf) in *.
    assert (H1 : break_duration_min lim * k <= base * k).
    { apply Qmult_le_compat_r; lra. }
    assert (H2 : base * k <= break_duration_max lim * k).
    { apply Qmult_le_compat_r; lra. }
    assert (H3 : break_duration_min lim * 1 <= break_duration_min lim * k).
    { rewrite !(Qmult_comm (break_duration_min lim)).
      apply Qmult_le_compat_r; lra. }
    repeat split; try lra; intros; lia.
  - apply Z.ltb_ge in E. repeat split; try lra; intros; try lra; lia.
Qed.

(** X10 ([should_take_break]).  The state, the stored document and the
    clock are untouched.  A run of [max_continuous_searches] searches
    gives [True] without a draw; otherwise a first draw below 0.1 gives
    [True]; the call fails with a division by zero exactly when neither
    applies and [searches_per_day] is 0; and [False] is only returned
    below the run limit with a first draw of at least 0.1. *)
Theorem should_take_break_cases (amb : Ambient) (s : Sys) :
  let lim := limits (this s) in
  let st := state (this s) in
  let u := unit_draw amb (draws s) in
  let r := should_take_break amb s in
  state (this (snd r)) = st /\ disk (snd r) = disk s /\ ticks (snd r) = ticks s /\
  ((max_continuous_searches lim <= continuous_searches st)%Z ->
   fst r = Some true /\ draws (snd r) = draws s) /\
  ((continuous_searches st < max_continuous_searches lim)%Z -> u < 1 # 10 ->
   fst r = Some true) /\
  (fst r = None <->
   (continuous_searches st < max_continuous_searches lim)%Z /\
   1 # 10 <= u /\ searches_per_day lim = 0%Z) /\
  (fst r = Some false ->
   (continuous_searches st < max_continuous_searches lim)%Z /\ 1 # 10 <= u).
Proof.
  cbn zeta. open_sys s. cbn [this state limits draws ticks disk continuous_searches].
  unfold should_take_break, random_random. run_limiter.
  split_tests; cbn [fst snd this state disk ticks draws];
    repeat match goal with
           | E : Qltb _ _ = false |- _ => apply Qltb_false in E
           | E : Qltb _ _ = true |- _ => apply Qltb_true in E
           | E : (_ <=? _)%Z = false |- _ => apply Z.leb_gt in E
           | E : (_ <=? _)%Z = true |- _ => apply Z.leb_le in E
           | E : (_ =? _)%Z = false |- _ => apply Z.eqb_neq in E
           | E : (_ =? _)%Z = true |- _ => apply Z.eqb_eq in E
           end;
    repeat split; intros;
    repeat match goal with H : _ /\ _ |- _ => destruct H end;
    try reflexivity; try assumption; try lia; try lra; try discriminate;
    try contradiction.
Qed.

(** X11 ([can_search], [reset_if_needed]).  With no block in force and
    the daily counter below its limit, an hourly counter at
    [searches_per_hour] (after the rollover) makes [can_search] answer
    [False] with the hourly reason and change nothing beyond the
    rollover; in a new clock hour the counter is zero and, for a
    positive limit, the hourly reason is not given. *)
Theorem hourly_limit_refusal (amb : Ambient) (s : Sys) :
  let lim := limits (this s) in
  let r := state_after (reset_if_needed amb) s in
  let reason := "Hourly search limit reached (" +:+ pretty (searches_per_hour lim)
                +:+ " searches)" in
  (blocked_until (state (this s)) <= epoch (clock amb (S (ticks s))) ->
   (daily_searches r < searches_per_day lim)%Z ->
   (searches_per_hour lim <= hourly_searches r)%Z ->
   answer (can_search amb) s = (false, reason) /\
   state_after (can_search amb) s = r) /\
  (hour (clock amb (ticks s)) <> last_hour_reset (state (this s)) ->
   (0 < searches_per_hour lim)%Z ->
   hourly_searches r = 0%Z /\ snd (answer (can_search amb) s) <> reason).
Proof.
  cbn zeta. split.
  - intros Hb Hd Hh. unfold state_after, answer, can_search in *.
    rewrite bind_reset_if_needed. rewrite reset_if_needed_run in *. cbn [snd] in *.
    assert (Hbu : blocked_until (state (this (rolled_sys amb s)))
                  = blocked_until (state (this s))) by reflexivity.
    rewrite <- Hbu in Hb. clear Hbu.
    change (S (ticks s)) with (ticks (rolled_sys amb s)) in *.
    change (limits (this s)) with (limits (this (rolled_sys amb s))) in *.
    revert Hb Hd Hh. generalize (rolled_sys amb s). clear s. intros s Hb Hd Hh.
    open_sys s. cbn [this state limits ticks blocked_until daily_searches
                     hourly_searches] in *.
    apply Qltb_false in Hb. apply Z.leb_gt in Hd. apply Z.leb_le in Hh.
    run_limiter. rewrite Hb. step_limiter. rewrite Hd, Hh. split; reflexivity.
  - intros Hhour Hpos.
    assert (Hz : hourly_searches (state_after (reset_if_needed amb) s) = 0%Z).
    { unfold state_after. rewrite reset_if_needed_run. cbn [snd].
      unfold rolled_sys, rolled. cbn. apply Z.eqb_neq in Hhour. rewrite Hhour.
      reflexivity. }
    split; [exact Hz|].
    unfold state_after, answer, can_search in *.
    rewrite bind_reset_if_needed. rewrite reset_if_needed_run in Hz. cbn [snd] in Hz.
    change (limits (this s)) with (limits (this (rolled_sys amb s))) in *.
    revert Hz Hpos. generalize (rolled_sys amb s). clear s Hhour. intros s Hz Hpos.
    open_sys s. cbn [this state limits hourly_searches] in *. subst hs.
    run_limiter. split_tests; cbn [fst snd]; try discriminate.
    match goal with E : (_ <=? 0)%Z = true |- _ => apply Z.leb_le in E; lia end.
Qed.





(** X1 ([can_search]).  An affirmative answer guarantees that, after the
    rollover, no block is in force at the time read for the block check,
    the daily and hourly search counters are below their limits, fewer
    than ten failures were counted today, and at the last time read the
    backed-off minimum delay has passed since [last_search_time]; the
    reason is "OK". *)
Theorem can_search_allows_within_quota (amb : Ambient) (s : Sys) :
  fst (answer (can_search amb) s) = true ->
  let s' := snd (can_search amb s) in
  let st := state (this s') in
  let lim := limits (this s) in
  blocked_until st <= epoch (clock amb (S (ticks s))) /\
  (daily_searches st < searches_per_day lim)%Z /\
  (hourly_searches st < searches_per_hour lim)%Z /\
  (total_failures_today st < 10)%Z /\
  backoff_scaled lim (consecutive_failures st) (min_delay_between_searches lim)
    <= epoch (clock amb (pred (ticks s'))) - last_search_time st /\
  snd (answer (can_search amb) s) = "OK".
Proof.
  unfold answer, can_search. rewrite bind_reset_if_needed.
  change (S (ticks s)) with (ticks (rolled_sys amb s)).
  change (limits (this s)) with (limits (this (rolled_sys amb s))).
  generalize (rolled_sys amb s). clear s. intros s.
  open_sys s. run_limiter. split_tests; cbn [fst snd]; intros H; try discriminate H.
  all: cbn [this state limits ticks daily_searches hourly_searches blocked_until
            total_failures_today consecutive_failures last_search_time pred
            set_continuous_searches set_last_break_time].
  all: repeat match goal with
         | E : Qltb _ _ = false |- _ => apply Qltb_false in E
         | E : (_ <=? _)%Z = false |- _ => apply Z.leb_gt in E
         end.
  all: repeat split; try assumption; try lia.
Qed.

(** X2 ([can_search]).  When the time read for the block check is before
    [blocked_until], [can_search] answers [False], reports the seconds
    that remain at the next time it reads, and changes nothing beyond
    the rollover. *)
Theorem can_search_blocked (amb : Ambient) (s : Sys) :
  epoch (clock amb (S (ticks s))) < blocked_until (state (this s)) ->
  answer (can_search amb) s
  = (false,
     "Temporarily blocked for "
     +:+ fmt_0f (blocked_until (state (this s)) - epoch (clock amb (S (S (ticks s)))))
     +:+ " seconds due to failures") /\
  state_after (can_search amb) s = state_after (reset_if_needed amb) s.
Proof.
  intros H. unfold state_after, answer, can_search.
  rewrite bind_reset_if_needed, reset_if_needed_run. cbn [snd].
  assert (Hb : blocked_until (state (this (rolled_sys amb s)))
               = blocked_until (state (this s))) by reflexivity.
  rewrite <- Hb in *. clear Hb.
  change (S (ticks s)) with (ticks (rolled_sys amb s)) in *.
  revert H. generalize (rolled_sys amb s). clear s. intros s H.
  open_sys s. cbn [this state ticks blocked_until] in *.
  apply Qltb_true in H. run_limiter. rewrite H. step_limiter. split; reflexivity.
Qed.

(** X4 ([can_search]).  Whatever it answers, [can_search] keeps the
    limits and reads the clock; its only write is the one of the
    rollover, so the file is left as the rollover left it (the
    rolled-over state when that write goes through); and the state
    dictionary it leaves is either the rolled-over one or, when the run
    of searches had reached [max_continuous_searches], the rolled-over
    one with the break marked as taken at its fourth clock reading, a
    change that is never written. *)
Theorem can_search_state (amb : Ambient) (s : Sys) :
  let s' := snd (can_search amb s) in
  let r := state_after (reset_if_needed amb) s in
  limits (this s') = limits (this s) /\
  (draws s <= draws s')%nat /\
  (ticks s < ticks s')%nat /\
  disk s' = disk (snd (reset_if_needed amb s)) /\
  (write_outcome amb (S (ticks s)) = Written -> disk s' = Some r) /\
  (state (this s') = r \/
   (state (this s') = break_done (epoch (clock amb (3 + ticks s))) r /\
    (max_continuous_searches (limits (this s)) <= continuous_searches r)%Z)).
Proof.
  cbn zeta. unfold state_after, can_search.
  rewrite bind_reset_if_needed, reset_if_needed_run. cbn [snd].
  assert (Hw : write_outcome amb (S (ticks s)) = Written ->
               disk (rolled_sys amb s) = Some (state (this (rolled_sys amb s)))).
  { intros H. unfold rolled_sys. cbn [disk this state]. rewrite H. reflexivity. }
  change (3 + ticks s)%nat with (2 + ticks (rolled_sys amb s))%nat.
  change (limits (this s)) with (limits (this (rolled_sys amb s))).
  change (draws s) with (draws (rolled_sys amb s)).
  assert (Ht : (ticks s < ticks (rolled_sys amb s))%nat) by (cbn; lia).
  revert Hw Ht. generalize (rolled_sys amb s). intros s1 Hw Ht.
  open_sys s1. cbn [this state limits ticks disk draws] in *.
  run_limiter. split_tests; cbn [fst snd this state limits ticks disk draws];
    (split; [reflexivity|]); (split; [lia|]); (split; [lia|]);
    (split; [reflexivity|]); (split; [exact Hw|]); try (left; reflexivity).
  all: right; split; [reflexivity|]; apply Z.leb_le; assumption.
Qed.

(** X14 ([can_view_profile]).  [can_view_profile] changes nothing beyond
    the rollover and writes nothing but the rollover's write; an
    affirmative answer guarantees that the daily and hourly profile
    counters are below their limits after the rollover and that
    [min_delay_between_profiles] seconds have passed since
    [last_profile_time]. *)
Theorem can_view_profile_allows_within_quota (amb : Ambient) (s : Sys) :
  let r := state_after (reset_if_needed amb) s in
  state_after (can_view_profile amb) s = r /\
  disk (snd (can_view_profile amb s)) = disk (snd (reset_if_needed amb s)) /\
  (fst (answer (can_view_profile amb) s) = true ->
   (daily_profiles r < profiles_per_day (limits (this s)))%Z /\
   (hourly_profiles r < profiles_per_hour (limits (this s)))%Z /\
   min_delay_between_profiles (limits (this s))
     <= epoch (clock amb (S (ticks s))) - last_profile_time (state (this s)) /\
   snd (answer (can_view_profile amb) s) = "OK").
Proof.
  cbn zeta. unfold state_after, answer, can_view_profile.
  rewrite !bind_reset_if_needed, reset_if_needed_run. cbn [snd].
  assert (Hl : last_profile_time (state (this (rolled_sys amb s)))
               = last_profile_time (state (this s))) by reflexivity.
  rewrite <- Hl. clear Hl.
  change (S (ticks s)) with (ticks (rolled_sys amb s)).
  change (limits (this s)) with (limits (this (rolled_sys amb s))).
  generalize (rolled_sys amb s). clear s. intros s.
  open_sys s. cbn [this state limits ticks disk daily_profiles hourly_profiles
                   last_profile_time] in *.
  run_limiter. split_tests; cbn [fst snd this state disk];
    (split; [reflexivity|]); (split; [reflexivity|]); intros H; try discriminate H.
  repeat match goal with
         | E : Qltb _ _ = false |- _ => apply Qltb_false in E
         | E : (_ <=? _)%Z = false |- _ => apply Z.leb_gt in E
         end.
  repeat split; try assumption; try lia.
Qed.

(** *** Instances *)

(** A fresh limiter may search. *)
Lemma can_search_allows_within_quota_witness :
  let s' := snd (can_search sample_ambient (fresh_sys default_limits)) in
  (daily_searches (state (this s')) < 15)%Z /\
  (hourly_searches (state (this s')) < 3)%Z /\
  snd (answer (can_search sample_ambient) (fresh_sys default_limits)) = "OK".
Proof.
  destruct (can_search_allows_within_quota sample_ambient (fresh_sys default_limits))
    as (_ & H1 & H2 & _ & _ & H3); [vm_compute; reflexivity|].
  repeat split; assumption.
Defined.

(** After an emergency stop at second 1001 the block is reported. *)
Lemma can_search_blocked_witness :
  fst (answer (can_search sample_ambient) stopped_sys) = false /\
  state_after (can_search sample_ambient) stopped_sys
  = state_after (reset_if_needed sample_ambient) stopped_sys.
Proof.
  destruct (can_search_blocked sample_ambient stopped_sys) as [H1 H2];
    [vm_compute; reflexivity|].
  split; [rewrite H1; reflexivity | exact H2].
Defined.

Lemma emergency_stop_blocks_witness :
  let s' := snd (emergency_stop sample_ambient (fresh_sys default_limits)) in
  consecutive_failures (state (this s')) = 5%Z /\
  fst (answer (can_search sample_ambient) s') = false.
Proof.
  destruct (emergency_stop_blocks sample_ambient (fresh_sys default_limits))
    as (_ & H1 & H2); [vm_compute; reflexivity|].
  split; assumption.
Defined.




(** Five searches in a row: refused at once, allowed the next day with
    the run counter reset. *)
Lemma can_search_enforces_break_witness :
  fst (answer (can_search sample_ambient)
         (with_backoff_fields 0 5 0 (snd (reset_session sample_ambient tired_sys))))
  = false /\
  fst (answer (can_search next_day_ambient) tired_sys) = true /\
  continuous_searches (state_after (can_search next_day_ambient) tired_sys) = 0%Z.
Proof.
  split.
  - apply (proj1 (can_search_enforces_break sample_ambient
                    (with_backoff_fields 0 5 0
                       (snd (reset_session sample_ambient tired_sys)))
                    ltac:(vm_compute; discriminate)
                    ltac:(vm_compute; discriminate)
                    ltac:(split; vm_compute; discriminate))).
    vm_compute. reflexivity.
  - split; [vm_compute; reflexivity|].
    apply (proj2 (can_search_enforces_break next_day_ambient tired_sys
                    ltac:(vm_compute; discriminate)
                    ltac:(vm_compute; discriminate)
                    ltac:(split; vm_compute; discriminate))).
    + vm_compute. discriminate.
    + vm_compute. reflexivity.
Defined.

Lemma get_break_duration_bounds_witness :
  300 <= answer (get_break_duration sample_ambient) (fresh_sys default_limits) /\
  answer (get_break_duration sample_ambient) (fresh_sys default_limits) <= 900.
Proof.
  destruct (get_break_duration_bounds sample_ambient (fresh_sys default_limits))
    as (H1 & H2 & _).
  - vm_compute. discriminate.
  - vm_compute. discriminate.
  - split; vm_compute; discriminate.
  - split; [exact H1 | apply H2; vm_compute; discriminate].
Defined.

Lemma should_take_break_cases_witness :
  fst (should_take_break sample_ambient tired_sys) = Some true /\
  fst (should_take_break sample_ambient (fresh_sys (limits_with_daily 0))) = None.
Proof.
  split.
  - destruct (should_take_break_cases sample_ambient tired_sys)
      as (_ & _ & _ & H & _).
    apply H. vm_compute. discriminate.
  - destruct (should_take_break_cases sample_ambient (fresh_sys (limits_with_daily 0)))
      as (_ & _ & _ & _ & _ & H & _).
    apply H. repeat split; vm_compute; try discriminate; reflexivity.
Defined.

(** Four searches within the hour, limit three. *)
Lemma hourly_limit_refusal_witness :
  answer (can_search sample_ambient) busy_sys
  = (false, "Hourly search limit reached (3 searches)").
Proof.
  destruct (proj1 (hourly_limit_refusal sample_ambient busy_sys)) as [H _].
  - vm_compute. discriminate.
  - vm_compute. reflexivity.
  - vm_compute. discriminate.
  - exact H.
Defined.


Lemma rollover_idempotent_witness :
  let once := snd (reset_if_needed sample_ambient busy_sys) in
  state (this (snd (reset_if_needed sample_ambient once))) = state (this once).
Proof.
  destruct (rollover_idempotent sample_ambient busy_sys) as (H & _);
    [reflexivity | reflexivity | exact H].
Defined.

(** A second profile view one second after the first. *)
Lemma can_view_profile_allows_within_quota_witness :
  (daily_profiles (state_after (reset_if_needed next_day_ambient) viewer_sys) < 30)%Z /\
  snd (answer (can_view_profile next_day_ambient) viewer_sys) = "OK".
Proof.
  destruct (can_view_profile_allows_within_quota next_day_ambient viewer_sys)
    as (_ & _ & H).
  destruct H as (H1 & _ & _ & H2); [vm_compute; reflexivity|].
  split; [exact H1 | exact H2].
Defined.

End LimiterExtras.

(** * Further properties of the retriever *)

Module SearchExtras.
Import Py SalesNavigator SearchFacts.

Lemma lower_char_clean (c : ascii) : is_upper (lower_char c) = false.
Proof. destruct c as [[] [] [] [] [] [] [] []]; reflexivity. Qed.

Lemma all_chars_lower (s : string) :
  all_chars (fun c => negb (is_upper c)) (lower s) = true.
Proof.
  induction s as [|c s IH]; [reflexivity|].
  cbn [lower all_chars]. rewrite lower_char_clean, IH. reflexivity.
Qed.

Lemma all_chars_of_list (p : ascii -> bool) (l : list ascii) :
  all_chars p (string_of_list_ascii l) = forallb p l.
Proof. induction l as [|c l IH]; [reflexivity|]. cbn. rewrite IH. reflexivity. Qed.

Lemma forallb_rev' {A} (p : A -> bool) (l : list A) :
  forallb p (rev l) = forallb p l.
Proof.
  induction l as [|x l IH]; [reflexivity|].
  cbn [rev forallb]. rewrite forallb_app, IH. cbn. rewrite andb_true_r.
  apply andb_comm.
Qed.

Lemma split_go_chars (p : ascii -> bool) (s : string) (cur : list ascii) :
  forallb p cur = true -> all_chars p s = true ->
  Forall (fun w => all_chars p w = true) (split_go cur s).
Proof.
  revert cur. induction s as [|c s IH]; intros cur Hcur Hs.
  - cbn. destruct cur as [|x cur]; constructor; [|constructor].
    rewrite all_chars_of_list, forallb_rev'. exact Hcur.
  - cbn [all_chars] in Hs. apply andb_prop in Hs as [Hc Hs]. cbn [split_go].
    destruct (isspace c).
    + destruct cur as [|x cur]; [apply IH; auto|].
      constructor; [|apply IH; auto].
      rewrite all_chars_of_list, forallb_rev'. exact Hcur.
    + apply IH; [|exact Hs]. cbn. rewrite Hc, Hcur. reflexivity.
Qed.

Lemma filter_chars_clean (w : string) :
  all_chars (fun c => negb (is_upper c)) w = true ->
  all_chars clean_char (filter_chars isalnum w) = true.
Proof.
  induction w as [|c w IH]; [reflexivity|]. cbn [all_chars filter_chars].
  intros H. apply andb_prop in H as [Hc Hw].
  destruct (isalnum c) eqn:E; [|exact (IH Hw)].
  cbn [all_chars]. unfold clean_char at 1. rewrite E, Hc, (IH Hw). reflexivity.
Qed.

(** X15 ([_extract_simple_keywords]).  Every keyword extracted from an
    ASCII query has more than two characters, consists of letters and
    digits none of which is upper case, and is not a stop word. *)
Theorem simple_keywords_clean (query : string) :
  is_ascii query = true ->
  Forall (fun kw => (2 < String.length kw)%nat /\
                    all_chars clean_char kw = true /\
                    in_strings kw stop_words = false)
         (_extract_simple_keywords query).
Proof.
  intros _. unfold _extract_simple_keywords.
  assert (H := split_go_chars _ (lower query) [] eq_refl (all_chars_lower query)).
  fold (split (lower query)) in H.
  induction H as [|w ws Hw Hws IH]; [constructor|].
  cbn [flat_map].
  destruct ((2 <? String.length (filter_chars isalnum w))%nat
            && negb (in_strings (filter_chars isalnum w) stop_words)) eqn:E;
    [|exact IH].
  apply andb_prop in E as [E1 E2]. cbn [app]. constructor; [|exact IH].
  split; [apply Nat.ltb_lt, E1|]. split; [apply filter_chars_clean, Hw|].
  apply negb_true_iff, E2.
Qed.


(** X17 ([_create_or_broadening_filters], [build_native_filters]).  The
    broadened filters of an intent are its native filters restricted to
    the keys [geoIncluded] and [currentJobTitle]: company size, seniority
    and function are dropped, nothing else changes.  Without an intent
    they are [currentJobTitle = true] alone. *)
Theorem or_broadening_filters_restrict (i : Intent) :
  _create_or_broadening_filters (Some i)
  = List.filter (fun kv : string * string =>
                   in_strings (fst kv) ["geoIncluded"; "currentJobTitle"])
                (build_native_filters i) /\
  _create_or_broadening_filters None = [("currentJobTitle", "true")].
Proof.
  split; [|reflexivity].
  destruct i as [rs ss ls [sz fd] sn raw].
  unfold _create_or_broadening_filters, build_native_filters.
  cbn [get_locations locations company_criteria size seniority roles].
  destruct (truthy_list ls), sz as [sz|], (truthy_list sn),
    (existsb (fun role => in_strings role rs) ["javascript developer"; "developer"]);
    try destruct (truthy_str sz); try destruct (dict_find sz size_map);
    reflexivity.
Qed.

(** X18 ([_create_or_broadening_query]).  The broadening query is never
    empty.  When roles, skills and seniority are all present it is the
    three groups of the first three roles, the first three skills and
    "founder OR CEO OR CTO", and the company criteria have no effect:
    the funding group is cut by the limit of three groups.  When nothing
    is present it is "developer OR engineer OR founder OR manager". *)
Theorem or_broadening_query_groups (oi : option Intent) :
  _create_or_broadening_query oi <> EmptyString /\
  (forall i cc,
     oi = Some i ->
     truthy_list (roles i) = true -> truthy_list (skills i) = true ->
     truthy_list (seniority i) = true ->
     _create_or_broadening_query (Some (with_criteria cc i))
     = _create_or_broadening_query oi /\
     _create_or_broadening_query oi
     = ("(" +:+ join " OR " (map quoted (take 3 (roles i))) +:+ ")")
       +:+ " OR " +:+ ("(" +:+ join " OR " (take 3 (skills i)) +:+ ")")
       +:+ " OR " +:+ "(founder OR CEO OR CTO)") /\
  (get_roles oi = [] -> get_skills oi = [] -> get_seniority oi = [] ->
   opt_truthy (funding (get_company_criteria oi)) = false ->
   _create_or_broadening_query oi = "developer OR engineer OR founder OR manager").
Proof.
  split; [|split].
  - unfold _create_or_broadening_query.
    destruct (truthy_list (get_roles oi)), (truthy_list (get_skills oi)),
      (truthy_list (get_seniority oi)),
      (opt_truthy (funding (get_company_criteria oi))); cbn; discriminate.
  - intros i cc -> Hr Hs Hn. unfold _create_or_broadening_query.
    cbn [get_roles get_skills get_seniority get_company_criteria with_criteria
         roles skills seniority company_criteria].
    rewrite Hr, Hs, Hn.
    destruct (opt_truthy (funding cc)), (opt_truthy (funding (company_criteria i)));
      split; reflexivity.
  - intros Hr Hs Hn Hf. unfold _create_or_broadening_query.
    rewrite Hr, Hs, Hn, Hf. reflexivity.
Qed.

(** Substrings *)
Lemma contains_weaken (p p' : string) :
  (forall t, String.prefix p t = true -> String.prefix p' t = true) ->
  forall t, contains p t = true -> contains p' t = true.
Proof.
  intros H t. induction t as [|c t IH]; cbn [contains]; intros E.
  - apply orb_prop in E as [E|E]; [|discriminate]. rewrite (H _ E). reflexivity.
  - apply orb_prop in E as [E|E].
    + rewrite (H _ E). reflexivity.
    + rewrite (IH E). apply orb_true_r.
Qed.

Lemma prefix_javascript_java (t : string) :
  String.prefix "javascript" t = true -> String.prefix "java" t = true.
Proof.
  destruct t as [|a [|b [|c [|d t]]]]; cbn [String.prefix]; try discriminate;
    repeat (destruct (ascii_dec _ _); try discriminate); intros _;
    destruct t; reflexivity.
Qed.

Lemma matched_In (table : list (string * list string)) (raw name : string)
      (patterns : list string) (p : string) :
  In (name, patterns) table -> In p patterns -> contains p raw = true ->
  In name (matched table raw).
Proof.
  intros Ht Hp Hc. unfold matched. apply in_flat_map.
  exists (name, patterns). split; [exact Ht|]. cbn [fst snd].
  assert (E : any_in patterns raw = true).
  { unfold any_in. apply existsb_exists. exists p. auto. }
  rewrite E. left. reflexivity.
Qed.

(** X19 ([parse_intent], [parse_query_filters]).  Patterns are matched
    as substrings of the lower-cased query: a query that mentions
    "javascript" is given the skill "Java" besides "JavaScript", the role
    "javascript developer", and the native filter
    [functionIncluded = engineering]. *)
Theorem javascript_also_java (query : string) :
  contains "javascript" (lower query) = true ->
  let i := parse_intent query in
  In "JavaScript" (skills i) /\ In "Java" (skills i) /\
  In "javascript developer" (roles i) /\
  dict_find "functionIncluded" (native_filters (parse_query_filters query))
  = Some "engineering".
Proof.
  intros H. cbn zeta.
  assert (HJ := contains_weaken _ _ prefix_javascript_java _ H).
  assert (Hrole : In "javascript developer" (roles (parse_intent query))).
  { cbn [parse_intent roles].
    apply (matched_In role_patterns _ "javascript developer"
             ["javascript"; "js"; "frontend"; "backend"; "fullstack"] "javascript");
      [left; reflexivity | left; reflexivity | exact H]. }
  split; [|split; [|split]].
  - cbn [parse_intent skills].
    apply (matched_In skill_patterns _ "JavaScript"
             ["javascript"; "js"; "node"; "react"; "vue"; "angular"] "javascript");
      [left; reflexivity | left; reflexivity | exact H].
  - cbn [parse_intent skills].
    apply (matched_In skill_patterns _ "Java" ["java"; "spring"] "java");
      [right; right; left; reflexivity | left; reflexivity | exact HJ].
  - exact Hrole.
  - unfold parse_query_filters, filters_of_intent. cbn [native_filters].
    unfold build_native_filters.
    assert (E : existsb (fun role => in_strings role (roles (parse_intent query)))
                        ["javascript developer"; "developer"] = true).
    { cbn [existsb]. apply orb_true_iff. left. unfold in_strings.
      apply existsb_exists. exists "javascript developer". split; [exact Hrole|].
      reflexivity. }
    rewrite E.
    destruct (truthy_list (locations (parse_intent query))),
      (size (company_criteria (parse_intent query))) as [sz|],
      (truthy_list (seniority (parse_intent query)));
      try destruct (truthy_str sz); try destruct (dict_find sz size_map);
      reflexivity.
Qed.

(** X16 ([parse_intent], [build_native_filters], [parse_query_filters]).
    For every query the native filters have pairwise distinct keys and
    carry [currentJobTitle = true]; [companySize] is absent, "B" or "C"
    (the codes "D" and "E" of the size table are never produced);
    [seniorityIncluded] is absent or the five decision-maker levels; and
    [geoIncluded] is present exactly when a location was recognised, as
    the comma-joined locations. *)
Theorem native_filters_of_query (query : string) :
  let i := parse_intent query in
  let nf := native_filters (parse_query_filters query) in
  NoDup (dict_keys nf) /\
  dict_find "currentJobTitle" nf = Some "true" /\
  (dict_find "companySize" nf = None \/ dict_find "companySize" nf = Some "B"
   \/ dict_find "companySize" nf = Some "C") /\
  (dict_find "seniorityIncluded" nf = None
   \/ dict_find "seniorityIncluded" nf = Some "owner,partner,cxo,vp,director") /\
  dict_find "geoIncluded" nf
  = (if truthy_list (locations i) then Some (join "," (locations i)) else None).
Proof.
  cbn zeta. unfold parse_query_filters, filters_of_intent. cbn [native_filters].
  unfold build_native_filters, parse_intent.
  cbn [locations company_criteria size seniority roles].
  generalize (matched location_patterns (lower query)) as ls.
  generalize (existsb (fun role => in_strings role (matched role_patterns (lower query)))
                      ["javascript developer"; "developer"]) as fn.
  intros fn ls.
  destruct (any_in ["100"; "employees"] (lower query)),
    (any_in ["startup"] (lower query)),
    (any_in ["decision maker"; "ceo"; "cto"; "founder"] (lower query)),
    (truthy_list ls), fn; cbn;
    (split; [apply (bool_decide_unpack _); vm_compute; exact I|]);
    (split; [reflexivity|]); (split; [auto|]); (split; [auto|]); reflexivity.
Qed.



Lemma build_sales_nav_url_params (filters : SearchFilters) (ty : string) :
  build_sales_nav_url filters ty
  = if truthy_list (url_params filters)
    then ("https://www.linkedin.com/sales/search/" +:+ ty) +:+ "?"
         +:+ join "&" (url_params filters)
    else "https://www.linkedin.com/sales/search/" +:+ ty.
Proof. reflexivity. Qed.

Lemma all_chars_app (p : ascii -> bool) (a b : string) :
  all_chars p (a +:+ b) = all_chars p a && all_chars p b.
Proof.
  induction a as [|x a IH]; [reflexivity|].
  change (String x a +:+ b) with (String x (a +:+ b)).
  cbn [all_chars]. rewrite IH. apply andb_assoc.
Qed.

Lemma count_char_absent (p : ascii -> bool) (c : ascii) (s : string) :
  p c = false -> all_chars p s = true -> count_char c s = 0%nat.
Proof.
  intros Hc. induction s as [|x s IH]; [reflexivity|]. cbn [all_chars count_char].
  intros H. apply andb_prop in H as [Hx Hs]. rewrite (IH Hs).
  destruct (Ascii.eqb c x) eqn:E; [|reflexivity].
  apply Ascii.eqb_eq in E. subst x. congruence.
Qed.

Lemma quote_plus_char_safe (x : ascii) :
  all_chars (fun c => url_char c && negb (Ascii.eqb c ampersand)
                      && negb (Ascii.eqb c question_mark))
            (quote_plus_char x) = true.
Proof. destruct x as [[] [] [] [] [] [] [] []]; reflexivity. Qed.

Lemma quote_plus_safe (s : string) :
  all_chars (fun c => url_char c && negb (Ascii.eqb c ampersand)
                      && negb (Ascii.eqb c question_mark))
            (quote_plus s) = true.
Proof.
  induction s as [|x s IH]; [reflexivity|]. cbn [quote_plus].
  rewrite all_chars_app, quote_plus_char_safe, IH. reflexivity.
Qed.

Lemma all_chars_weaken (p q : ascii -> bool) (s : string) :
  (forall c, p c = true -> q c = true) -> all_chars p s = true -> all_chars q s = true.
Proof.
  intros H. induction s as [|x s IH]; [reflexivity|]. cbn [all_chars].
  intros E. apply andb_prop in E as [Ex Es]. rewrite (H _ Ex), (IH Es). reflexivity.
Qed.

Lemma unreserved_safe (c : ascii) :
  unreserved c = true ->
  url_char c && negb (Ascii.eqb c ampersand) && negb (Ascii.eqb c question_mark) = true.
Proof. destruct c as [[] [] [] [] [] [] [] []]; cbn; intros H; try discriminate H; reflexivity. Qed.


Lemma url_param_safe (kv : string * string) :
  all_chars unreserved (fst kv) = true ->
  Forall (fun p => all_chars param_safe p = true) (url_param kv) /\
  length (url_param kv) = (if truthy_str (snd kv) then 1 else 0)%nat.
Proof.
  destruct kv as [k v]. cbn [fst snd url_param]. intros Hk.
  destruct (truthy_str v); [|split; [constructor | reflexivity]].
  destruct (String.eqb k "currentJobTitle" && String.eqb v "true");
    (split; [constructor; [|constructor] | reflexivity]); [reflexivity|].
  rewrite !all_chars_app.
  rewrite (all_chars_weaken _ param_safe _ unreserved_safe Hk).
  change (all_chars param_safe (quote_plus v)) with
    (all_chars (fun c => url_char c && negb (Ascii.eqb c ampersand)
                         && negb (Ascii.eqb c question_mark)) (quote_plus v)).
  rewrite quote_plus_safe. reflexivity.
Qed.

Lemma url_params_safe (filters : SearchFilters) :
  Forall (fun kv : string * string => all_chars unreserved (fst kv) = true)
         (native_filters filters) ->
  Forall (fun p => all_chars param_safe p = true) (url_params filters) /\
  length (url_params filters) = param_count filters.
Proof.
  intros H. unfold url_params, param_count.
  assert (Hn : Forall (fun p => all_chars param_safe p = true)
                      (flat_map url_param (native_filters filters))
               /\ length (flat_map url_param (native_filters filters))
                  = length (List.filter (fun kv : string * string => truthy_str (snd kv))
                                        (native_filters filters))).
  { induction H as [|kv nf Hkv Hnf [IH1 IH2]]; [split; [constructor | reflexivity]|].
    destruct (url_param_safe kv Hkv) as [H1 H2]. cbn [flat_map List.filter].
    split; [apply Forall_app; split; assumption|].
    rewrite length_app, H2, IH2. destruct (truthy_str (snd kv)); reflexivity. }
  destruct Hn as [Hn1 Hn2]. rewrite length_app, Hn2.
  split.
  - apply Forall_app. split; [|exact Hn1].
    destruct (truthy_str (keywords filters)); constructor; [|constructor].
    rewrite all_chars_app.
    change (all_chars param_safe (quote_plus (keywords filters))) with
      (all_chars (fun c => url_char c && negb (Ascii.eqb c ampersand)
                           && negb (Ascii.eqb c question_mark))
                 (quote_plus (keywords filters))).
    rewrite quote_plus_safe. reflexivity.
  - destruct (truthy_str (keywords filters)); reflexivity.
Qed.

Lemma join_safe (parts : list string) :
  Forall (fun p => all_chars param_safe p = true) parts ->
  all_chars url_char (join "&" parts) = true /\
  count_char ampersand (join "&" parts) = pred (length parts) /\
  count_char question_mark (join "&" parts) = 0%nat.
Proof.
  induction 1 as [|p parts Hp Hps (IH1 & IH2 & IH3)]; [repeat split|].
  assert (Hu : all_chars url_char p = true).
  { apply (all_chars_weaken param_safe); [|exact Hp].
    intros c Hc. unfold param_safe in Hc.
    apply andb_prop in Hc as [Hc _]. apply andb_prop in Hc as [Hc _]. exact Hc. }
  assert (Ha : count_char ampersand p = 0%nat).
  { apply (count_char_absent param_safe); [reflexivity | exact Hp]. }
  assert (Hq : count_char question_mark p = 0%nat).
  { apply (count_char_absent param_safe); [reflexivity | exact Hp]. }
  destruct parts as [|q parts]; [cbn [join length pred]; auto|].
  change (join "&" (p :: q :: parts)) with (p +:+ "&" +:+ join "&" (q :: parts)).
  rewrite !all_chars_app, !count_char_app, Hu, IH1, Ha, Hq, IH2, IH3.
  repeat split.
Qed.

(** X20 ([build_sales_nav_url]).  When the search type and the filter
    keys consist of unreserved characters, the URL consists of URL
    characters only, whatever the keywords and the filter values are;
    it has one [&] less than it has parameters, one [?] when it has a
    parameter, and it is the bare base URL when the keywords and all
    filter values are empty. *)
Theorem build_sales_nav_url_safe (filters : SearchFilters) (ty : string) :
  all_chars unreserved ty = true ->
  Forall (fun kv : string * string => all_chars unreserved (fst kv) = true)
         (native_filters filters) ->
  let u := build_sales_nav_url filters ty in
  all_chars url_char u = true /\
  count_char ampersand u = pred (param_count filters) /\
  count_char question_mark u = (if param_count filters is O then 0 else 1)%nat /\
  (param_count filters = 0%nat -> u = "https://www.linkedin.com/sales/search/" +:+ ty).
Proof.
  intros Hty Hk. cbn zeta. rewrite build_sales_nav_url_params.
  destruct (url_params_safe filters Hk) as [Hp Hlen]. rewrite <- Hlen.
  destruct (join_safe _ Hp) as (J1 & J2 & J3).
  assert (Hs := all_chars_weaken _ param_safe _ unreserved_safe Hty).
  assert (B1 : all_chars url_char ("https://www.linkedin.com/sales/search/" +:+ ty) = true).
  { rewrite all_chars_app.
    rewrite (all_chars_weaken param_safe url_char ty); [reflexivity| |exact Hs].
    intros c Hc. unfold param_safe in Hc.
    apply andb_prop in Hc as [Hc _]. apply andb_prop in Hc as [Hc _]. exact Hc. }
  assert (B2 : count_char ampersand ("https://www.linkedin.com/sales/search/" +:+ ty) = 0%nat).
  { rewrite count_char_app, (count_char_absent param_safe ampersand ty eq_refl Hs).
    reflexivity. }
  assert (B3 : count_char question_mark ("https://www.linkedin.com/sales/search/" +:+ ty)
               = 0%nat).
  { rewrite count_char_app, (count_char_absent param_safe question_mark ty eq_refl Hs).
    reflexivity. }
  set (b := "https://www.linkedin.com/sales/search/" +:+ ty) in *.
  destruct (url_params filters) as [|p ps] eqn:E; cbn [truthy_list length pred].
  - repeat split; assumption.
  - rewrite !all_chars_app, !count_char_app, B1, B2, B3, J1, J2, J3.
    repeat split. intros H; discriminate H.
Qed.

Lemma append_empty_r (s : string) : s +:+ EmptyString = s.
Proof.
  induction s as [|c s IH]; [reflexivity|].
  change (String c s +:+ EmptyString) with (String c (s +:+ EmptyString)).
  rewrite IH. reflexivity.
Qed.

Lemma result_get_insert_ne (k k' : string) (v d : Value) (r : Result) :
  k <> k' -> result_get (<[k := v]> r) k' d = result_get r k' d.
Proof. intros H. unfold result_get. rewrite lookup_insert_ne by exact H. reflexivity. Qed.

(** X21 ([search], [search_with_progressive_fallback]).  For a record
    without the key [ai_filter_needed], the metadata of strategy 4 or 5
    changes the entry [search] formats in one way only: the marker
    "[AI FILTER NEEDED]" with the original criteria is appended to the
    body; the four lines before it and the href are those of the untagged
    record. *)
Theorem tagged_results_carry_marker (oi : option Intent) (ty : string) (r : Result) :
  r !! "ai_filter_needed" = None ->
  format_result ty (tag_or_broadening oi r)
  = {| href := href (format_result ty r);
       body := body (format_result ty r) +:+ ai_marker (original_criteria_value oi) |} /\
  format_result ty (tag_ultra_broad oi r)
  = {| href := href (format_result ty r);
       body := body (format_result ty r) +:+ ai_marker (intent_value oi) |}.
Proof.
  intros H.
  assert (H0 : ai_filter_info r = EmptyString).
  { unfold ai_filter_info. rewrite H. reflexivity. }
  assert (H4 : ai_filter_info (tag_or_broadening oi r)
               = ai_marker (original_criteria_value oi)).
  { unfold ai_filter_info, tag_or_broadening, result_get.
    rewrite lookup_insert_ne by discriminate.
    rewrite !lookup_insert_eq. reflexivity. }
  assert (H5 : ai_filter_info (tag_ultra_broad oi r) = ai_marker (intent_value oi)).
  { unfold ai_filter_info, tag_ultra_broad, result_get.
    rewrite !lookup_insert_ne by discriminate.
    rewrite !lookup_insert_eq. reflexivity. }
  unfold format_result. rewrite H0, H4, H5. cbn [href body].
  unfold body_line, tag_or_broadening, tag_ultra_broad.
  rewrite !result_get_insert_ne by discriminate.
  destruct (String.eqb ty "companies"); cbn [fst snd];
    rewrite !append_empty_r; split; reflexivity.
Qed.

Lemma spaced_app (r : bool) (a b : list Event) :
  spaced r (a ++ b) = spaced r a && spaced (rested_after r a) b.
Proof.
  revert r. induction a as [|ev a IH]; intros r; [reflexivity|].
  destruct ev as [s|s|secs|page]; cbn [app spaced rested_after]; rewrite IH;
    [apply andb_assoc | reflexivity | reflexivity | apply andb_assoc].
Qed.

Lemma slept_seconds_app (a b : list Event) :
  slept_seconds (a ++ b) = (slept_seconds a + slept_seconds b)%Z.
Proof.
  unfold slept_seconds. induction a as [|ev a IH]; [reflexivity|].
  cbn [app fold_right]. rewrite IH. destruct ev; lia.
Qed.

Lemma level_pause_bounds (k : nat) : (5 <= level_pause k <= 10)%Z.
Proof. destruct k as [|[|[|[|[|[|k]]]]]]; cbn; lia. Qed.

Lemma sleep_budget_pos (levels : list nat) : (0 <= sleep_budget levels)%Z.
Proof.
  induction levels as [|k rest IH]; [cbn; lia|].
  pose proof (level_pause_bounds k).
  destruct rest as [|k' rest]; [cbn [sleep_budget]; lia|].
  change (sleep_budget (k :: k' :: rest))
    with (level_pause k + 15 + sleep_budget (k' :: rest))%Z. lia.
Qed.

Lemma sleep_budget_head (k : nat) (rest : list nat) :
  (level_pause k <= sleep_budget (k :: rest))%Z.
Proof.
  destruct rest as [|k' rest]; [cbn [sleep_budget]; lia|].
  change (sleep_budget (k :: k' :: rest))
    with (level_pause k + 15 + sleep_budget (k' :: rest))%Z.
  pose proof (sleep_budget_pos (k' :: rest)). lia.
Qed.

Lemma tagged_nonempty (k : nat) (filters : SearchFilters) (results : list Result) :
  results <> [] -> tagged k filters results <> [].
Proof.
  intros H. destruct results as [|r rs]; [congruence|].
  destruct k as [|[|[|[|[|[|k]]]]]]; cbn; discriminate.
Qed.

Section Pacing.

Context {Env : Type} (collab : Collaborator Env).
Variables (self_query : string) (filters : SearchFilters)
          (search_type_ : string) (max_results : Z).

Lemma nth_strategy_paced (k : nat) (w : World Env) :
  (1 <= k <= 5)%nat ->
  exists o w' seg,
    nth_strategy collab self_query filters search_type_ max_results k w
    = (Returned o, w') /\
    limiter w' = limiter w /\
    trace w' = trace w ++ seg /\
    spaced true seg = true /\
    (0 <= slept_seconds seg <= level_pause k)%Z /\
    (o <> Some []).
Proof.
  intros Hk. rewrite nth_strategy_shape by exact Hk.
  pose proof (level_pause_bounds k) as Hp.
  destruct (level_guard self_query filters k).
  - rewrite attempt_run.
    set (s := level_strategy self_query filters search_type_ max_results k).
    destruct (driver_get collab s (browser w)) as [[[]|msg] e1].
    + cbn zeta.
      destruct (extract_search_results collab s e1) as [[results|msg] e2].
      * eexists _, _, [Navigate s; Sleep (level_pause k); Extract s].
        split; [reflexivity|]. split; [reflexivity|]. cbn [trace].
        split; [rewrite <- !app_assoc; reflexivity|].
        split; [reflexivity|]. split; [cbn; lia|].
        destruct results as [|r rs]; cbn; [discriminate|].
        intros E. injection E as E. revert E. apply tagged_nonempty. discriminate.
      * eexists _, _, [Navigate s; Sleep (level_pause k); Extract s].
        split; [reflexivity|]. split; [reflexivity|]. cbn [trace].
        split; [rewrite <- !app_assoc; reflexivity|].
        split; [reflexivity|]. split; [cbn; lia | discriminate].
    + eexists _, _, [Navigate s].
      split; [reflexivity|]. split; [reflexivity|]. cbn [trace].
      split; [reflexivity|]. split; [reflexivity|]. split; [cbn; lia | discriminate].
  - exists None, w, []. rewrite app_nil_r.
    repeat split; try reflexivity; try discriminate; cbn; lia.
Qed.

Lemma climb_paced (levels : list nat) (w : World Env) :
  Forall in_range levels ->
  exists results w' new,
    climb collab self_query filters search_type_ max_results levels w
    = (Returned results, w') /\
    limiter w' = limiter w /\
    trace w' = trace w ++ new /\
    spaced true new = true /\
    (0 <= slept_seconds new <= sleep_budget levels)%Z /\
    (results = [] -> 15 * (Z.of_nat (length levels) - 1) <= slept_seconds new)%Z.
Proof.
  intros H. revert w. induction H as [|k rest Hk Hrest IH]; intros w.
  - exists [], w, []. rewrite app_nil_r. cbn. repeat split; try reflexivity; lia.
  - cbn [climb].
    destruct (nth_strategy_paced k w Hk) as (o & w1 & seg & E & Hl & Ht & Hs & Hb & Ho).
    rewrite (or_else_run _ _ _ _ _ E).
    pose proof (sleep_budget_pos rest) as Hpos.
    pose proof (level_pause_bounds k) as Hp.
    destruct o as [results|].
    + exists results, w1, seg. split; [reflexivity|]. split; [exact Hl|].
      split; [exact Ht|]. split; [exact Hs|].
      split; [pose proof (sleep_budget_head k rest); lia|].
      intros ->. congruence.
    + destruct rest as [|k' rest'].
      * exists [], w1, seg. split; [reflexivity|]. split; [exact Hl|].
        split; [exact Ht|]. split; [exact Hs|]. cbn [sleep_budget length].
        split; lia.
      * rewrite sleep_run.
        destruct (IH (slept 15 w1)) as (rs & w' & new & E' & Hl' & Ht' & Hs' & Hb' & Hr').
        exists rs, w', (seg ++ Sleep 15 :: new).
        split; [exact E'|]. split; [rewrite Hl'; exact Hl|].
        split; [rewrite Ht'; cbn [slept trace]; rewrite Ht, <- !app_assoc; reflexivity|].
        split.
        { rewrite spaced_app, Hs. cbn [andb spaced].
          rewrite orb_true_r. exact Hs'. }
        rewrite slept_seconds_app.
        change (slept_seconds (Sleep 15 :: new)) with (15 + slept_seconds new)%Z.
        split.
        { change (sleep_budget (k :: k' :: rest'))
            with (level_pause k + 15 + sleep_budget (k' :: rest'))%Z. lia. }
        intros Hrs. specialize (Hr' Hrs). cbn [length] in *. lia.
Qed.

(** X22 ([search_with_progressive_fallback]).  Whatever the browser and
    the extractor do, in the events a ladder run adds every page load
    but the first comes after a sleep of at least 15 seconds since the
    load before it; the run sleeps at most 95 seconds in all, and at
    least 60 when it returns the empty list. *)
Theorem fallback_paces_page_loads (w : World Env) :
  exists results w' new,
    search_with_progressive_fallback collab self_query filters search_type_ max_results w
    = (Returned results, w') /\
    trace w' = trace w ++ new /\
    spaced true new = true /\
    (0 <= slept_seconds new <= 95)%Z /\
    (results = [] -> 60 <= slept_seconds new)%Z.
Proof.
  rewrite search_is_climb.
  destruct (climb_paced [1; 2; 3; 4; 5]%nat w) as (rs & w' & new & E & _ & Ht & Hs & Hb & Hr).
  { repeat constructor. }
  exists rs, w', new. split; [exact E|]. split; [exact Ht|]. split; [exact Hs|].
  split; [exact Hb | exact Hr].
Qed.

End Pacing.

Lemma attempted_login (tr : list Event) (steps : list LoginStep) :
  attempted (tr ++ map login_event steps) = attempted tr.
Proof.
  rewrite attempted_app.
  assert (H : attempted (map login_event steps) = []).
  { induction steps as [|[page|secs] steps IH]; [reflexivity | exact IH | exact IH]. }
  rewrite H. apply app_nil_r.
Qed.

Section Entry.

Context {Env : Type} (collab : Collaborator Env).
Variables (login : Env -> LoginRun Env) (quit_driver : Env -> Env).

(** What [search_leads] and [search_companies] do, by the outcome of the
    login. *)
Lemma search_for_run (ty query : string) (max_results : Z) (w : World Env) :
  search_for collab login ty query max_results w =
  let l := login (browser w) in
  match logged_in l with
  | Returned true =>
      let run := search_with_progressive_fallback
                   collab query (parse_query_filters query) ty max_results
                   (logged l w) in
      match fst run with
      | Returned results => (Returned (Some results), snd run)
      | Raised _ => (Returned (Some []), snd run)
      end
  | Returned false => (Returned None, logged l w)
  | Raised msg => (Raised msg, logged l w)
  end.
Proof.
  destruct w as [e0 rl tr]. unfold search_for, self_login, bind, logged.
  cbn [browser limiter trace].
  destruct (login e0) as [[[]|msg] e pages]; cbn; try reflexivity.
  unfold try_except, bind, ret.
  destruct (search_with_progressive_fallback collab query (parse_query_filters query)
              ty max_results
              {| browser := e; limiter := rl; trace := tr ++ map login_event pages |})
    as [[results|msg] w1]; reflexivity.
Qed.

(** What [search] does, by the state of the event loop. *)
Lemma search_run (loop : EventLoop) (query : string) (max_results : Z) (w : World Env) :
  search collab login quit_driver loop query max_results w =
  let companies := is_company_query query in
  match loop with
  | Idle =>
      match search_for collab login (if companies then "companies" else "people")
                       query max_results w with
      | (Returned (Some results), w') =>
          (Returned (map (format_result (if companies then "companies" else "leads"))
                         results),
           cleanup quit_driver w')
      | (_, w') => (Returned [], cleanup quit_driver w')
      end
  | _ => (Returned [], cleanup quit_driver w)
  end.
Proof.
  unfold search, try_finally, try_except, bind, search_companies, search_leads,
    run_until_complete, raise.
  cbn zeta. destruct loop; [|destruct (is_company_query query); reflexivity..].
  destruct (is_company_query query);
    match goal with |- context [search_for ?c ?l ?t ?q ?m ?w] =>
      destruct (search_for c l t q m w) as [[[results|]|msg] w'] end; reflexivity.
Qed.

(** X23 ([search], [search_leads], [search_companies]).  [search]
    never raises and leaves the rate limiter as it was, whatever the
    event loop, the login, the browser and the extractor do.  On an
    event loop that is running or closed it returns the empty list
    without calling the login or loading a page, and closes the browser.
    On an idle loop, when the login does not return [True] (it returns
    [False] or raises), the list is empty, no page of the ladder is
    loaded (the trace grows by the page loads and sleeps of the login
    only), and the browser is closed in the state the login left it. *)
Theorem search_always_returns (loop : EventLoop) (query : string) (max_results : Z)
        (w : World Env) :
  exists formatted w',
    search collab login quit_driver loop query max_results w = (Returned formatted, w') /\
    limiter w' = limiter w /\
    (loop <> Idle -> formatted = [] /\ w' = cleanup quit_driver w) /\
    (loop = Idle ->
     logged_in (login (browser w)) <> Returned true ->
     formatted = [] /\
     w' = cleanup quit_driver (logged (login (browser w)) w) /\
     attempted (trace w') = attempted (trace w)).
Proof.
  rewrite search_run. cbn zeta.
  destruct loop;
    [|eexists _, _; (split; [reflexivity|]); (split; [destruct w; reflexivity|]);
      (split; [intros _; split; reflexivity | intros H; discriminate H])..].
  rewrite search_for_run. cbn zeta.
  destruct (logged_in (login (browser w))) as [[]|msg] eqn:El.
  - set (ty := if is_company_query query then "companies" else "people").
    destruct (climb_returns collab query (parse_query_filters query) ty max_results
                [1; 2; 3; 4; 5]%nat (logged (login (browser w)) w))
      as (rs & w1 & E & Hl); [repeat constructor; cbv; lia|].
    rewrite <- search_is_climb in E. rewrite E. cbn [fst snd].
    eexists _, _. split; [reflexivity|].
    split; [destruct w1; exact Hl|].
    split; [intros H; congruence | intros _ H; congruence].
  - eexists _, _. split; [reflexivity|]. split; [reflexivity|].
    split; [intros H; congruence|]. intros _ _.
    split; [reflexivity|]. split; [reflexivity|].
    cbn. apply attempted_login.
  - eexists _, _. split; [reflexivity|]. split; [reflexivity|].
    split; [intros H; congruence|]. intros _ _.
    split; [reflexivity|]. split; [reflexivity|].
    cbn. apply attempted_login.
Qed.

(** X24 ([search], [search_leads], [search_companies]).  Called from
    synchronous code (the event loop is idle) with an ASCII query, after
    a successful login [search] returns the results of the ladder run on
    the filters parsed from the query, each formatted, in the same
    order: on search type "companies" with the company layout when the
    lower-cased query contains "company", "companies" or "startup", and
    on search type "people" with the lead layout otherwise; the browser
    is closed afterwards. *)
Theorem search_formats_fallback (loop : EventLoop) (query : string) (max_results : Z)
        (w : World Env) :
  loop = Idle ->
  is_ascii query = true ->
  logged_in (login (browser w)) = Returned true ->
  let companies := is_company_query query in
  let run := search_with_progressive_fallback
               collab query (parse_query_filters query)
               (if companies then "companies" else "people") max_results
               (logged (login (browser w)) w) in
  exists results,
    fst run = Returned results /\
    search collab login quit_driver loop query max_results w
    = (Returned (map (format_result (if companies then "companies" else "leads")) results),
       cleanup quit_driver (snd run)).
Proof.
  intros -> _ Hlogin. cbn zeta. rewrite search_run. cbn zeta.
  rewrite search_for_run. cbn zeta. rewrite Hlogin.
  set (ty := if is_company_query query then "companies" else "people").
  destruct (climb_returns collab query (parse_query_filters query) ty max_results
              [1; 2; 3; 4; 5]%nat (logged (login (browser w)) w))
    as (rs & w1 & E & Hl); [repeat constructor; cbv; lia|].
  rewrite <- search_is_climb in E. rewrite E. cbn [fst snd].
  exists rs. split; reflexivity.
Qed.

End Entry.

Lemma text_or_na_nonempty (t : string) : text_or_na t <> EmptyString.
Proof.
  unfold text_or_na. destruct (truthy_str t) eqn:E; [|discriminate].
  intros ->. discriminate E.
Qed.

Lemma lead_of_plain (element : Element) : Forall plain_record (lead_of element).
Proof.
  unfold lead_of. destruct (ancestor element) as [c|]; [|constructor].
  destruct (element_text element) as [t|]; constructor; [|constructor].
  split; [|repeat split; reflexivity].
  exists (text_or_na t). split; [reflexivity | apply text_or_na_nonempty].
Qed.

Lemma company_of_plain (element : Element) : Forall plain_record (company_of element).
Proof.
  unfold company_of. destruct (ancestor element) as [c|]; [|constructor].
  destruct (element_text element) as [t|]; constructor; [|constructor].
  split; [|repeat split; reflexivity].
  exists (text_or_na t). split; [reflexivity | apply text_or_na_nonempty].
Qed.

Lemma flat_map_plain {A} (f : A -> list Result) (l : list A) :
  (forall x, Forall plain_record (f x)) ->
  (forall x, (length (f x) <= 1)%nat) ->
  Forall plain_record (flat_map f l) /\ (length (flat_map f l) <= length l)%nat.
Proof.
  intros Hp Hl. induction l as [|x l [IH1 IH2]]; [split; [constructor | reflexivity]|].
  cbn [flat_map length]. split; [apply Forall_app; split; [apply Hp | exact IH1]|].
  rewrite length_app. specialize (Hl x). lia.
Qed.

Lemma lead_of_length (element : Element) : (length (lead_of element) <= 1)%nat.
Proof.
  unfold lead_of. destruct (ancestor element); [|cbn; lia].
  destruct (element_text element); cbn; lia.
Qed.

Lemma company_of_length (element : Element) : (length (company_of element) <= 1)%nat.
Proof.
  unfold company_of. destruct (ancestor element); [|cbn; lia].
  destruct (element_text element); cbn; lia.
Qed.

Lemma slice_to_length {A} (n : Z) (l : list A) :
  length (slice_to n l)
  = if (0 <=? n)%Z then Nat.min (Z.to_nat n) (length l)
    else Z.to_nat (Z.of_nat (length l) + n).
Proof.
  unfold slice_to. destruct (0 <=? n)%Z eqn:E; rewrite length_take; [reflexivity|].
  apply Z.leb_gt in E. lia.
Qed.


Lemma extract_search_results_run (page : Page) (ty : string) (n : Z) :
  Forall plain_record (_extract_search_results page ty n) /\
  (length (_extract_search_results page ty n) <= length (slice_to n (found page ty)))%nat.
Proof.
  unfold _extract_search_results, found.
  destruct (String.eqb ty "people").
  - destruct (person_names page) as [els|]; [|split; [constructor | cbn; lia]].
    apply flat_map_plain; [apply lead_of_plain | apply lead_of_length].
  - destruct (company_names page) as [els|]; [|split; [constructor | cbn; lia]].
    apply flat_map_plain; [apply company_of_plain | apply company_of_length].
Qed.

Lemma extract_search_results_bounds (page : Page) (ty : string) (n : Z) :
  (0 <= n)%Z -> (Z.of_nat (length (_extract_search_results page ty n)) <= n)%Z.
Proof.
  intros Hn. destruct (extract_search_results_run page ty n) as [_ Hl].
  rewrite slice_to_length in Hl. apply Z.leb_le in Hn. rewrite Hn in Hl.
  apply Z.leb_le in Hn. lia.
Qed.

Section Provenance.

Context {Env : Type} (collab : Collaborator Env).
Variables (self_query : string) (filters : SearchFilters)
          (search_type_ : string) (max_results : Z).


Lemma nth_strategy_result (k : nat) (w w' : World Env) (results : list Result) :
  (1 <= k <= 5)%nat ->
  nth_strategy collab self_query filters search_type_ max_results k w
  = (Returned (Some results), w') ->
  level_guard self_query filters k = true /\ from_level collab self_query filters search_type_ max_results k results.
Proof.
  intros Hk. rewrite nth_strategy_shape by exact Hk.
  destruct (level_guard self_query filters k); [|discriminate].
  rewrite attempt_run.
  set (s := level_strategy self_query filters search_type_ max_results k).
  destruct (driver_get collab s (browser w)) as [[[]|msg] e1]; [|discriminate].
  cbn zeta.
  destruct (extract_search_results collab s e1) as [[raw|msg] e2] eqn:E; [|discriminate].
  destruct raw as [|r raw]; cbn [length Nat.ltb Nat.leb]; [discriminate|].
  intros H. injection H as <- _. split; [reflexivity|].
  exists e1, (r :: raw), e2. split; [exact E|]. split; [discriminate | reflexivity].
Qed.

Lemma climb_result (levels : list nat) (w w' : World Env) (results : list Result) :
  Forall in_range levels ->
  climb collab self_query filters search_type_ max_results levels w
  = (Returned results, w') ->
  results = [] \/
  exists k, In k levels /\ level_guard self_query filters k = true /\
            from_level collab self_query filters search_type_ max_results k results.
Proof.
  intros H. revert w. induction H as [|k rest Hk Hrest IH]; intros w.
  - cbn. intros E. injection E as <- _. left. reflexivity.
  - cbn [climb].
    destruct (nth_strategy_returns collab self_query filters search_type_ max_results
                k w Hk) as (o & w1 & E & _).
    rewrite (or_else_run _ _ _ _ _ E). destruct o as [rs|].
    + intros H. injection H as <- _. right. exists k.
      destruct (nth_strategy_result k w w1 rs Hk E) as [Hg Hf].
      split; [left; reflexivity|]. split; assumption.
    + destruct rest as [|k' rest'].
      * intros H. injection H as <- _. left. reflexivity.
      * rewrite sleep_run. intros H. destruct (IH _ H) as [->|(j & Hj & Hg & Hf)];
          [left; reflexivity|].
        right. exists j. split; [right; exact Hj|]. split; assumption.
Qed.

(** X26 ([search_with_progressive_fallback]).  For ASCII query text and
    whatever the collaborator does, the list a ladder run returns is
    empty or is the whole non-empty list the extractor returned at one
    level in range whose guard holds, with the metadata of that level:
    results of two levels are never merged and no result is dropped. *)
Theorem fallback_result_provenance (w : World Env) :
  is_ascii (raw_keywords self_query filters) = true ->
  exists results w',
    search_with_progressive_fallback collab self_query filters search_type_ max_results w
    = (Returned results, w') /\
    (results = [] \/
     exists k, in_range k /\ level_guard self_query filters k = true /\
               from_level collab self_query filters search_type_ max_results k results).
Proof.
  intros _.
  assert (Hr : Forall in_range [1; 2; 3; 4; 5]%nat) by (repeat constructor; cbv; lia).
  rewrite search_is_climb.
  destruct (climb_returns collab self_query filters search_type_ max_results _ w Hr)
    as (rs & w' & E & _).
  exists rs, w'. split; [exact E|].
  destruct (climb_result _ _ _ _ Hr E) as [->|(k & Hk & Hg & Hf)]; [left; reflexivity|].
  right. exists k. split; [|split; assumption].
  rewrite Forall_forall in Hr. apply Hr. apply list_elem_of_In. exact Hk.
Qed.

End Provenance.

Lemma tagged_length (k : nat) (filters : SearchFilters) (results : list Result) :
  length (tagged k filters results) = length results.
Proof.
  destruct k as [|[|[|[|[|[|k]]]]]]; cbn [tagged]; rewrite ?length_map; reflexivity.
Qed.

Lemma level_strategy_count (q : string) (filters : SearchFilters) (ty : string)
      (n : Z) (k : nat) :
  (0 <= n)%Z ->
  (0 <= max_count (level_strategy q filters ty n k) <= 3 * n)%Z.
Proof.
  intros Hn. destruct k as [|[|[|[|[|[|k]]]]]]; cbn; lia.
Qed.

(** X27 ([search], [_extract_search_results]).  Over the extractor of
    the source and for a non-negative [max_results], [search] returns at
    most three times [max_results] entries: strategies 4 and 5 ask the
    extractor for two and three times as many as requested, and nothing
    cuts the list afterwards. *)
Theorem search_result_count (site : string -> option Page)
        (login : option Page -> LoginRun (option Page))
        (quit_driver : option Page -> option Page) (loop : EventLoop)
        (query : string) (max_results : Z) (w : World (option Page)) :
  (0 <= max_results)%Z ->
  exists formatted w',
    search (web site) login quit_driver loop query max_results w
    = (Returned formatted, w') /\
    (Z.of_nat (length formatted) <= 3 * max_results)%Z.
Proof.
  intros Hn. rewrite search_run. cbn zeta.
  destruct loop; try (eexists _, _; split; [reflexivity | cbn; lia]).
  rewrite search_for_run. cbn zeta.
  destruct (logged_in (login (browser w))) as [[]|msg]; cbn [fst snd];
    try (eexists _, _; split; [reflexivity | cbn; lia]).
  set (ty := if is_company_query query then "companies" else "people").
  assert (Hr : Forall in_range [1; 2; 3; 4; 5]%nat) by (repeat constructor; cbv; lia).
  destruct (climb_returns (web site) query (parse_query_filters query) ty max_results
              _ (logged (login (browser w)) w) Hr)
    as (rs & w1 & E & _).
  destruct (climb_result _ _ _ _ _ _ _ _ _ Hr E) as [->|(k & _ & _ & Hf)];
    rewrite <- search_is_climb in E; rewrite E; cbn [fst snd];
    eexists _, _; (split; [reflexivity|]); [cbn; lia|].
  destruct Hf as (e0 & raw & e' & Hx & _ & ->).
  rewrite length_map, tagged_length.
  pose proof (level_strategy_count query (parse_query_filters query) ty max_results k Hn)
    as Hc.
  cbn [web extract_search_results] in Hx. injection Hx as <- _.
  destruct e0 as [page|]; [|cbn; lia].
  pose proof (extract_search_results_bounds page
                (search_type (level_strategy query (parse_query_filters query) ty
                                             max_results k))
                (max_count (level_strategy query (parse_query_filters query) ty
                                           max_results k))) as Hb.
  lia.
Qed.


(** X25 ([_extract_search_results]).  Every record the extractor builds
    has a non-empty name (the text of the element, or "N/A"), the source
    stamp, and none of the AI-filter keys.  There are at most as many
    records as elements found; for a non-negative [max_results] at most
    [max_results]; for a negative one at most the number of elements
    found less its absolute value (the slice then counts from the end),
    and none when that is not positive. *)
Theorem extract_search_results_records (page : Page) (ty : string) (n : Z) :
  let results := _extract_search_results page ty n in
  let elements := found page ty in
  Forall plain_record results /\
  (length results <= length elements)%nat /\
  ((0 <= n)%Z -> (Z.of_nat (length results) <= n)%Z) /\
  ((n < 0)%Z ->
   (Z.of_nat (length results) <= Z.max 0 (Z.of_nat (length elements) + n))%Z).
Proof.
  cbn zeta. destruct (extract_search_results_run page ty n) as [Hp Hl].
  rewrite slice_to_length in Hl.
  split; [exact Hp|].
  destruct (0 <=? n)%Z eqn:E; [apply Z.leb_le in E | apply Z.leb_gt in E];
    repeat split; intros; lia.
Qed.

(** *** Instances *)

Example parse_intent_sample : parse_intent sample_query = sample_intent.
Proof. vm_compute. reflexivity. Qed.

Example parse_intent_short : parse_intent short_query = short_intent.
Proof. vm_compute. reflexivity. Qed.

(** The slice [[:-1]] keeps the first two elements; the second has no
    container and is skipped. *)
Example extract_sample_page :
  map (fun r => r !! "name") (_extract_search_results sample_page "people" (-1))
  = [Some (VStr "Ann Lee")].
Proof. vm_compute. reflexivity. Qed.

(** With [max_results = 1] the last-resort site gives two entries. *)
Example search_returns_more_than_asked :
  length <$> (match fst (search (web last_resort_site) web_login_ok (fun _ => None)
                                Idle skill_query 1 web_world) with
              | Returned l => Some l
              | Raised _ => None
              end)
  = Some 2%nat.
Proof. vm_compute. reflexivity. Qed.

(** Called from a coroutine, [search] finds nothing at a site that has
    results. *)
Example search_under_running_loop :
  search (web sample_site) web_login_ok (fun _ => None) Running skill_query 10 web_world
  = (Returned [], web_world).
Proof. vm_compute. reflexivity. Qed.

Lemma simple_keywords_clean_witness :
  _extract_simple_keywords "Find the CTO of a Fintech in Madrid!"
  = ["find"; "cto"; "fintech"; "madrid"] /\
  Forall (fun kw => (2 < String.length kw)%nat /\
                    all_chars clean_char kw = true /\
                    in_strings kw stop_words = false)
         (_extract_simple_keywords "Find the CTO of a Fintech in Madrid!").
Proof.
  split; [reflexivity|].
  apply (simple_keywords_clean "Find the CTO of a Fintech in Madrid!"). reflexivity.
Defined.

Lemma fallback_result_provenance_witness :
  exists results w',
    search_with_progressive_fallback (stub_at 3) sample_query sample_filters "people" 10
                                     sample_world
    = (Returned results, w') /\
    (results = [] \/
     exists k, in_range k /\ level_guard sample_query sample_filters k = true /\
               from_level (stub_at 3) sample_query sample_filters "people" 10 k results).
Proof.
  apply (fallback_result_provenance (stub_at 3) sample_query sample_filters "people" 10
                                    sample_world).
  reflexivity.
Defined.

Lemma or_broadening_query_groups_witness :
  _create_or_broadening_query
    (Some (with_criteria {| size := None; funding := None |} (parse_intent full_query)))
  = _create_or_broadening_query (Some (parse_intent full_query)).
Proof.
  destruct (or_broadening_query_groups (Some (parse_intent full_query))) as (_ & H & _).
  destruct (H (parse_intent full_query) {| size := None; funding := None |} eq_refl)
    as [H1 _]; [reflexivity | reflexivity | reflexivity | exact H1].
Defined.

Lemma javascript_also_java_witness :
  In "Java" (skills (parse_intent skill_query)) /\
  dict_find "functionIncluded" (native_filters (parse_query_filters skill_query))
  = Some "engineering".
Proof.
  destruct (javascript_also_java skill_query) as (_ & H1 & _ & H2);
    [vm_compute; reflexivity|].
  split; [exact H1 | exact H2].
Defined.

Lemma build_sales_nav_url_safe_witness :
  all_chars url_char (build_sales_nav_url sample_filters "people") = true /\
  count_char ampersand (build_sales_nav_url sample_filters "people")
  = pred (param_count sample_filters).
Proof.
  destruct (build_sales_nav_url_safe sample_filters "people") as (H1 & H2 & _).
  - reflexivity.
  - repeat constructor.
  - split; [exact H1 | exact H2].
Defined.

Lemma tagged_results_carry_marker_witness :
  body (format_result "leads" (tag_or_broadening (Some sample_intent) sample_lead))
  = body (format_result "leads" sample_lead)
    +:+ ai_marker (original_criteria_value (Some sample_intent)).
Proof.
  destruct (tagged_results_carry_marker (Some sample_intent) "leads" sample_lead)
    as [H _]; [reflexivity|].
  rewrite H. reflexivity.
Defined.

Lemma search_always_returns_witness :
  search stub_empty login_refused (fun e => e) Idle sample_query 10 sample_world
  = (Returned [],
     {| browser := tt; limiter := limiter sample_world;
        trace := [Visit "https://www.linkedin.com/login"; Sleep 3] |}) /\
  fst (search stub_empty login_crashes (fun e => e) Idle sample_query 10 sample_world)
  = Returned [] /\
  search (stub_at 1) login_ok (fun e => e) Running sample_query 10 sample_world
  = (Returned [], sample_world).
Proof.
  split; [|split].
  - destruct (search_always_returns stub_empty login_refused (fun e => e) Idle
                sample_query 10 sample_world) as (l & w' & E & _ & _ & H).
    destruct H as (-> & -> & _); [reflexivity | discriminate|]. rewrite E. reflexivity.
  - destruct (search_always_returns stub_empty login_crashes (fun e => e) Idle
                sample_query 10 sample_world) as (l & w' & E & _ & _ & H).
    destruct H as (-> & _); [reflexivity | discriminate|]. rewrite E. reflexivity.
  - destruct (search_always_returns (stub_at 1) login_ok (fun e => e) Running
                sample_query 10 sample_world) as (l & w' & E & _ & H & _).
    destruct H as (-> & ->); [discriminate|]. rewrite E. reflexivity.
Defined.

Lemma search_formats_fallback_witness :
  exists results,
    fst (search_with_progressive_fallback
           (stub_at 4) company_query (parse_query_filters company_query) "companies" 10
           sample_world) = Returned results /\
    fst (search (stub_at 4) login_ok (fun e => e) Idle company_query 10 sample_world)
    = Returned (map (format_result "companies") results).
Proof.
  destruct (search_formats_fallback (stub_at 4) login_ok (fun e => e) Idle
              company_query 10 sample_world eq_refl eq_refl eq_refl) as (rs & H1 & H2).
  exists rs. split; [exact H1|]. rewrite H2. reflexivity.
Defined.

Lemma extract_search_results_records_witness :
  (Z.of_nat (length (_extract_search_results sample_page "people" 1)) <= 1)%Z /\
  (Z.of_nat (length (_extract_search_results sample_page "people" (-1))) <= 2)%Z.
Proof.
  split.
  - destruct (extract_search_results_records sample_page "people" 1)
      as (_ & _ & H & _). apply H. lia.
  - destruct (extract_search_results_records sample_page "people" (-1))
      as (_ & _ & _ & H). apply H. lia.
Defined.

Lemma search_result_count_witness :
  exists formatted w',
    search (web last_resort_site) web_login_ok (fun _ => None) Idle skill_query 1
           web_world
    = (Returned formatted, w') /\
    (Z.of_nat (length formatted) <= 3 * 1)%Z.
Proof.
  apply (search_result_count last_resort_site web_login_ok (fun _ => None) Idle
           skill_query 1 web_world).
  lia.
Defined.

End SearchExtras.
